(** * seldom-platform (backendnew): scheduling and task execution core

    A shallow embedding of the Go services that turn stored task rows into
    execution batches (services.TaskService, services.SchedulerService) and of
    the validators of package utils (IsValidCronExpression, IsValidUsername,
    IsValidPassword, SanitizeString), together with the properties of the
    specification that are stated about them.

    Conventions.
    - Go [string] is a byte string: Rocq [string].
    - Go [int], [uint] are [Z]; counters that are bounded by a slice length
      cannot wrap and are left unbounded, [time.Duration] (int64) arithmetic
      wraps explicitly.
    - Go [float64] is Rocq's primitive binary64 [float].
    - Functions of Go's standard library and of gorm that the services call
      are not part of the repository; module [Go] models the ones needed from
      their documented behaviour. *)

From Stdlib Require Import ZArith List String Ascii Bool Lia.
From Stdlib Require Import Numbers.DecimalString Numbers.DecimalPos.
From Stdlib Require Import Floats.
Import ListNotations.

Open Scope string_scope.
Open Scope Z_scope.

(* ===================================================================== *)
(** ** Go standard library: strings, unicode, fmt                          *)
(* ===================================================================== *)

Module Go.

(** [fmt.Sprintf("%d", n)] *)
Definition Sprintf_d (n : Z) : string :=
  NilEmpty.string_of_int (Z.to_int n).

Definition byte_val (c : ascii) : Z := Z.of_N (N_of_ascii c).

(** Unicode replacement character, returned for malformed UTF-8. *)
Definition RuneError : Z := 65533.

Definition is_cont (b : Z) : bool := (128 <=? b) && (b <=? 191).

(** [utf8.DecodeRuneInString]: the first rune of a non-empty byte sequence
    and its width in bytes; malformed input decodes to [RuneError] with
    width 1.  The second byte of a multi-byte form is checked against the
    accept range of the first (no overlong forms, no surrogates, nothing
    above U+10FFFF). *)
Definition DecodeRune (p0 : Z) (rest : list Z) : Z * nat :=
  if p0 <? 128 then (p0, 1%nat)
  else if (p0 <? 194) || (244 <? p0) then (RuneError, 1%nat)
  else if p0 <? 224 then
    match rest with
    | b1 :: _ =>
        if is_cont b1
        then (Z.lor (Z.shiftl (Z.land p0 31) 6) (Z.land b1 63), 2%nat)
        else (RuneError, 1%nat)
    | _ => (RuneError, 1%nat)
    end
  else if p0 <? 240 then
    match rest with
    | b1 :: b2 :: _ =>
        let lo := if p0 =? 224 then 160 else 128 in
        let hi := if p0 =? 237 then 159 else 191 in
        if (lo <=? b1) && (b1 <=? hi) && is_cont b2
        then (Z.lor (Z.lor (Z.shiftl (Z.land p0 15) 12)
                           (Z.shiftl (Z.land b1 63) 6)) (Z.land b2 63), 3%nat)
        else (RuneError, 1%nat)
    | _ => (RuneError, 1%nat)
    end
  else
    match rest with
    | b1 :: b2 :: b3 :: _ =>
        let lo := if p0 =? 240 then 144 else 128 in
        let hi := if p0 =? 244 then 143 else 191 in
        if (lo <=? b1) && (b1 <=? hi) && is_cont b2 && is_cont b3
        then (Z.lor (Z.lor (Z.lor (Z.shiftl (Z.land p0 7) 18)
                                  (Z.shiftl (Z.land b1 63) 12))
                           (Z.shiftl (Z.land b2 63) 6)) (Z.land b3 63), 4%nat)
        else (RuneError, 1%nat)
    | _ => (RuneError, 1%nat)
    end.

(** One step of [for end, rune := range s]: the rune at the head of the
    string, the bytes that encode it, and the rest of the string. *)
Record chunk := { rune : Z; text : string }.

Definition bytes_of (s : string) : list Z := map byte_val (list_ascii_of_string s).

Fixpoint take (n : nat) (s : string) : string :=
  match n, s with
  | S n', String c s' => String c (take n' s')
  | _, _ => ""
  end.

Fixpoint drop (n : nat) (s : string) : string :=
  match n, s with
  | S n', String _ s' => drop n' s'
  | _, _ => s
  end.

Fixpoint range_string (fuel : nat) (s : string) : list chunk :=
  match fuel, s with
  | S fuel', String c s' =>
      let (r, w) := DecodeRune (byte_val c) (bytes_of s') in
      {| rune := r; text := take w s |} :: range_string fuel' (drop w s)
  | _, _ => []
  end.

Definition runes (s : string) : list chunk := range_string (String.length s) s.

(** [unicode.IsSpace]: in Latin-1 the characters tab, newline, vertical tab,
    form feed, carriage return, space, U+0085 and U+00A0; beyond it the
    code points with the White_Space property. *)
Definition IsSpace (r : Z) : bool :=
  ((9 <=? r) && (r <=? 13)) || (r =? 32) || (r =? 133) || (r =? 160)
  || (r =? 5760) || ((8192 <=? r) && (r <=? 8202))
  || (r =? 8232) || (r =? 8233) || (r =? 8239) || (r =? 8287) || (r =? 12288).

Section FieldsFunc.
Variable f : Z -> bool.

  (** The loop of [strings.FieldsFunc].  Go keeps the byte offset [start] of
      the field being scanned (negative when between fields) and cuts
      [s[start:end]] when a separator follows; here [cur] carries the bytes
      of that open field, most recent chunk first. *)
Fixpoint FieldsFunc_loop (cur : option (list chunk)) (l : list chunk)
    : list (list chunk) :=
    match l with
    | [] => match cur with Some fld => [rev fld] | None => [] end
    | c :: l' =>
        if f (rune c) then
          match cur with
          | Some fld => rev fld :: FieldsFunc_loop None l'
          | None => FieldsFunc_loop None l'
          end
        else
          match cur with
          | Some fld => FieldsFunc_loop (Some (c :: fld)) l'
          | None => FieldsFunc_loop (Some [c]) l'
          end
    end.

Definition span_text (fld : list chunk) : string :=
    fold_right (fun c acc => text c ++ acc) "" fld.

Definition FieldsFunc (s : string) : list string :=
    map span_text (FieldsFunc_loop None (runes s)).
End FieldsFunc.

(** [strings.Fields]: split around runs of white space. *)
Definition Fields (s : string) : list string := FieldsFunc IsSpace s.

(** *** float64 conversions *)

(** [float64(n)] for an integer of magnitude at most 2^63 (round to nearest
    even, as the primitive conversion does). *)
Definition float64_of_int (n : Z) : float :=
  let a := Z.abs n in
  let m := if a <? 2 ^ 63 then PrimFloat.of_uint63 (Uint63.of_Z a)
           else Z.ldexp PrimFloat.one 63 in
  if n <? 0 then PrimFloat.opp m else m.

(** [uint64(x)] / [int64(x)] for a finite float in range: truncation. *)
Definition int_of_float64 (x : float) : Z :=
  match Prim2SF x with
  | S754_finite s m e =>
      let a := if 0 <=? e then Z.pos m * 2 ^ e else Z.pos m / 2 ^ (- e) in
      if s then - a else a
  | _ => 0
  end.

(** *** package time *)

(** A [time.Duration] is a signed 64-bit count of nanoseconds. *)
Definition Duration := Z.

Definition wrap64 (z : Z) : Z := (z + 2 ^ 63) mod 2 ^ 64 - 2 ^ 63.

Definition Nanosecond : Duration := 1.
Definition Microsecond : Duration := 1000.
Definition Millisecond : Duration := 1000000.
Definition Second : Duration := 1000000000.
Definition Minute : Duration := 60 * Second.
Definition Hour : Duration := 60 * Minute.

(** [Duration.Seconds]: whole seconds plus the fractional remainder, both
    by truncating division. *)
Definition Duration_Seconds (d : Duration) : float :=
  let sec := Z.quot d Second in
  let nsec := Z.rem d Second in
  (float64_of_int sec + float64_of_int nsec / 1e9)%float.

Definition is_digit (c : ascii) : bool :=
  (48 <=? byte_val c) && (byte_val c <=? 57).

Definition digit_val (c : ascii) : Z := byte_val c - 48.

(** [leadingInt]: the decimal prefix of [s] as an integer and the rest of
    [s]; [None] when the prefix exceeds 2^63. *)
Fixpoint leadingInt (x : Z) (s : string) : option (Z * string) :=
  match s with
  | String c s' =>
      if is_digit c then
        if 2 ^ 63 / 10 <? x then None
        else
          let x' := x * 10 + digit_val c in
          if 2 ^ 63 <? x' then None else leadingInt x' s'
      else Some (x, s)
  | EmptyString => Some (x, s)
  end.

(** [leadingFraction]: the digits after the decimal point as an integer
    [x] with [scale] = 10^(digits used); digits beyond the precision of
    the accumulator are consumed and dropped. *)
Fixpoint leadingFraction (x : Z) (scale : float) (overflow : bool) (s : string)
  : Z * float * string :=
  match s with
  | String c s' =>
      if is_digit c then
        if overflow then leadingFraction x scale overflow s'
        else if (2 ^ 63 - 1) / 10 <? x then leadingFraction x scale true s'
        else
          let y := x * 10 + digit_val c in
          if 2 ^ 63 <? y then leadingFraction x scale true s'
          else leadingFraction y (scale * 10)%float overflow s'
      else (x, scale, s)
  | EmptyString => (x, scale, s)
  end.

(** The unit scan: bytes up to the next ['.'] or digit. *)
Fixpoint unit_span (s : string) : string * string :=
  match s with
  | String c s' =>
      if Ascii.eqb c "."%char || is_digit c then ("", s)
      else let (u, r) := unit_span s' in (String c u, r)
  | EmptyString => ("", s)
  end.

Definition micro_sign : string := String (ascii_of_nat 194) (String (ascii_of_nat 181) "").
Definition greek_mu : string := String (ascii_of_nat 206) (String (ascii_of_nat 188) "").

Definition unitMap (u : string) : option Z :=
  if String.eqb u "ns" then Some Nanosecond
  else if String.eqb u "us" then Some Microsecond
  else if String.eqb u (micro_sign ++ "s") then Some Microsecond
  else if String.eqb u (greek_mu ++ "s") then Some Microsecond
  else if String.eqb u "ms" then Some Millisecond
  else if String.eqb u "s" then Some Second
  else if String.eqb u "m" then Some Minute
  else if String.eqb u "h" then Some Hour
  else None.

Definition starts_number (s : string) : bool :=
  match s with
  | String c _ => Ascii.eqb c "."%char || is_digit c
  | EmptyString => false
  end.

(** The body of [ParseDuration]'s loop [for s != ""]: one
    number-with-unit group is read per iteration and added to [d].  Every
    iteration consumes at least the unit, so [length s] iterations are
    always enough; [fuel] only makes the recursion structural. *)
Fixpoint ParseDuration_loop (fuel : nat) (d : Z) (s : string) : option Z :=
  match s with
  | EmptyString => Some d
  | String _ _ =>
      match fuel with
      | O => None
      | S fuel' =>
          if negb (starts_number s) then None
          else
            match leadingInt 0 s with
            | None => None
            | Some (v, s1) =>
                let pre := negb (Nat.eqb (String.length s) (String.length s1)) in
                let '(f, scale, s2, post) :=
                  match s1 with
                  | String c t =>
                      if Ascii.eqb c "."%char then
                        let '(f, scale, r) := leadingFraction 0 1%float false t in
                        (f, scale, r,
                         negb (Nat.eqb (String.length t) (String.length r)))
                      else (0, 1%float, s1, false)
                  | EmptyString => (0, 1%float, s1, false)
                  end in
                if negb pre && negb post then None
                else
                  let (u, s3) := unit_span s2 in
                  if String.eqb u "" then None
                  else
                    match unitMap u with
                    | None => None
                    | Some unit =>
                        if 2 ^ 63 / unit <? v then None
                        else
                          let v1 := v * unit in
                          let v2 :=
                            if 0 <? f
                            then v1 + int_of_float64
                                        (float64_of_int f
                                         * (float64_of_int unit / scale))%float
                            else v1 in
                          if (0 <? f) && (2 ^ 63 <? v2) then None
                          else
                            let d' := d + v2 in
                            if 2 ^ 63 <? d' then None
                            else ParseDuration_loop fuel' d' s3
                    end
            end
      end
  end.

(** [time.ParseDuration]: a signed sequence of decimal numbers, each with
    an optional fraction and a unit suffix; [None] stands for the error
    result. *)
Definition ParseDuration (orig : string) : option Duration :=
  let (neg, s) :=
    match orig with
    | String c s' =>
        if Ascii.eqb c "-"%char then (true, s')
        else if Ascii.eqb c "+"%char then (false, s')
        else (false, orig)
    | EmptyString => (false, orig)
    end in
  if String.eqb s "0" then Some 0
  else if String.eqb s "" then None
  else
    match ParseDuration_loop (String.length s) 0 s with
    | None => None
    | Some d =>
        if neg then Some (- d)
        else if 2 ^ 63 - 1 <? d then None
        else Some d
    end.

(** [time.Time] is kept as nanoseconds since an arbitrary epoch. *)
Definition Time := Z.

Definition minDuration : Duration := - 2 ^ 63.
Definition maxDuration : Duration := 2 ^ 63 - 1.

(** [t.Sub(u)]: the difference, or [minDuration] / [maxDuration] when the
    difference does not fit a [Duration]. *)
Definition Time_Sub (t u : Time) : Duration :=
  if t - u <? minDuration then minDuration
  else if maxDuration <? t - u then maxDuration
  else t - u.

(** [fmt.Sprintf("%.2f", x)] for a finite [x]: the exact value rounded to
    two decimals, ties to even. *)
Definition pad2 (n : Z) : string :=
  if n <? 10 then "0" ++ Sprintf_d n else Sprintf_d n.

(** [Duration.String]: [fmtFrac] prints the [prec] low decimal digits of
    [v] without trailing zeros (and without the point when all are zero)
    and returns [v / 10^prec]; [fmtInt] is the decimal numeral. *)
Fixpoint fmtFrac (prec : nat) (v : Z) (print : bool) (buf : string) : string * Z :=
  match prec with
  | O => (if print then "." ++ buf else buf, v)
  | S prec' =>
      let digit := v mod 10 in
      let print' := print || negb (digit =? 0) in
      fmtFrac prec' (v / 10) print' (if print' then Sprintf_d digit ++ buf else buf)
  end.

Definition Duration_String (d : Duration) : string :=
  let u := Z.abs d in
  let body :=
    if u <? Second then
      if u =? 0 then "0s"
      else if u <? Microsecond then
        let (w, u') := fmtFrac 0 u false "ns" in Sprintf_d u' ++ w
      else if u <? Millisecond then
        let (w, u') := fmtFrac 3 u false (micro_sign ++ "s") in Sprintf_d u' ++ w
      else
        let (w, u') := fmtFrac 6 u false "ms" in Sprintf_d u' ++ w
    else
      let (w, u1) := fmtFrac 9 u false "s" in
      let w1 := Sprintf_d (u1 mod 60) ++ w in
      let u2 := u1 / 60 in
      if 0 <? u2 then
        let w2 := Sprintf_d (u2 mod 60) ++ "m" ++ w1 in
        let u3 := u2 / 60 in
        if 0 <? u3 then Sprintf_d u3 ++ "h" ++ w2 else w2
      else w1 in
  if d <? 0 then "-" ++ body else body.

Definition Sprintf_2f (x : float) : string :=
  match Prim2SF x with
  | S754_zero s => if s then "-0.00" else "0.00"
  | S754_finite s m e =>
      let num := Z.pos m * 100 * (if 0 <=? e then 2 ^ e else 1) in
      let den := if 0 <=? e then 1 else 2 ^ (- e) in
      let q := num / den in
      let r := num mod den in
      let n := if (den <? 2 * r) || ((den =? 2 * r) && Z.odd q) then q + 1 else q in
      (if s then "-" else "") ++ Sprintf_d (n / 100) ++ "." ++ pad2 (n mod 100)
  | S754_infinity s => if s then "-Inf" else "+Inf"
  | S754_nan => "NaN"
  end.

End Go.

(* ===================================================================== *)
(** ** utils/validator.go                                                  *)
(* ===================================================================== *)

Module Utils.

Definition IsValidCronExpression (cron : string) : bool :=
  if String.eqb cron "" then true
  else
    let parts := Go.Fields cron in
    (Nat.eqb (List.length parts) 6) || (Nat.eqb (List.length parts) 5).

End Utils.

(* ===================================================================== *)
(** ** models: the persisted rows                                          *)
(* ===================================================================== *)

(** Each gorm model is a record of its columns.  The association fields
    ([Project], [Task], [Case], [Result]) are not columns and are left out. *)

Module TestTask.
Record t := mk {
    ID : Z; ProjectID : Z; Name : string;
    Status : Z;                       (* 0 not run, 1 running, 2 executed *)
    EnvID : option Z; TeamID : option Z; Email : string; Timed : string;
    IsScheduled : bool; CronExpression : string; ExecuteCount : Z;
    IsDelete : bool; CreateTime : Go.Time; UpdateTime : Go.Time }.

Definition set_Status (x : t) (v : Z) : t :=
    mk (ID x) (ProjectID x) (Name x) v (EnvID x) (TeamID x) (Email x) (Timed x)
       (IsScheduled x) (CronExpression x) (ExecuteCount x) (IsDelete x)
       (CreateTime x) (UpdateTime x).

Definition set_UpdateTime (x : t) (v : Go.Time) : t :=
    mk (ID x) (ProjectID x) (Name x) (Status x) (EnvID x) (TeamID x) (Email x)
       (Timed x) (IsScheduled x) (CronExpression x) (ExecuteCount x)
       (IsDelete x) (CreateTime x) v.
End TestTask.

Module TaskCaseRelevance.
Record t := mk { ID : Z; TaskID : Z; CaseHash : string; CreateTime : Go.Time }.
End TaskCaseRelevance.

Module TestCase.
Record t := mk {
    ID : Z; ProjectID : Z; FileName : string; ClassName : string;
    ClassDoc : string; CaseName : string; CaseDoc : string; Label : string;
    Status : Z; CaseHash : string; CreateTime : Go.Time; UpdateTime : Go.Time }.
End TestCase.

Module CaseResult.
Record t := mk {
    ID : Z; CaseID : Z; Name : string; Report : string;
    Passed : Z; Error : Z; Failure : Z; Skipped : Z; Tests : Z;
    SystemOut : string; RunTime : float; CreateTime : Go.Time }.
End CaseResult.

Module TaskReport.
Record t := mk {
    ID : Z; TaskID : Z; Name : string; Report : string;
    Passed : Z; Error : Z; Failure : Z; Skipped : Z; Tests : Z;
    RunTime : string; CreateTime : Go.Time }.
End TaskReport.

(* ===================================================================== *)
(** ** The environment of the services                                     *)
(* ===================================================================== *)

(** The tables the services touch, each in primary-key order. *)
Record DB := mkDB {
  app_task_testtask : list TestTask.t;
  app_task_taskcaserelevance : list TaskCaseRelevance.t;
  app_case_testcase : list TestCase.t;
  app_case_caseresult : list CaseResult.t;
  app_task_taskreport : list TaskReport.t }.

Inductive Level := INFO | ERROR.

(** A line written by the logger: "[category] message" on the info or the
    error log.  The structured data appended to the line is not kept. *)
Record LogEntry := mkLog { level : Level; category : string; message : string }.

(** What a service call can observe and change: the database, the wall
    clock (the n-th reading of [time.Now] is [wallclock n]), the time spent
    in [time.Sleep], the log, and the goroutines started with [go], each
    recorded by the task identifier its closure captured. *)
Record World := mkWorld {
  db : DB;
  wallclock : nat -> Go.Time;
  clock_reads : nat;
  slept : Go.Duration;
  logs : list LogEntry;
  goroutines : list Z }.

Definition M (A : Type) : Type := World -> A * World.

Definition ret {A} (a : A) : M A := fun w => (a, w).

Definition bind {A B} (m : M A) (k : A -> M B) : M B :=
  fun w => let (a, w') := m w in k a w'.

Declare Scope go_scope.
Delimit Scope go_scope with go.
Notation "x <- m ;; k" := (bind m (fun x => k))
  (at level 61, m at next level, right associativity) : go_scope.
Notation "m ;; k" := (bind m (fun _ => k))
  (at level 61, right associativity) : go_scope.
Open Scope go_scope.

Definition error := string.

Definition with_db (w : World) (d : DB) : World :=
  mkWorld d (wallclock w) (clock_reads w) (slept w) (logs w) (goroutines w).

Definition get_db : M DB := fun w => (db w, w).
Definition put_db (d : DB) : M unit := fun w => (tt, with_db w d).

Definition time_Now : M Go.Time :=
  fun w => (wallclock w (clock_reads w),
            mkWorld (db w) (wallclock w) (S (clock_reads w)) (slept w) (logs w)
                    (goroutines w)).

Definition time_Sleep (d : Go.Duration) : M unit :=
  fun w => (tt, mkWorld (db w) (wallclock w) (clock_reads w) (slept w + d)
                        (logs w) (goroutines w)).

Definition write_log (e : LogEntry) : M unit :=
  fun w => (tt, mkWorld (db w) (wallclock w) (clock_reads w) (slept w)
                        (logs w ++ [e]) (goroutines w)).

(** [go func() { ... }()] with a closure over [taskID]. *)
Definition go_spawn (taskID : Z) : M unit :=
  fun w => (tt, mkWorld (db w) (wallclock w) (clock_reads w) (slept w) (logs w)
                        (goroutines w ++ [taskID])).

(** The methods [Logger.LogInfo] and [Logger.LogError], and the package-level
    [utils.LogInfo], which has no category. *)
Definition LogInfo (category message : string) : M unit :=
  write_log (mkLog INFO category message).
Definition LogError (category message : string) : M unit :=
  write_log (mkLog ERROR category message).
Definition utils_LogInfo (message : string) : M unit :=
  write_log (mkLog INFO "" message).

(* ===================================================================== *)
(** ** gorm calls, on the in-memory tables                                 *)
(* ===================================================================== *)

(** The store is reliable: a query fails only with [ErrRecordNotFound] and
    a write never fails.  The services' branches on other errors are kept
    in their model, the store just never takes them. *)

Module Gorm.

Definition ErrRecordNotFound : error := "record not found".

Definition next_id (ids : list Z) : Z := 1 + fold_right Z.max 0 ids.

Definition first_or_err {A} (r : option A) : A + error :=
  match r with Some a => inl a | None => inr ErrRecordNotFound end.

(** [db.First(&task, taskID)] *)
Definition First_TestTask (taskID : Z) : M (TestTask.t + error) :=
  d <- get_db ;;
  ret (first_or_err (find (fun t => TestTask.ID t =? taskID) (app_task_testtask d))).

Fixpoint replace_task (t : TestTask.t) (rows : list TestTask.t) : option (list TestTask.t) :=
  match rows with
  | [] => None
  | r :: rows' =>
      if TestTask.ID r =? TestTask.ID t then Some (t :: rows')
      else option_map (cons r) (replace_task t rows')
  end.

(** [db.Save(&task)]: the [BeforeUpdate] hook stamps [UpdateTime], then the
    row with the task's primary key is overwritten with every field; when
    no row was updated the record is created ([BeforeCreate] stamps both
    times). *)
Definition Save_TestTask (task : TestTask.t) : M (option error) :=
  now <- time_Now ;;
  let task := TestTask.set_UpdateTime task now in
  d <- get_db ;;
  match replace_task task (app_task_testtask d) with
  | Some rows =>
      put_db (mkDB rows (app_task_taskcaserelevance d) (app_case_testcase d)
                   (app_case_caseresult d) (app_task_taskreport d)) ;;
      ret None
  | None =>
      now <- time_Now ;;
      let t := TestTask.mk (TestTask.ID task) (TestTask.ProjectID task)
                 (TestTask.Name task) (TestTask.Status task) (TestTask.EnvID task)
                 (TestTask.TeamID task) (TestTask.Email task) (TestTask.Timed task)
                 (TestTask.IsScheduled task) (TestTask.CronExpression task)
                 (TestTask.ExecuteCount task) (TestTask.IsDelete task) now now in
      put_db (mkDB (app_task_testtask d ++ [t]) (app_task_taskcaserelevance d)
                   (app_case_testcase d) (app_case_caseresult d)
                   (app_task_taskreport d)) ;;
      ret None
  end.

(** [db.Where("task_id = ?", taskID).Find(&relevances)] *)
Definition Find_TaskCaseRelevance (taskID : Z)
  : M (list TaskCaseRelevance.t * option error) :=
  d <- get_db ;;
  ret (filter (fun r => TaskCaseRelevance.TaskID r =? taskID)
              (app_task_taskcaserelevance d), None).

(** [db.Where("case_hash = ?", hash).First(&testCase)] *)
Definition First_TestCase_by_hash (hash : string) : M (TestCase.t + error) :=
  d <- get_db ;;
  ret (first_or_err (find (fun c => String.eqb (TestCase.CaseHash c) hash)
                          (app_case_testcase d))).

(** [db.First(&testCase, caseID)] *)
Definition First_TestCase (caseID : Z) : M (TestCase.t + error) :=
  d <- get_db ;;
  ret (first_or_err (find (fun c => TestCase.ID c =? caseID) (app_case_testcase d))).

(** [db.Create(&caseResult)]: [BeforeCreate] stamps [CreateTime], the key is
    the next one of the table. *)
Definition Create_CaseResult (r : CaseResult.t) : M (option error) :=
  now <- time_Now ;;
  d <- get_db ;;
  let row := CaseResult.mk (next_id (map CaseResult.ID (app_case_caseresult d)))
               (CaseResult.CaseID r) (CaseResult.Name r) (CaseResult.Report r)
               (CaseResult.Passed r) (CaseResult.Error r) (CaseResult.Failure r)
               (CaseResult.Skipped r) (CaseResult.Tests r) (CaseResult.SystemOut r)
               (CaseResult.RunTime r) now in
  put_db (mkDB (app_task_testtask d) (app_task_taskcaserelevance d)
               (app_case_testcase d) (app_case_caseresult d ++ [row])
               (app_task_taskreport d)) ;;
  ret None.

(** [db.Create(&report)] *)
Definition Create_TaskReport (r : TaskReport.t) : M (option error) :=
  now <- time_Now ;;
  d <- get_db ;;
  let row := TaskReport.mk (next_id (map TaskReport.ID (app_task_taskreport d)))
               (TaskReport.TaskID r) (TaskReport.Name r) (TaskReport.Report r)
               (TaskReport.Passed r) (TaskReport.Error r) (TaskReport.Failure r)
               (TaskReport.Skipped r) (TaskReport.Tests r) (TaskReport.RunTime r)
               now in
  put_db (mkDB (app_task_testtask d) (app_task_taskcaserelevance d)
               (app_case_testcase d) (app_case_caseresult d)
               (app_task_taskreport d ++ [row])) ;;
  ret None.

(** The columns of [app_task_taskreport], as gorm names them after the
    fields of [TaskReport]; [Task] is an association and has no column. *)
Definition TaskReport_columns : list string :=
  ["id"; "task_id"; "name"; "report"; "passed"; "error"; "failure"; "skipped";
   "tests"; "run_time"; "create_time"].

Definition has_column (col : string) : bool :=
  existsb (String.eqb col) TaskReport_columns.

(** The value a row has in a column, by the column's type. *)
Definition TaskReport_uint (r : TaskReport.t) (col : string) : option Z :=
  if String.eqb col "id" then Some (TaskReport.ID r)
  else if String.eqb col "task_id" then Some (TaskReport.TaskID r)
  else if String.eqb col "passed" then Some (TaskReport.Passed r)
  else if String.eqb col "error" then Some (TaskReport.Error r)
  else if String.eqb col "failure" then Some (TaskReport.Failure r)
  else if String.eqb col "skipped" then Some (TaskReport.Skipped r)
  else if String.eqb col "tests" then Some (TaskReport.Tests r)
  else None.

Definition TaskReport_string (r : TaskReport.t) (col : string) : option string :=
  if String.eqb col "name" then Some (TaskReport.Name r)
  else if String.eqb col "report" then Some (TaskReport.Report r)
  else if String.eqb col "run_time" then Some (TaskReport.RunTime r)
  else None.

Definition TaskReport_time (r : TaskReport.t) (col : string) : option Go.Time :=
  if String.eqb col "create_time" then Some (TaskReport.CreateTime r) else None.

(** The conditions the services put on the report table, one per conjunct
    of a [Where] text: [col = ?] with an integer or a string argument, and
    [col BETWEEN ? AND ?] with two times.  The services compare a column
    with values of its own type only. *)
Inductive Cond :=
  | Eq_uint (col : string) (v : Z)
  | Eq_string (col : string) (v : string)
  | Between_time (col : string) (lo hi : Go.Time).

Definition column_of (c : Cond) : string :=
  match c with
  | Eq_uint col _ => col
  | Eq_string col _ => col
  | Between_time col _ _ => col
  end.

Definition holds (r : TaskReport.t) (c : Cond) : bool :=
  match c with
  | Eq_uint col v =>
      match TaskReport_uint r col with Some x => x =? v | None => false end
  | Eq_string col v =>
      match TaskReport_string r col with Some x => String.eqb x v | None => false end
  | Between_time col lo hi =>
      match TaskReport_time r col with
      | Some x => (lo <=? x) && (x <=? hi)
      | None => false
      end
  end.

(** [Where(conds)] on the report table: the rows that satisfy every
    condition.  A statement that names a column the table does not have
    is refused by the database, whatever the rows are; gorm then records
    the driver's error and reads nothing. *)
Definition Where_TaskReport (conds : list Cond) (d : DB) : list TaskReport.t + error :=
  match find (fun c => negb (has_column (column_of c))) conds with
  | Some c => inr ("no such column: " ++ column_of c)
  | None => inl (filter (fun r => forallb (holds r) conds) (app_task_taskreport d))
  end.

(** [db.Model(&models.TaskReport{}).Where(conds).Count(&n)], the error not
    looked at: [n] keeps the value it had when the statement fails. *)
Definition Count_TaskReport (n : Z) (conds : list Cond) (d : DB) : Z :=
  match Where_TaskReport conds d with
  | inl rows => Z.of_nat (List.length rows)
  | inr _ => n
  end.

(** [db.Where(conds).Find(&reports)], the error not looked at: no row is
    read when the statement fails. *)
Definition Find_TaskReport (conds : list Cond) (d : DB) : list TaskReport.t :=
  match Where_TaskReport conds d with
  | inl rows => rows
  | inr _ => []
  end.

End Gorm.

(* ===================================================================== *)
(** ** services: TaskService                                               *)
(* ===================================================================== *)

Module CaseExecutionResult.
Record t := mk {
    CaseID : Z; CaseName : string; Status : string;
    StartTime : Go.Time; EndTime : Go.Time; Duration : Go.Duration;
    ErrorMsg : string; Screenshots : list string; Logs : list string }.
End CaseExecutionResult.

Module TaskExecutionSummary.
Record t := mk {
    TotalCases : Z; PassedCases : Z; FailedCases : Z; SkippedCases : Z;
    PassRate : float }.
End TaskExecutionSummary.

Module TaskExecutionResult.
Record t := mk {
    TaskID : Z; Status : string;
    StartTime : Go.Time; EndTime : Go.Time; Duration : Go.Duration;
    Results : list CaseExecutionResult.t;
    Summary : TaskExecutionSummary.t;
    Error : string }.
End TaskExecutionResult.

Module TaskService.

Section Executor.
  (** [json.Unmarshal] of a case document into [map[string]interface{}]:
      the decoded value or the decoder's error text. *)
Variable CaseData : Type.
Variable json_Unmarshal : string -> CaseData + error.

  (** runTestCase: the stand-in executor sleeps and reports success. *)
Definition runTestCase (caseData : CaseData) : M (option error) :=
    time_Sleep (100 * Go.Millisecond) ;;
    ret None.

  (** executeSingleCase *)
Definition executeSingleCase (caseID : Z) : M CaseExecutionResult.t :=
    start <- time_Now ;;
    let finish (name status errorMsg : string) : M CaseExecutionResult.t :=
      endTime <- time_Now ;;
      ret (CaseExecutionResult.mk caseID name status start endTime
             (Go.Time_Sub endTime start) errorMsg [] []) in
    r <- Gorm.First_TestCase caseID ;;
    match r with
    | inr err => finish "" "failed" ("获取用例失败: " ++ err)
    | inl testCase =>
        match json_Unmarshal (TestCase.CaseDoc testCase) with
        | inr err =>
            finish (TestCase.CaseName testCase) "failed" ("解析用例数据失败: " ++ err)
        | inl caseData =>
            e <- runTestCase caseData ;;
            match e with
            | Some err => finish (TestCase.CaseName testCase) "failed" err
            | None => finish (TestCase.CaseName testCase) "passed" ""
            end
        end
    end.

  (** saveCaseResult *)
Definition saveCaseResult (taskID : Z) (result : CaseExecutionResult.t) : M unit :=
    let caseResult :=
      CaseResult.mk 0 (CaseExecutionResult.CaseID result)
        (CaseExecutionResult.CaseName result)
        ("Status: " ++ CaseExecutionResult.Status result ++ ", Duration: "
           ++ Go.Duration_String (CaseExecutionResult.Duration result))
        0 0 0 0 0 ""
        (Go.Duration_Seconds (CaseExecutionResult.Duration result)) 0 in
    e <- Gorm.Create_CaseResult caseResult ;;
    match e with
    | Some err => LogError "SAVE_CASE_RESULT" ("保存用例结果失败: " ++ err)
    | None => ret tt
    end.

  (** saveTaskReport *)
Definition saveTaskReport (taskID : Z) (result : TaskExecutionResult.t) : M unit :=
    let summary := TaskExecutionResult.Summary result in
    let report :=
      TaskReport.mk 0 taskID
        ("Task " ++ Go.Sprintf_d taskID ++ " Execution Report")
        ("Task executed with status: " ++ TaskExecutionResult.Status result)
        (TaskExecutionSummary.PassedCases summary)
        (TaskExecutionSummary.FailedCases summary)
        (TaskExecutionSummary.FailedCases summary)
        (TaskExecutionSummary.SkippedCases summary)
        (TaskExecutionSummary.TotalCases summary)
        (Go.Sprintf_2f (Go.Duration_Seconds (TaskExecutionResult.Duration result))
           ++ "s")
        0 in
    e <- Gorm.Create_TaskReport report ;;
    match e with
    | Some err => LogError "SAVE_TASK_REPORT" ("保存任务报告失败: " ++ err)
    | None => ret tt
    end.

  (** updateTaskStatus: the textual status becomes the integer column. *)
Definition statusInt (status : string) : Z :=
    if String.eqb status "running" then 1
    else if String.eqb status "success" then 2
    else if String.eqb status "failed" then 2
    else 0.

Definition updateTaskStatus (task : TestTask.t) (status errorMsg : string) : M unit :=
    let task := TestTask.set_Status task (statusInt status) in
    Gorm.Save_TestTask task ;;
    ret tt.

  (** calculateSummary *)
Definition count_case (summary : TaskExecutionSummary.t)
      (result : CaseExecutionResult.t) : TaskExecutionSummary.t :=
    let '(TaskExecutionSummary.mk total passed failed skipped rate) := summary in
    if String.eqb (CaseExecutionResult.Status result) "passed"
    then TaskExecutionSummary.mk total (passed + 1) failed skipped rate
    else if String.eqb (CaseExecutionResult.Status result) "failed"
    then TaskExecutionSummary.mk total passed (failed + 1) skipped rate
    else if String.eqb (CaseExecutionResult.Status result) "skipped"
    then TaskExecutionSummary.mk total passed failed (skipped + 1) rate
    else summary.

Definition calculateSummary (results : list CaseExecutionResult.t)
    : TaskExecutionSummary.t :=
    let summary :=
      TaskExecutionSummary.mk (Z.of_nat (List.length results)) 0 0 0 0%float in
    let summary := fold_left count_case results summary in
    if 0 <? TaskExecutionSummary.TotalCases summary then
      TaskExecutionSummary.mk
        (TaskExecutionSummary.TotalCases summary)
        (TaskExecutionSummary.PassedCases summary)
        (TaskExecutionSummary.FailedCases summary)
        (TaskExecutionSummary.SkippedCases summary)
        (Go.float64_of_int (TaskExecutionSummary.PassedCases summary)
         / Go.float64_of_int (TaskExecutionSummary.TotalCases summary) * 100)%float
    else summary.

  (** The [for _, relevance := range relevances] loop of ExecuteTask;
      [results] is [result.Results] so far. *)
Fixpoint ExecuteTask_cases (taskID : Z) (relevances : list TaskCaseRelevance.t)
      (results : list CaseExecutionResult.t) : M (list CaseExecutionResult.t) :=
    match relevances with
    | [] => ret results
    | relevance :: rest =>
        r <- Gorm.First_TestCase_by_hash (TaskCaseRelevance.CaseHash relevance) ;;
        match r with
        | inr err =>
            startTime <- time_Now ;;
            endTime <- time_Now ;;
            let caseResult :=
              CaseExecutionResult.mk 0 (TaskCaseRelevance.CaseHash relevance)
                "failed" startTime endTime 0 ("用例不存在: " ++ err) [] [] in
            ExecuteTask_cases taskID rest (results ++ [caseResult])
        | inl testCase =>
            caseResult <- executeSingleCase (TestCase.ID testCase) ;;
            saveCaseResult taskID caseResult ;;
            ExecuteTask_cases taskID rest (results ++ [caseResult])
        end
    end.

Definition no_summary : TaskExecutionSummary.t :=
    TaskExecutionSummary.mk 0 0 0 0 0%float.

  (** ExecuteTask: the Go pair (result, err) is a pair of options. *)
Definition ExecuteTask (taskID : Z)
    : M (option TaskExecutionResult.t * option error) :=
    r <- Gorm.First_TestTask taskID ;;
    match r with
    | inr err => ret (None, Some ("任务不存在: " ++ err))
    | inl task =>
        let task := TestTask.set_Status task 1 in
        Gorm.Save_TestTask task ;;
        startTime <- time_Now ;;
        LogInfo "TASK_EXECUTION" ("开始执行任务: " ++ Go.Sprintf_d taskID) ;;
        q <- Gorm.Find_TaskCaseRelevance taskID ;;
        match q with
        | (_, Some err) =>
            let msg := "获取任务用例失败: " ++ err in
            updateTaskStatus task "failed" msg ;;
            ret (Some (TaskExecutionResult.mk taskID "failed" startTime 0 0 []
                         no_summary msg), Some err)
        | (relevances, None) =>
            results <- ExecuteTask_cases taskID relevances [] ;;
            endTime <- time_Now ;;
            let duration := Go.Time_Sub endTime startTime in
            let summary := calculateSummary results in
            let status :=
              if 0 <? TaskExecutionSummary.FailedCases summary
              then "failed" else "success" in
            let result :=
              TaskExecutionResult.mk taskID status startTime endTime duration
                results summary "" in
            updateTaskStatus task status "" ;;
            saveTaskReport taskID result ;;
            LogInfo "TASK_EXECUTION" ("任务执行完成: " ++ Go.Sprintf_d taskID) ;;
            ret (Some result, None)
        end
    end.

  (** GetTaskStatus *)
Definition GetTaskStatus (taskID : Z) : M (string * option error) :=
    r <- Gorm.First_TestTask taskID ;;
    match r with
    | inr err => ret ("", Some ("任务不存在: " ++ err))
    | inl task =>
        utils_LogInfo "Getting task status" ;;
        ret (Go.Sprintf_d (TestTask.Status task), None)
    end.

  (** StopTask *)
Definition StopTask (taskID : Z) : M (option error) :=
    r <- Gorm.First_TestTask taskID ;;
    match r with
    | inr err => ret (Some ("任务不存在: " ++ err))
    | inl task =>
        if negb (TestTask.Status task =? 1) then ret (Some "任务未在运行中")
        else
          let task := TestTask.set_Status task 2 in
          now <- time_Now ;;
          let task := TestTask.set_UpdateTime task now in
          e <- Gorm.Save_TestTask task ;;
          match e with
          | Some err => ret (Some ("更新任务状态失败: " ++ err))
          | None =>
              LogInfo "TASK_STOP" ("任务已停止: " ++ Go.Sprintf_d taskID) ;;
              ret None
          end
    end.
End Executor.

End TaskService.

(* ===================================================================== *)
(** ** services: SchedulerService                                          *)
(* ===================================================================== *)

Module SchedulerService.

Section Scheduler.
Variable CaseData : Type.
Variable json_Unmarshal : string -> CaseData + error.

  (** The closure that executeScheduledTask hands to [go]. *)
Definition scheduled_batch (taskID : Z) : M unit :=
    r <- TaskService.ExecuteTask CaseData json_Unmarshal taskID ;;
    match r with
    | (_, Some err) => LogError "SCHEDULER" ("定时任务执行失败: " ++ err)
    | (_, None) => LogInfo "SCHEDULER" ("定时任务执行完成: " ++ Go.Sprintf_d taskID)
    end.

  (** executeScheduledTask: the callback registered with cron for a task. *)
Definition executeScheduledTask (taskID : Z) : M unit :=
    LogInfo "SCHEDULER" ("开始执行定时任务: " ++ Go.Sprintf_d taskID) ;;
    r <- TaskService.GetTaskStatus taskID ;;
    let (status, err) := r in
    match err with
    | Some e => LogError "SCHEDULER" ("获取任务状态失败: " ++ e)
    | None =>
        if String.eqb status "running" then
          LogInfo "SCHEDULER"
            ("任务 " ++ Go.Sprintf_d taskID ++ " 已在运行中，跳过本次执行")
        else go_spawn taskID
    end.
End Scheduler.

(** GetTaskStatistics.  The four statements filter the report table on
    [created_at], two of them also on [status]; the errors of the
    statements are not looked at.  [AddDate] is [time.Time.AddDate], the
    calendar arithmetic of package time, which is left open. *)
Module Statistics.
Record t := mk {
    total_runs : Z; success_runs : Z; failed_runs : Z;
    success_rate : float; avg_duration : float; period_days : Z }.
End Statistics.

Section Stats.
Variable AddDate : Go.Time -> Z -> Z -> Z -> Go.Time.

  (** One step of the loop over the reports: a run time that parses is
      added to [totalDuration] (int64), one that does not is passed over. *)
Definition add_duration (totalDuration : Go.Duration) (report : TaskReport.t)
    : Go.Duration :=
    match Go.ParseDuration (TaskReport.RunTime report ++ "s") with
    | Some duration => Go.wrap64 (totalDuration + duration)
    | None => totalDuration
    end.

Definition avgDuration (reports : list TaskReport.t) : float :=
    if 0 <? Z.of_nat (List.length reports) then
      let totalDuration := fold_left add_duration reports 0 in
      (Go.Duration_Seconds totalDuration
       / Go.float64_of_int (Z.of_nat (List.length reports)))%float
    else 0%float.

Definition GetTaskStatistics (taskID days : Z) : M (Statistics.t * option error) :=
    endTime <- time_Now ;;
    let startTime := AddDate endTime 0 0 (- days) in
    d <- get_db ;;
    let totalRuns :=
      Gorm.Count_TaskReport 0
        [Gorm.Eq_uint "task_id" taskID;
         Gorm.Between_time "created_at" startTime endTime] d in
    let successRuns :=
      Gorm.Count_TaskReport 0
        [Gorm.Eq_uint "task_id" taskID; Gorm.Eq_string "status" "success";
         Gorm.Between_time "created_at" startTime endTime] d in
    let failedRuns :=
      Gorm.Count_TaskReport 0
        [Gorm.Eq_uint "task_id" taskID; Gorm.Eq_string "status" "failed";
         Gorm.Between_time "created_at" startTime endTime] d in
    let successRate :=
      if 0 <? totalRuns
      then (Go.float64_of_int successRuns / Go.float64_of_int totalRuns * 100)%float
      else 0%float in
    let reports :=
      Gorm.Find_TaskReport
        [Gorm.Eq_uint "task_id" taskID;
         Gorm.Between_time "created_at" startTime endTime] d in
    ret (Statistics.mk totalRuns successRuns failedRuns successRate
           (avgDuration reports) days, None).
End Stats.

End SchedulerService.

(* ===================================================================== *)
(** ** Specification-side notions                                          *)
(* ===================================================================== *)

Module Spec.

(** "The expression splits on white space into the fields [fields]": the
    decoded characters are optional leading blanks, then the fields, each
    a non-empty run of non-blank characters, any two neighbours separated
    by at least one blank, then optional trailing blanks. *)
Section Splitting.
Variable blank : Go.chunk -> bool.

Inductive SplitsInto : list Go.chunk -> list (list Go.chunk) -> Prop :=
  | split_blank sp :
      forallb blank sp = true -> SplitsInto sp []
  | split_last sp fld :
      forallb blank sp = true -> fld <> [] ->
      forallb (fun c => negb (blank c)) fld = true ->
      SplitsInto (sp ++ fld) [fld]
  | split_more sp fld c rest fields :
      forallb blank sp = true -> fld <> [] ->
      forallb (fun c => negb (blank c)) fld = true ->
      blank c = true -> SplitsInto rest fields ->
      SplitsInto (sp ++ fld ++ c :: rest) (fld :: fields).
End Splitting.

Definition is_blank (c : Go.chunk) : bool := Go.IsSpace (Go.rune c).

Definition field_count (expr : string) (n : nat) : Prop :=
  exists fields, SplitsInto is_blank (Go.runes expr) fields /\ List.length fields = n.

(** The number of case results with a given status. *)
Definition count (status : string) (results : list CaseExecutionResult.t) : Z :=
  Z.of_nat (List.length
    (filter (fun r => String.eqb (CaseExecutionResult.Status r) status) results)).

(** "passRate = passed/total*100 if total>0 else 0" *)
Definition passRate (passed total : Z) : float :=
  if 0 <? total
  then (Go.float64_of_int passed / Go.float64_of_int total * 100)%float
  else 0%float.

(** The durations of the report rows whose run time, read as seconds,
    parses. *)
Definition parsed_durations (reports : list TaskReport.t) : list Go.Duration :=
  flat_map (fun r => match Go.ParseDuration (TaskReport.RunTime r ++ "s") with
                     | Some d => [d]
                     | None => []
                     end) reports.

Definition total_parsed (reports : list TaskReport.t) : Go.Duration :=
  Go.wrap64 (fold_right Z.add 0 (parsed_durations reports)).

(** "Averages over included rows that parse successfully; unparsable rows
    are skipped": the mean over the rows that parse. *)
Definition mean_of_parsed (reports : list TaskReport.t) : float :=
  if 0 <? Z.of_nat (List.length (parsed_durations reports)) then
    (Go.Duration_Seconds (total_parsed reports)
     / Go.float64_of_int (Z.of_nat (List.length (parsed_durations reports))))%float
  else 0%float.

(** The mean in which a row that does not parse adds nothing to the sum
    and still counts in the divisor. *)
Definition mean_over_rows (reports : list TaskReport.t) : float :=
  if 0 <? Z.of_nat (List.length reports) then
    (Go.Duration_Seconds (total_parsed reports)
     / Go.float64_of_int (Z.of_nat (List.length reports)))%float
  else 0%float.

(** "A persisted case result exists for the hash with an error message":
    some row of the case-result table is named by the hash and carries the
    message in one of its text columns. *)
Definition case_failure_persisted (d : DB) (hash msg : string) : Prop :=
  exists row,
    In row (app_case_caseresult d)
    /\ CaseResult.Name row = hash
    /\ (String.index 0 msg (CaseResult.Report row) <> None
        \/ String.index 0 msg (CaseResult.SystemOut row) <> None).

(** What a case result says about the case, the time stamps apart. *)
Definition outcome (r : CaseExecutionResult.t) : Z * string * string * string :=
  (CaseExecutionResult.CaseID r, CaseExecutionResult.CaseName r,
   CaseExecutionResult.Status r, CaseExecutionResult.ErrorMsg r).

(** A case result is final when its status is "passed" or "failed". *)
Definition final (r : CaseExecutionResult.t) : Prop :=
  CaseExecutionResult.Status r = "passed" \/ CaseExecutionResult.Status r = "failed".

End Spec.

(* ===================================================================== *)
(** ** Sample data for the concrete runs                                   *)
(* ===================================================================== *)

Module Sample.

(** A clock that advances one millisecond per reading. *)
Definition clock (n : nat) : Go.Time := Z.of_nat n * Go.Millisecond.

Definition world (d : DB) : World := mkWorld d clock 0 0 [] [].

Definition task (id status : Z) : TestTask.t :=
  TestTask.mk id 1 "nightly" status None None "" "" true "0 0 2 * * *" 0 false 0 0.

(** One task, persisted as running. *)
Definition db_running : DB := mkDB [task 1 1] [] [] [] [].

(** One idle task bound to two hashes, of which only "hashA" names a case. *)
Definition caseA : TestCase.t :=
  TestCase.mk 4 1 "test_login.py" "LoginTest" "" "test_login" "{}" "" 0 "hashA" 0 0.

Definition db_two_bindings : DB :=
  mkDB [task 1 0]
       [TaskCaseRelevance.mk 1 1 "hashA" 0; TaskCaseRelevance.mk 2 1 "hashB" 0]
       [caseA] [] [].

(** A decoder stand-in that accepts every case document. *)
Definition json_accept (doc : string) : unit + error := inl tt.

Definition report (id : Z) (runTime : string) : TaskReport.t :=
  TaskReport.mk id 1 "Task 1 Execution Report" "" 1 0 0 0 1 runTime 0.

(** Two reports of task 1, created at time 0: one run time of two seconds,
    one that is not a number. *)
Definition db_two_reports : DB :=
  mkDB [task 1 2] [] [] [] [report 1 "2"; report 2 "abc"].

End Sample.

(* ===================================================================== *)
(** ** services: the job registry of SchedulerService                      *)
(* ===================================================================== *)

(** The part of robfig/cron the scheduler uses.  A cron instance is its
    list of entries, the counter it numbers them with, and whether it is
    running; an entry's job is recorded by the task identifier its closure
    captured.  The parser of schedule expressions is the library's and is
    left open: [Parse spec] is its error, if any. *)
Module Cron.

Record Entry := mkEntry { ID : Z; Spec : string; Job : Z }.

Record t := mk { entries : list Entry; nextID : Z; running : bool }.

(** [cron.New(cron.WithSeconds())] *)
Definition New : t := mk [] 0 false.

Definition Start (c : t) : t := mk (entries c) (nextID c) true.

Definition Stop (c : t) : t := mk (entries c) (nextID c) false.

Section Parser.
Variable Parse : string -> option error.

(** [c.AddFunc(spec, cmd)]: the entry's identifier and no error, or 0 and
    the parser's error, in which case nothing is added. *)
Definition AddFunc (spec : string) (job : Z) (c : t) : (Z * option error) * t :=
  match Parse spec with
  | Some err => ((0, Some err), c)
  | None =>
      let id := nextID c + 1 in
      ((id, None), mk (entries c ++ [mkEntry id spec job]) id (running c))
  end.
End Parser.

End Cron.

(** The methods of SchedulerService that keep the registry.  The receiver's
    [cron] field is the argument [c] and is returned with the result. *)
Module SchedulerJobs.

Section Registry.
Variable Parse : string -> option error.

(** addScheduledTask *)
Definition addScheduledTask (task : TestTask.t) (c : Cron.t) : M (option error * Cron.t) :=
  if String.eqb (TestTask.CronExpression task) "" then
    ret (Some ("任务 " ++ Go.Sprintf_d (TestTask.ID task) ++ " 缺少cron表达式"), c)
  else if negb (Utils.IsValidCronExpression (TestTask.CronExpression task)) then
    ret (Some ("任务 " ++ Go.Sprintf_d (TestTask.ID task) ++ " 的cron表达式无效: "
                 ++ TestTask.CronExpression task), c)
  else
    let (r, c') := Cron.AddFunc Parse (TestTask.CronExpression task)
                     (TestTask.ID task) c in
    match snd r with
    | Some err => ret (Some ("添加cron任务失败: " ++ err), c')
    | None =>
        LogInfo "SCHEDULER" ("已添加定时任务: " ++ TestTask.Name task) ;;
        ret (None, c')
    end.

(** [db.Where("is_scheduled = ? AND is_delete = ?", true, false).Find(&tasks)] *)
Definition Find_scheduled_tasks : M (list TestTask.t * option error) :=
  d <- get_db ;;
  ret (filter (fun t => TestTask.IsScheduled t && negb (TestTask.IsDelete t))
              (app_task_testtask d), None).

(** The loop of loadScheduledTasks over the tasks found. *)
Fixpoint loadScheduledTasks_loop (tasks : list TestTask.t) (c : Cron.t) : M Cron.t :=
  match tasks with
  | [] => ret c
  | task :: rest =>
      r <- addScheduledTask task c ;;
      match fst r with
      | Some err =>
          LogError "SCHEDULER" ("添加定时任务失败: " ++ err) ;;
          loadScheduledTasks_loop rest (snd r)
      | None => loadScheduledTasks_loop rest (snd r)
      end
  end.

(** loadScheduledTasks *)
Definition loadScheduledTasks (c : Cron.t) : M (option error * Cron.t) :=
  q <- Find_scheduled_tasks ;;
  match q with
  | (_, Some err) => ret (Some err, c)
  | (tasks, None) =>
      c' <- loadScheduledTasks_loop tasks c ;;
      LogInfo "SCHEDULER"
        ("已加载 " ++ Go.Sprintf_d (Z.of_nat (List.length tasks)) ++ " 个定时任务") ;;
      ret (None, c')
  end.

(** Start *)
Definition Start (c : Cron.t) : M (option error * Cron.t) :=
  r <- loadScheduledTasks c ;;
  match fst r with
  | Some err => ret (Some ("加载定时任务失败: " ++ err), snd r)
  | None =>
      LogInfo "SCHEDULER" "调度服务已启动" ;;
      ret (None, Cron.Start (snd r))
  end.

(** Stop *)
Definition Stop (c : Cron.t) : M Cron.t :=
  LogInfo "SCHEDULER" "调度服务已停止" ;;
  ret (Cron.Stop c).

(** AddTask *)
Definition AddTask (taskID : Z) (c : Cron.t) : M (option error * Cron.t) :=
  r <- Gorm.First_TestTask taskID ;;
  match r with
  | inr err => ret (Some ("任务不存在: " ++ err), c)
  | inl task =>
      if negb (TestTask.IsScheduled task) then ret (Some "任务未启用定时调度", c)
      else addScheduledTask task c
  end.

(** RemoveTask: the cron instance is stopped and replaced by a new one,
    into which the scheduled tasks are loaded again. *)
Definition RemoveTask (taskID : Z) (c : Cron.t) : M (option error * Cron.t) :=
  let _ := Cron.Stop c in
  r <- loadScheduledTasks Cron.New ;;
  match fst r with
  | Some err => ret (Some err, snd r)
  | None =>
      LogInfo "SCHEDULER" ("已移除定时任务: " ++ Go.Sprintf_d taskID) ;;
      ret (None, Cron.Start (snd r))
  end.

(** UpdateTask *)
Definition UpdateTask (taskID : Z) (c : Cron.t) : M (option error * Cron.t) :=
  RemoveTask taskID c.

(** GetScheduledTasks *)
Definition GetScheduledTasks : M (list TestTask.t * option error) :=
  d <- get_db ;;
  ret (filter TestTask.IsScheduled (app_task_testtask d), None).

(** InitGlobalScheduler: NewSchedulerService, then Start. *)
Definition InitGlobalScheduler : M (option error * Cron.t) := Start Cron.New.
End Registry.

End SchedulerJobs.

(* ===================================================================== *)
(** ** Notions used by the further properties                              *)
(* ===================================================================== *)

Module Obs.

(** The case a binding's hash names, if any: the first row of the case
    table with that hash. *)
Definition resolve (cases : list TestCase.t) (hash : string) : option TestCase.t :=
  find (fun c => String.eqb (TestCase.CaseHash c) hash) cases.

(** The bindings of a task, in table order. *)
Definition bindings (d : DB) (taskID : Z) : list TaskCaseRelevance.t :=
  filter (fun r => TaskCaseRelevance.TaskID r =? taskID) (app_task_taskcaserelevance d).

(** The identifiers of the cases the bindings name, in binding order; a
    binding that names no case contributes nothing. *)
Definition resolved_ids (cases : list TestCase.t) (relevances : list TaskCaseRelevance.t)
  : list Z :=
  flat_map (fun r => match resolve cases (TaskCaseRelevance.CaseHash r) with
                     | Some c => [TestCase.ID c]
                     | None => []
                     end) relevances.

(** The tasks loadScheduledTasks considers: scheduled and not deleted. *)
Definition candidates (d : DB) : list TestTask.t :=
  filter (fun t => TestTask.IsScheduled t && negb (TestTask.IsDelete t))
         (app_task_testtask d).

(** A task's trigger is accepted when it is not empty, has 5 or 6 fields
    and the cron parser takes it. *)
Definition accepted (Parse : string -> option error) (task : TestTask.t) : bool :=
  negb (String.eqb (TestTask.CronExpression task) "")
  && Utils.IsValidCronExpression (TestTask.CronExpression task)
  && match Parse (TestTask.CronExpression task) with None => true | Some _ => false end.

(** What an entry of the registry says: its expression and its task. *)
Definition job (e : Cron.Entry) : string * Z := (Cron.Spec e, Cron.Job e).

Definition job_of (task : TestTask.t) : string * Z :=
  (TestTask.CronExpression task, TestTask.ID task).

(** The registry with one more entry, for the task, under the next number. *)
Definition registered (task : TestTask.t) (c : Cron.t) : Cron.t :=
  Cron.mk (Cron.entries c
           ++ [Cron.mkEntry (Cron.nextID c + 1) (TestTask.CronExpression task)
                            (TestTask.ID task)])
          (Cron.nextID c + 1) (Cron.running c).

(** The registry after the tasks of a list were offered to it in order:
    the accepted ones are registered, the others skipped. *)
Definition load (Parse : string -> option error) (tasks : list TestTask.t) (c : Cron.t)
  : Cron.t :=
  fold_left (fun c t => if accepted Parse t then registered t c else c) tasks c.

(** The entries of the registry that run a given task. *)
Definition jobs_for (taskID : Z) (c : Cron.t) : list Cron.Entry :=
  filter (fun e => Cron.Job e =? taskID) (Cron.entries c).

Definition is_error (e : LogEntry) : bool :=
  match level e with ERROR => true | INFO => false end.

(** A string of decimal digits. *)
Fixpoint all_digits (s : string) : bool :=
  match s with
  | EmptyString => true
  | String c s' => Go.is_digit c && all_digits s'
  end.

(** The run time saveTaskReport writes for a batch that took [x] seconds. *)
Definition written_run_time (x : float) : string := Go.Sprintf_2f x ++ "s".

Section Outcomes.
Variable CaseData : Type.
Variable json_Unmarshal : string -> CaseData + error.

(** How running the case with a given identifier ends, read off the case
    table: identifier, name, status and error message of the result. *)
Definition case_outcome (cases : list TestCase.t) (caseID : Z)
  : Z * string * string * string :=
  match find (fun c => TestCase.ID c =? caseID) cases with
  | None => (caseID, "", "failed", "获取用例失败: record not found")
  | Some c =>
      match json_Unmarshal (TestCase.CaseDoc c) with
      | inr err => (caseID, TestCase.CaseName c, "failed", "解析用例数据失败: " ++ err)
      | inl _ => (caseID, TestCase.CaseName c, "passed", "")
      end
  end.

(** How a binding ends: as the case it names, or as a failed result named
    by the hash when it names none. *)
Definition binding_outcome (cases : list TestCase.t) (rel : TaskCaseRelevance.t)
  : Z * string * string * string :=
  match resolve cases (TaskCaseRelevance.CaseHash rel) with
  | None => (0, TaskCaseRelevance.CaseHash rel, "failed", "用例不存在: record not found")
  | Some c => case_outcome cases (TestCase.ID c)
  end.

Definition passed (o : Z * string * string * string) : bool :=
  String.eqb (snd (fst o)) "passed".
End Outcomes.

End Obs.

(* ===================================================================== *)
(** ** utils: the string validators                                        *)
(* ===================================================================== *)

(** The functions of package strings and unicode/utf8 that SanitizeString
    reaches through [strings.TrimSpace]. *)
Module GoStrings.

(** The table [asciiSpace]: tab, newline, vertical tab, form feed, carriage
    return and space. *)
Definition asciiSpace (b : Z) : bool :=
  (b =? 9) || (b =? 10) || (b =? 11) || (b =? 12) || (b =? 13) || (b =? 32).

(** [utf8.RuneStart]: the byte is not a continuation byte. *)
Definition RuneStart (b : Z) : bool := negb (Z.land b 192 =? 128).

(** [utf8.DecodeRuneInString] on a byte sequence. *)
Definition decode (bs : list Z) : Z * nat :=
  match bs with
  | [] => (Go.RuneError, 0%nat)
  | b :: rest => Go.DecodeRune b rest
  end.

(** How far before the end [utf8.DecodeLastRuneInString] starts to decode:
    at the nearest rune start among the second, third and fourth byte from
    the end, else one byte before the limit, and never before the string.
    The bytes are given last first. *)
Definition back_start (rs : list Z) : nat :=
  match rs with
  | _ :: b2 :: rest2 =>
      if RuneStart b2 then 2%nat
      else match rest2 with
           | b3 :: rest3 =>
               if RuneStart b3 then 3%nat
               else match rest3 with
                    | b4 :: rest4 =>
                        if RuneStart b4 then 4%nat
                        else match rest4 with _ :: _ => 5%nat | [] => 4%nat end
                    | [] => 3%nat
                    end
           | [] => 2%nat
           end
  | _ => 1%nat
  end.

(** [utf8.DecodeLastRuneInString], the bytes given last first: the last
    rune and its width, [RuneError] with width 1 when the bytes before the
    end do not encode one rune that ends there. *)
Definition DecodeLastRune (rs : list Z) : Z * nat :=
  match rs with
  | [] => (Go.RuneError, 0%nat)
  | b :: _ =>
      if b <? 128 then (b, 1%nat)
      else
        let w := back_start rs in
        let (r, size) := decode (rev (firstn w rs)) in
        if Nat.eqb size w then (r, size) else (Go.RuneError, 1%nat)
  end.

Section TrimFunc.
Variable f : Z -> bool.

(** [strings.TrimLeftFunc]: the string from its first rune that does not
    satisfy [f]. *)
Fixpoint TrimLeftFunc_loop (l : list Go.chunk) : string :=
  match l with
  | [] => ""
  | c :: l' => if f (Go.rune c) then TrimLeftFunc_loop l' else Go.span_text l
  end.

Definition TrimLeftFunc (s : string) : string := TrimLeftFunc_loop (Go.runes s).

(** [strings.TrimRightFunc]: [lastIndexFunc] walks back from the end over
    the runes that satisfy [f]; the result ends after the rune found, whose
    width is decoded forwards.  [rs] holds the bytes before the position,
    last first, and [after] the bytes from the position on. *)
Fixpoint TrimRightFunc_loop (fuel : nat) (rs after : list ascii) : list ascii :=
  match fuel, rs with
  | S fuel', _ :: _ =>
      let (r, size) := DecodeLastRune (map Go.byte_val rs) in
      let rs' := skipn size rs in
      let after' := (rev (firstn size rs) ++ after)%list in
      if f r then TrimRightFunc_loop fuel' rs' after'
      else
        let wid := match after' with
                   | b :: _ =>
                       if 128 <=? Go.byte_val b
                       then snd (decode (map Go.byte_val after'))
                       else 1%nat
                   | [] => 1%nat
                   end in
        (rev rs' ++ firstn wid after')%list
  | _, _ => []
  end.

Definition TrimRightFunc (s : string) : string :=
  let l := list_ascii_of_string s in
  string_of_list_ascii (TrimRightFunc_loop (List.length l) (rev l) []).

(** [strings.TrimFunc] *)
Definition TrimFunc (s : string) : string := TrimRightFunc (TrimLeftFunc s).
End TrimFunc.

(** The first loop of [strings.TrimSpace]: the string from its first byte
    that is not ASCII white space, and whether that byte is not ASCII. *)
Fixpoint TrimSpace_start (s : string) : string * bool :=
  match s with
  | EmptyString => (s, false)
  | String c s' =>
      if 128 <=? Go.byte_val c then (s, true)
      else if asciiSpace (Go.byte_val c) then TrimSpace_start s'
      else (s, false)
  end.

(** The second loop, on the bytes last first. *)
Fixpoint TrimSpace_stop (rs : list ascii) : list ascii * bool :=
  match rs with
  | [] => (rs, false)
  | c :: rs' =>
      if 128 <=? Go.byte_val c then (rs, true)
      else if asciiSpace (Go.byte_val c) then TrimSpace_stop rs'
      else (rs, false)
  end.

(** [strings.TrimSpace]: ASCII white space is cut at both ends byte by
    byte; at the first byte that is not ASCII the rest is left to
    [TrimFunc] or [TrimRightFunc] with [unicode.IsSpace]. *)
Definition TrimSpace (s : string) : string :=
  let (s1, slow) := TrimSpace_start s in
  if slow then TrimFunc Go.IsSpace s1
  else
    let (rs, slow') := TrimSpace_stop (rev (list_ascii_of_string s1)) in
    let s2 := string_of_list_ascii (rev rs) in
    if slow' then TrimRightFunc Go.IsSpace s2 else s2.

End GoStrings.

Module Validator.

Definition is_letter (c : ascii) : bool :=
  ((97 <=? Go.byte_val c) && (Go.byte_val c <=? 122))
  || ((65 <=? Go.byte_val c) && (Go.byte_val c <=? 90)).

(** The class [[a-zA-Z0-9_-]]. *)
Definition is_name_byte (c : ascii) : bool :=
  is_letter c || Go.is_digit c || (Go.byte_val c =? 95) || (Go.byte_val c =? 45).

(** The class of the second pattern of SanitizeString: the single quote,
    the semicolon, the double quote and the backslash. *)
Definition is_quote_byte (c : ascii) : bool :=
  (Go.byte_val c =? 39) || (Go.byte_val c =? 59) || (Go.byte_val c =? 34)
  || (Go.byte_val c =? 92).

Fixpoint all_bytes (p : ascii -> bool) (s : string) : bool :=
  match s with
  | EmptyString => true
  | String c s' => p c && all_bytes p s'
  end.

Fixpoint any_byte (p : ascii -> bool) (s : string) : bool :=
  match s with
  | EmptyString => false
  | String c s' => p c || any_byte p s'
  end.

(** IsValidUsername.  The pattern [^[a-zA-Z0-9_-]+$] matches the strings
    that are not empty and have every byte in the class; a byte of a
    character outside ASCII is not in it. *)
Definition IsValidUsername (username : string) : bool :=
  if (Z.of_nat (String.length username) <? 3)
     || (150 <? Z.of_nat (String.length username)) then false
  else negb (String.eqb username "") && all_bytes is_name_byte username.

(** IsValidPassword *)
Definition IsValidPassword (password : string) : bool :=
  if Z.of_nat (String.length password) <? 6 then false
  else
    let hasLetter := any_byte is_letter password in
    let hasNumber := any_byte Go.is_digit password in
    hasLetter && hasNumber.

(** IsValidPort *)
Definition IsValidPort (port : Z) : bool := (0 <? port) && (port <=? 65535).

Definition is_lt (c : ascii) : bool := Go.byte_val c =? 60.
Definition is_gt (c : ascii) : bool := Go.byte_val c =? 62.

(** [ReplaceAllString] of the pattern [<[^>]*>] by the empty string.  A
    match starts at a ['<'] that has a ['>'] somewhere after it and ends at
    the first such ['>']; matches are taken from left to right and do not
    overlap.  [inside] says that the scan is within a match. *)
Fixpoint strip_tags_from (inside : bool) (s : string) : string :=
  match s with
  | EmptyString => ""
  | String c s' =>
      if inside then
        if is_gt c then strip_tags_from false s' else strip_tags_from true s'
      else if is_lt c && any_byte is_gt s' then strip_tags_from true s'
      else String c (strip_tags_from false s')
  end.

Definition strip_tags (s : string) : string := strip_tags_from false s.

(** [ReplaceAllString] of the second pattern by the empty string. *)
Fixpoint strip_quotes (s : string) : string :=
  match s with
  | EmptyString => ""
  | String c s' =>
      if is_quote_byte c then strip_quotes s' else String c (strip_quotes s')
  end.

(** SanitizeString *)
Definition SanitizeString (input : string) : string :=
  let input := GoStrings.TrimSpace input in
  let input := strip_tags input in
  let input := strip_quotes input in
  input.

(** A string has a tag when some ['<'] in it has a ['>'] after it. *)
Fixpoint has_tag (s : string) : bool :=
  match s with
  | EmptyString => false
  | String c s' => (is_lt c && any_byte is_gt s') || has_tag s'
  end.

(** A byte that is ASCII and not white space. *)
Definition solid (c : ascii) : bool :=
  negb (128 <=? Go.byte_val c) && negb (GoStrings.asciiSpace (Go.byte_val c)).

End Validator.

(** A cron parser stand-in that takes every expression. *)
Module SampleCron.
Definition parse_accept (spec : string) : option error := None.
End SampleCron.

(* ===================================================================== *)
(** ** The recursion bounds of the library models are never reached        *)
(* ===================================================================== *)

Lemma DecodeRune_width p rest : (1 <= snd (Go.DecodeRune p rest))%nat.
Proof.
  unfold Go.DecodeRune.
  repeat match goal with
         | |- context [if ?b then _ else _] => destruct b
         | |- context [match ?l with [] => _ | _ :: _ => _ end] => destruct l
         end; cbn; lia.
Qed.

Lemma take_drop n : forall s, (Go.take n s ++ Go.drop n s)%string = s.
Proof.
  induction n as [|n IH]; intros [|c s]; cbn; trivial. now rewrite IH.
Qed.

Lemma drop_length n : forall s,
  (String.length (Go.drop n s) <= String.length s - n)%nat.
Proof.
  induction n as [|n IH]; intros [|c s]; cbn; try lia. apply IH.
Qed.

(** Ranging over a string loses no byte: the texts of the decoded chunks
    concatenate to the string. *)
Lemma range_string_text fuel : forall s,
  (String.length s <= fuel)%nat -> Go.span_text (Go.range_string fuel s) = s.
Proof.
  induction fuel as [|fuel IH]; intros [|c s] H; cbn in H |- *; trivial; try lia.
  pose proof (DecodeRune_width (Go.byte_val c) (Go.bytes_of s)) as Hw.
  destruct (Go.DecodeRune _ _) as [r [|w]]; cbn [snd] in Hw; [lia|].
  cbn [Go.span_text fold_right Go.text]. fold (Go.span_text (Go.range_string fuel
    (Go.drop (S w) (String c s)))).
  rewrite IH; [apply take_drop|].
  cbn [Go.drop]. pose proof (drop_length w s). lia.
Qed.

Lemma runes_text s : Go.span_text (Go.runes s) = s.
Proof. apply range_string_text. lia. Qed.

Lemma leadingInt_length s : forall x v r,
  Go.leadingInt x s = Some (v, r) -> (String.length r <= String.length s)%nat.
Proof.
  induction s as [|c s IH]; intros x v r; cbn.
  - intros [= _ <-]. cbn. lia.
  - destruct (Go.is_digit c).
    + destruct (_ <? x); [discriminate|].
      destruct (_ <? _); [discriminate|].
      intros H. apply IH in H. lia.
    + intros [= _ <-]. cbn. lia.
Qed.

Lemma leadingFraction_length s : forall x scale overflow,
  (String.length (snd (Go.leadingFraction x scale overflow s)) <= String.length s)%nat.
Proof.
  induction s as [|c s IH]; intros x scale overflow; cbn; [lia|].
  destruct (Go.is_digit c); [|cbn; lia].
  destruct overflow; [specialize (IH x scale true); lia|].
  destruct (_ <? x); [specialize (IH x scale true); lia|].
  destruct (_ <? _).
  - specialize (IH x scale true). lia.
  - specialize (IH (x * 10 + Go.digit_val c) (scale * 10)%float false). lia.
Qed.

Lemma unit_span_length s :
  String.length s
  = (String.length (fst (Go.unit_span s)) + String.length (snd (Go.unit_span s)))%nat.
Proof.
  induction s as [|c s IH]; cbn; trivial.
  destruct (_ || _); cbn; trivial.
  destruct (Go.unit_span s) as [u r]. cbn in *. lia.
Qed.

Lemma unit_span_shorter s u r :
  Go.unit_span s = (u, r) -> u <> "" ->
  (String.length r < String.length s)%nat.
Proof.
  intros E Hu. pose proof (unit_span_length s) as H. rewrite E in H. cbn in H.
  destruct u; [congruence|]. cbn in H. lia.
Qed.

(** Any bound at least the length of the input gives the same parse. *)
Lemma ParseDuration_loop_fuel fuel1 : forall fuel2 d s,
  (String.length s <= fuel1)%nat -> (String.length s <= fuel2)%nat ->
  Go.ParseDuration_loop fuel1 d s = Go.ParseDuration_loop fuel2 d s.
Proof.
  induction fuel1 as [|fuel1 IH]; intros fuel2 d s H1 H2.
  - destruct s; [now destruct fuel2 | cbn in H1; lia].
  - destruct s as [|c t]; [now destruct fuel2|].
    destruct fuel2 as [|fuel2]; [cbn in H2; lia|].
    cbn [Go.ParseDuration_loop].
    destruct (negb _); trivial.
    destruct (Go.leadingInt 0 (String c t)) as [[v s1]|] eqn:E1; trivial.
    apply leadingInt_length in E1.
    assert (Hstep : forall s2 d', (String.length s2 <= String.length s1)%nat ->
              match Go.unit_span s2 with
              | (u, s3) => u <> "" ->
                  Go.ParseDuration_loop fuel1 d' s3 = Go.ParseDuration_loop fuel2 d' s3
              end).
    { intros s2 d' Hs2. destruct (Go.unit_span s2) as [u s3] eqn:E3. intros Hu.
      pose proof (unit_span_shorter _ _ _ E3 Hu). cbn in H1, H2, E1.
      apply IH; lia. }
    destruct s1 as [|c1 t1].
    + destruct (_ && _); reflexivity.
    + destruct (Ascii.eqb c1 ".").
      * pose proof (leadingFraction_length t1 0 1%float false) as Hf.
        destruct (Go.leadingFraction 0 1 false t1) as [[f scale] r]. cbn [snd] in Hf.
        destruct (_ && _); trivial.
        assert (Hr : (String.length r <= String.length (String c1 t1))%nat)
          by (cbn; lia).
        pose proof (fun d' => Hstep r d' Hr) as Hstep'.
        destruct (Go.unit_span r) as [u s3].
        destruct (String.eqb_spec u ""); trivial.
        repeat match goal with
               | |- context [match ?o with Some _ => _ | None => _ end] => destruct o
               | |- context [if ?b then _ else _] => destruct b
               end; auto.
      * destruct (_ && _); trivial.
        pose proof (fun d' => Hstep (String c1 t1) d' (Nat.le_refl _)) as Hstep'.
        destruct (Go.unit_span (String c1 t1)) as [u s3].
        destruct (String.eqb_spec u ""); trivial.
        repeat match goal with
               | |- context [match ?o with Some _ => _ | None => _ end] => destruct o
               | |- context [if ?b then _ else _] => destruct b
               end; auto.
Qed.

(* ===================================================================== *)
(** ** Properties: utils.IsValidCronExpression                             *)
(* ===================================================================== *)

Open Scope list_scope.

Section FieldsFacts.
Variable f : Z -> bool.
Let blank (c : Go.chunk) : bool := f (Go.rune c).

Lemma loop_sound l :
    Spec.SplitsInto blank l (Go.FieldsFunc_loop f None l) /\
    forall acc, acc <> [] -> forallb (fun c => negb (blank c)) acc = true ->
      Spec.SplitsInto blank (rev acc ++ l) (Go.FieldsFunc_loop f (Some acc) l).
Proof.
    induction l as [|c l [IH1 IH2]].
    - split.
      + simpl. now constructor.
      + intros acc Hne Hacc. simpl. rewrite app_nil_r.
        apply (Spec.split_last blank [] (rev acc)); trivial.
        * intro E. apply Hne. rewrite <- (rev_involutive acc), E. reflexivity.
        * rewrite forallb_forall in *. intros x Hx. apply Hacc.
          now apply in_rev.
    - split.
      + simpl. destruct (f (Go.rune c)) eqn:Ec.
        * inversion IH1; subst.
          -- apply Spec.split_blank. simpl. unfold blank at 1. now rewrite Ec.
          -- apply (Spec.split_last blank (c :: sp)); trivial.
             simpl. unfold blank at 1. now rewrite Ec.
          -- apply (Spec.split_more blank (c :: sp)); trivial.
             simpl. unfold blank at 1. now rewrite Ec.
        * apply (IH2 [c]); [discriminate|].
          simpl. unfold blank. now rewrite Ec.
      + intros acc Hne Hacc. simpl. destruct (f (Go.rune c)) eqn:Ec.
        * apply (Spec.split_more blank [] (rev acc) c l); trivial.
          -- intro E. apply Hne. rewrite <- (rev_involutive acc), E. reflexivity.
          -- rewrite forallb_forall in *. intros x Hx. apply Hacc.
             now apply in_rev.
        * replace (rev acc ++ c :: l)%list with (rev (c :: acc) ++ l)%list
            by (simpl; now rewrite <- app_assoc).
          apply IH2; [discriminate|].
          simpl. unfold blank at 1. now rewrite Ec.
Qed.

Lemma loop_skip sp l :
    forallb blank sp = true ->
    Go.FieldsFunc_loop f None (sp ++ l) = Go.FieldsFunc_loop f None l.
Proof.
    induction sp as [|c sp IH]; simpl; trivial.
    intros H. apply andb_prop in H as [Hc Hsp]. unfold blank in Hc.
    rewrite Hc. auto.
Qed.

Lemma loop_field fld l acc :
    forallb (fun c => negb (blank c)) fld = true ->
    Go.FieldsFunc_loop f (Some acc) (fld ++ l)
    = Go.FieldsFunc_loop f (Some (rev fld ++ acc)) l.
Proof.
    revert acc. induction fld as [|c fld IH]; simpl; trivial.
    intros acc H. apply andb_prop in H as [Hc Hfld]. unfold blank in Hc.
    apply negb_true_iff in Hc. rewrite Hc, IH by trivial.
    now rewrite <- app_assoc.
Qed.

Lemma loop_open fld l :
    fld <> [] -> forallb (fun c => negb (blank c)) fld = true ->
    Go.FieldsFunc_loop f None (fld ++ l)
    = Go.FieldsFunc_loop f (Some (rev fld)) l.
Proof.
    destruct fld as [|c fld]; [congruence|]. intros _ H. simpl in *.
    apply andb_prop in H as [Hc Hfld]. unfold blank in Hc.
    apply negb_true_iff in Hc. rewrite Hc.
    now rewrite loop_field.
Qed.

Lemma loop_complete l fields :
    Spec.SplitsInto blank l fields -> Go.FieldsFunc_loop f None l = fields.
Proof.
    induction 1 as [sp Hsp | sp fld Hsp Hne Hfld | sp fld c rest fields Hsp Hne Hfld Hc _ IH].
    - rewrite <- (app_nil_r sp), loop_skip by trivial. reflexivity.
    - rewrite loop_skip by trivial.
      rewrite <- (app_nil_r fld) at 1. rewrite loop_open by trivial.
      simpl. now rewrite rev_involutive.
    - rewrite loop_skip, loop_open by trivial. simpl.
      unfold blank in Hc. rewrite Hc, rev_involutive, IH. reflexivity.
Qed.
End FieldsFacts.

Lemma Fields_count expr n :
  Spec.field_count expr n <-> List.length (Go.Fields expr) = n.
Proof.
  unfold Spec.field_count, Go.Fields, Go.FieldsFunc. rewrite length_map. split.
  - intros (fields & H & Hn). now rewrite (loop_complete _ _ _ H).
  - intros Hn. exists (Go.FieldsFunc_loop Go.IsSpace None (Go.runes expr)).
    split; trivial. apply loop_sound.
Qed.

(** C5.  [IsValidCronExpression expr] holds exactly when [expr] is empty or
    splits on white space into exactly 5 or exactly 6 fields; four fields
    are rejected and the six-field expression of the example is accepted. *)
Theorem IsValidCronExpression_five_or_six_fields :
  (forall expr : string,
      Utils.IsValidCronExpression expr = true <->
      expr = "" \/ Spec.field_count expr 5 \/ Spec.field_count expr 6)
  /\ Utils.IsValidCronExpression "* * * *" = false
  /\ Utils.IsValidCronExpression "0 0 12 * * *" = true.
Proof.
  split; [|split; vm_compute; reflexivity].
  intros expr. unfold Utils.IsValidCronExpression.
  rewrite !Fields_count.
  destruct (String.eqb_spec expr "") as [E|E].
  - tauto.
  - rewrite orb_true_iff, !Nat.eqb_eq. tauto.
Qed.

(* ===================================================================== *)
(** ** Properties: the overlap guard of the scheduler                      *)
(* ===================================================================== *)

(** A decimal numeral is never the word "running". *)
Lemma Sprintf_d_not_running n : String.eqb (Go.Sprintf_d n) "running" = false.
Proof.
  unfold Go.Sprintf_d.
  destruct (Z.to_int n) as [d|d]; destruct d; reflexivity.
Qed.

(** Whatever status the store holds for an existing task, the due-handler
    takes the dispatch branch. *)
Lemma executeScheduledTask_always_dispatches taskID task w :
  find (fun t => TestTask.ID t =? taskID) (app_task_testtask (db w)) = Some task ->
  goroutines (snd (SchedulerService.executeScheduledTask taskID w))
  = goroutines w ++ [taskID].
Proof.
  intros H.
  unfold SchedulerService.executeScheduledTask, TaskService.GetTaskStatus,
    Gorm.First_TestTask, bind, get_db, ret, LogInfo, utils_LogInfo, write_log.
  simpl. rewrite H. simpl.
  rewrite Sprintf_d_not_running. reflexivity.
Qed.

(** C1, evaluated on the code.  With the task stored as running (status 1)
    the due-handler does not skip: each of two successive invocations
    starts a batch, and no "already running" line is logged, because
    GetTaskStatus renders the status column as the numeral "1", which the
    handler compares with the word "running". *)
Theorem executeScheduledTask_running_task_is_dispatched :
  let w0 := Sample.world Sample.db_running in
  let w1 := snd (SchedulerService.executeScheduledTask 1 w0) in
  let w2 := snd (SchedulerService.executeScheduledTask 1 w1) in
  fst (TaskService.GetTaskStatus 1 w0) = ("1", None)
  /\ goroutines w1 = [1]
  /\ goroutines w2 = [1; 1]
  /\ map message (logs w2)
     = ["开始执行定时任务: 1"; "Getting task status";
        "开始执行定时任务: 1"; "Getting task status"]%string.
Proof. vm_compute. repeat split. Qed.

(* ===================================================================== *)
(** ** Properties: the execution summary                                   *)
(* ===================================================================== *)

Lemma fold_count_case results : forall total passed failed skipped rate,
  fold_left TaskService.count_case results
    (TaskExecutionSummary.mk total passed failed skipped rate)
  = TaskExecutionSummary.mk total
      (passed + Spec.count "passed" results)
      (failed + Spec.count "failed" results)
      (skipped + Spec.count "skipped" results) rate.
Proof.
  unfold Spec.count.
  induction results as [|r results IH]; intros total passed failed skipped rate.
  - simpl. now rewrite !Z.add_0_r.
  - cbn [fold_left filter]. unfold TaskService.count_case at 2.
    destruct (String.eqb_spec (CaseExecutionResult.Status r) "passed") as [E|_];
      [rewrite ?E, IH; cbn [String.eqb Ascii.eqb Bool.eqb andb List.length];
       f_equal; lia|].
    destruct (String.eqb_spec (CaseExecutionResult.Status r) "failed") as [E|_];
      [rewrite ?E, IH; cbn [String.eqb Ascii.eqb Bool.eqb andb List.length];
       f_equal; lia|].
    destruct (String.eqb_spec (CaseExecutionResult.Status r) "skipped") as [E|_];
      [rewrite ?E, IH; cbn [String.eqb Ascii.eqb Bool.eqb andb List.length];
       f_equal; lia|].
    apply IH.
Qed.

Lemma calculateSummary_counts results :
  let s := TaskService.calculateSummary results in
  TaskExecutionSummary.TotalCases s = Z.of_nat (List.length results)
  /\ TaskExecutionSummary.PassedCases s = Spec.count "passed" results
  /\ TaskExecutionSummary.FailedCases s = Spec.count "failed" results
  /\ TaskExecutionSummary.SkippedCases s = Spec.count "skipped" results
  /\ TaskExecutionSummary.PassRate s
     = Spec.passRate (Spec.count "passed" results) (Z.of_nat (List.length results)).
Proof.
  unfold TaskService.calculateSummary, Spec.passRate.
  rewrite fold_count_case. cbn [TaskExecutionSummary.TotalCases
    TaskExecutionSummary.PassedCases TaskExecutionSummary.FailedCases
    TaskExecutionSummary.SkippedCases].
  destruct (0 <? Z.of_nat (List.length results)); cbn; repeat split; lia.
Qed.

Lemma count_final results :
  Forall Spec.final results ->
  Spec.count "skipped" results = 0
  /\ Spec.count "passed" results + Spec.count "failed" results
     = Z.of_nat (List.length results).
Proof.
  unfold Spec.count.
  induction 1 as [|r results [E|E] _ [IHs IHt]]; [now split | |];
    cbn [filter]; rewrite E; cbn [String.eqb Ascii.eqb Bool.eqb andb List.length];
    split; trivial; lia.
Qed.

(* ===================================================================== *)
(** ** Effects of the store and of the pieces of a batch                   *)
(* ===================================================================== *)

Lemma bind_eq {A B} (m : M A) (k : A -> M B) w :
  bind m k w = k (fst (m w)) (snd (m w)).
Proof. unfold bind. now destruct (m w). Qed.

Lemma find_task_id taskID rows task :
  find (fun t => TestTask.ID t =? taskID) rows = Some task ->
  TestTask.ID task = taskID.
Proof. intros H. apply find_some in H as [_ H]. now apply Z.eqb_eq. Qed.

Lemma replace_task_find t rows rows' :
  Gorm.replace_task t rows = Some rows' ->
  find (fun r => TestTask.ID r =? TestTask.ID t) rows' = Some t.
Proof.
  revert rows'. induction rows as [|r rows IH]; intros rows'; simpl; [discriminate|].
  destruct (TestTask.ID r =? TestTask.ID t) eqn:E.
  - intros [= <-]. simpl. now rewrite Z.eqb_refl.
  - destruct (Gorm.replace_task t rows); [|discriminate].
    intros [= <-]. simpl. rewrite E. now apply IH.
Qed.

Lemma replace_task_none t rows :
  Gorm.replace_task t rows = None ->
  find (fun r => TestTask.ID r =? TestTask.ID t) rows = None.
Proof.
  induction rows as [|r rows IH]; simpl; trivial.
  destruct (TestTask.ID r =? TestTask.ID t); [discriminate|].
  destruct (Gorm.replace_task t rows); [discriminate|]. auto.
Qed.

Lemma find_app_none {A} (p : A -> bool) l x :
  find p l = None -> find p (l ++ [x]) = if p x then Some x else None.
Proof.
  induction l as [|a l IH]; simpl; trivial.
  destruct (p a); [discriminate|]. auto.
Qed.

(** Saving a task touches the task table and the clock only, and leaves a
    row under the task's key that carries the saved status. *)
Lemma Save_TestTask_effect t w :
  let w' := snd (Gorm.Save_TestTask t w) in
  (exists t', find (fun r => TestTask.ID r =? TestTask.ID t)
                (app_task_testtask (db w')) = Some t'
              /\ TestTask.Status t' = TestTask.Status t
              /\ (find (fun r => TestTask.ID r =? TestTask.ID t)
                       (app_task_testtask (db w)) <> None ->
                  t' = TestTask.set_UpdateTime t (wallclock w (clock_reads w))))
  /\ app_task_taskcaserelevance (db w') = app_task_taskcaserelevance (db w)
  /\ app_case_testcase (db w') = app_case_testcase (db w)
  /\ app_case_caseresult (db w') = app_case_caseresult (db w)
  /\ app_task_taskreport (db w') = app_task_taskreport (db w)
  /\ logs w' = logs w /\ goroutines w' = goroutines w /\ slept w' = slept w.
Proof.
  unfold Gorm.Save_TestTask, bind, time_Now, get_db, put_db, ret, with_db.
  cbn [db].
  destruct (Gorm.replace_task _ _) as [rows|] eqn:E; cbn.
  - apply replace_task_find in E. cbn in E. rewrite E.
    repeat split; trivial. eexists; repeat split; reflexivity.
  - apply replace_task_none in E. cbn in E.
    rewrite (find_app_none _ _ _ E). cbn. rewrite Z.eqb_refl.
    repeat split; trivial. eexists; repeat split; trivial. congruence.
Qed.

Section BatchFacts.
Variable CaseData : Type.
Variable json_Unmarshal : string -> CaseData + error.

Let executeSingleCase := TaskService.executeSingleCase CaseData json_Unmarshal.
Let ExecuteTask_cases := TaskService.ExecuteTask_cases CaseData json_Unmarshal.
Let ExecuteTask := TaskService.ExecuteTask CaseData json_Unmarshal.

(** Running one case reads the clock and sleeps; it writes nothing, and
    its result is final. *)
Lemma executeSingleCase_effect caseID w :
  let rc := executeSingleCase caseID w in
  Spec.final (fst rc)
  /\ CaseExecutionResult.CaseID (fst rc) = caseID
  /\ db (snd rc) = db w /\ logs (snd rc) = logs w
  /\ goroutines (snd rc) = goroutines w.
Proof.
  unfold executeSingleCase, TaskService.executeSingleCase, TaskService.runTestCase,
    Gorm.First_TestCase, Spec.final, bind, time_Now, time_Sleep, get_db, ret.
  cbn.
  destruct (find _ _) as [testCase|]; cbn.
  - destruct (json_Unmarshal _); cbn; repeat split; auto.
  - repeat split; auto.
Qed.

(** Saving a case result appends one row, built from the result's case
    identifier, name, status and duration, to the case-result table. *)
Lemma saveCaseResult_effect taskID result w :
  let w' := snd (TaskService.saveCaseResult taskID result w) in
  (exists row,
      app_case_caseresult (db w') = app_case_caseresult (db w) ++ [row]
      /\ CaseResult.CaseID row = CaseExecutionResult.CaseID result
      /\ CaseResult.Name row = CaseExecutionResult.CaseName result
      /\ CaseResult.Report row
         = ("Status: " ++ CaseExecutionResult.Status result ++ ", Duration: "
              ++ Go.Duration_String (CaseExecutionResult.Duration result))%string)
  /\ app_task_testtask (db w') = app_task_testtask (db w)
  /\ app_task_taskcaserelevance (db w') = app_task_taskcaserelevance (db w)
  /\ app_case_testcase (db w') = app_case_testcase (db w)
  /\ app_task_taskreport (db w') = app_task_taskreport (db w)
  /\ logs w' = logs w /\ goroutines w' = goroutines w.
Proof.
  unfold TaskService.saveCaseResult, Gorm.Create_CaseResult, bind, time_Now,
    get_db, put_db, ret, with_db.
  cbn. repeat split; trivial. eexists. repeat split; reflexivity.
Qed.

(** One iteration of the loop, for a binding whose hash names a case and
    for one whose hash names none. *)
Lemma ExecuteTask_cases_found taskID relevance rest results w testCase :
  find (fun c => String.eqb (TestCase.CaseHash c) (TaskCaseRelevance.CaseHash relevance))
       (app_case_testcase (db w)) = Some testCase ->
  let rc := executeSingleCase (TestCase.ID testCase) w in
  ExecuteTask_cases taskID (relevance :: rest) results w
  = ExecuteTask_cases taskID rest (results ++ [fst rc])
      (snd (TaskService.saveCaseResult taskID (fst rc) (snd rc))).
Proof.
  intros H. unfold ExecuteTask_cases, executeSingleCase.
  cbn [TaskService.ExecuteTask_cases].
  unfold Gorm.First_TestCase_by_hash, get_db, ret, bind. cbn [fst snd]. rewrite H.
  cbn [Gorm.first_or_err].
  destruct (TaskService.executeSingleCase _ _ _ w) as [a w1]. cbn [fst snd].
  now destruct (TaskService.saveCaseResult taskID a w1).
Qed.

Lemma ExecuteTask_cases_missing taskID relevance rest results w :
  find (fun c => String.eqb (TestCase.CaseHash c) (TaskCaseRelevance.CaseHash relevance))
       (app_case_testcase (db w)) = None ->
  ExecuteTask_cases taskID (relevance :: rest) results w
  = ExecuteTask_cases taskID rest
      (results ++ [CaseExecutionResult.mk 0 (TaskCaseRelevance.CaseHash relevance)
                     "failed" (wallclock w (clock_reads w))
                     (wallclock w (S (clock_reads w))) 0
                     ("用例不存在: " ++ Gorm.ErrRecordNotFound)%string [] []])
      (mkWorld (db w) (wallclock w) (S (S (clock_reads w))) (slept w) (logs w)
               (goroutines w)).
Proof.
  intros H. unfold ExecuteTask_cases. cbn [TaskService.ExecuteTask_cases].
  unfold Gorm.First_TestCase_by_hash, get_db, ret, bind. cbn [fst snd]. rewrite H.
  reflexivity.
Qed.

(** The loop over the bindings: one final result per binding is appended;
    only the case-result table grows. *)
Lemma ExecuteTask_cases_effect taskID relevances : forall results w,
  let rc := ExecuteTask_cases taskID relevances results w in
  (exists new, fst rc = results ++ new
               /\ List.length new = List.length relevances
               /\ Forall Spec.final new)
  /\ (exists rows, app_case_caseresult (db (snd rc))
                   = app_case_caseresult (db w) ++ rows)
  /\ app_task_testtask (db (snd rc)) = app_task_testtask (db w)
  /\ app_task_taskcaserelevance (db (snd rc)) = app_task_taskcaserelevance (db w)
  /\ app_case_testcase (db (snd rc)) = app_case_testcase (db w)
  /\ app_task_taskreport (db (snd rc)) = app_task_taskreport (db w)
  /\ logs (snd rc) = logs w /\ goroutines (snd rc) = goroutines w.
Proof.
  induction relevances as [|relevance rest IH]; intros results w.
  - cbn. repeat split; trivial.
    + exists []. rewrite app_nil_r. repeat split; trivial.
    + exists []. now rewrite app_nil_r.
  - destruct (find (fun c => String.eqb (TestCase.CaseHash c)
                                (TaskCaseRelevance.CaseHash relevance))
                (app_case_testcase (db w))) as [testCase|] eqn:Ef; cbv zeta.
    + rewrite (ExecuteTask_cases_found _ _ _ _ _ _ Ef). cbv zeta.
      destruct (executeSingleCase_effect (TestCase.ID testCase) w)
        as (Hfin & _ & Hdb & Hlogs & Hgo).
      destruct (saveCaseResult_effect taskID
                  (fst (executeSingleCase (TestCase.ID testCase) w))
                  (snd (executeSingleCase (TestCase.ID testCase) w)))
        as ((row & Hrow & _) & Ht & Hr & Hc & Hp & Hl & Hg).
      edestruct IH as ((new & Hnew & Hlen & Hall) & (rows & Hrows) & Ht' & Hr'
                       & Hc' & Hp' & Hl' & Hg').
      rewrite Hnew, Hrows, Ht', Hr', Hc', Hp', Hl', Hg'.
      rewrite Hrow, Ht, Hr, Hc, Hp, Hl, Hg, !Hdb, Hlogs, Hgo.
      repeat split; trivial.
      * eexists (_ :: new). rewrite <- app_assoc. split; [reflexivity|].
        split; [simpl; now rewrite Hlen | now constructor].
      * eexists. now rewrite <- app_assoc.
    + rewrite (ExecuteTask_cases_missing _ _ _ _ _ Ef).
      edestruct IH as ((new & Hnew & Hlen & Hall) & (rows & Hrows) & Ht' & Hr'
                       & Hc' & Hp' & Hl' & Hg').
      rewrite Hnew, Hrows, Ht', Hr', Hc', Hp', Hl', Hg'.
      cbn [db logs goroutines].
      repeat split; trivial.
      * eexists (_ :: new). rewrite <- app_assoc. split; [reflexivity|].
        split; [simpl; now rewrite Hlen|]. constructor; trivial. now right.
      * now exists rows.
Qed.

(** Writing the report appends one row carrying the summary's counts. *)
Lemma saveTaskReport_effect taskID result w :
  let w' := snd (TaskService.saveTaskReport taskID result w) in
  let summary := TaskExecutionResult.Summary result in
  (exists row,
      app_task_taskreport (db w') = app_task_taskreport (db w) ++ [row]
      /\ TaskReport.TaskID row = taskID
      /\ TaskReport.Report row
         = ("Task executed with status: " ++ TaskExecutionResult.Status result)%string
      /\ TaskReport.Passed row = TaskExecutionSummary.PassedCases summary
      /\ TaskReport.Error row = TaskExecutionSummary.FailedCases summary
      /\ TaskReport.Failure row = TaskExecutionSummary.FailedCases summary
      /\ TaskReport.Skipped row = TaskExecutionSummary.SkippedCases summary
      /\ TaskReport.Tests row = TaskExecutionSummary.TotalCases summary)
  /\ app_task_testtask (db w') = app_task_testtask (db w)
  /\ app_task_taskcaserelevance (db w') = app_task_taskcaserelevance (db w)
  /\ app_case_testcase (db w') = app_case_testcase (db w)
  /\ app_case_caseresult (db w') = app_case_caseresult (db w)
  /\ logs w' = logs w /\ goroutines w' = goroutines w.
Proof.
  unfold TaskService.saveTaskReport, Gorm.Create_TaskReport, bind, time_Now,
    get_db, put_db, ret, with_db.
  cbn. repeat split; trivial. eexists. repeat split; reflexivity.
Qed.

(** The shape of a batch for a task that exists.  [w3] is the world in
    which the loop over the bindings starts. *)
Lemma ExecuteTask_found taskID task w :
  find (fun t => TestTask.ID t =? taskID) (app_task_testtask (db w)) = Some task ->
  exists w3 result w',
    ExecuteTask taskID w = ((Some result, None), w')
    /\ app_case_testcase (db w3) = app_case_testcase (db w)
    /\ app_case_caseresult (db w3) = app_case_caseresult (db w)
    /\ (let rc := ExecuteTask_cases taskID
                    (filter (fun r => TaskCaseRelevance.TaskID r =? taskID)
                            (app_task_taskcaserelevance (db w))) [] w3 in
        TaskExecutionResult.Results result = fst rc
        /\ app_case_caseresult (db w') = app_case_caseresult (db (snd rc)))
    /\ TaskExecutionResult.Summary result
       = TaskService.calculateSummary (TaskExecutionResult.Results result)
    /\ TaskExecutionResult.Status result
       = (if 0 <? TaskExecutionSummary.FailedCases (TaskExecutionResult.Summary result)
          then "failed" else "success")
    /\ (exists now,
          find (fun t => TestTask.ID t =? taskID) (app_task_testtask (db w'))
          = Some (TestTask.set_UpdateTime
                    (TestTask.set_Status task
                       (TaskService.statusInt (TaskExecutionResult.Status result)))
                    now))
    /\ (exists row,
          app_task_taskreport (db w') = app_task_taskreport (db w) ++ [row]
          /\ TaskReport.TaskID row = taskID
          /\ TaskReport.Report row
             = ("Task executed with status: "
                  ++ TaskExecutionResult.Status result)%string
          /\ TaskReport.Error row
             = TaskExecutionSummary.FailedCases (TaskExecutionResult.Summary result)
          /\ TaskReport.Failure row
             = TaskExecutionSummary.FailedCases (TaskExecutionResult.Summary result))
    /\ goroutines w' = goroutines w.
Proof.
  intros H. pose proof (find_task_id _ _ _ H) as Hid.
  unfold ExecuteTask, TaskService.ExecuteTask, Gorm.First_TestTask,
    Gorm.Find_TaskCaseRelevance, TaskService.updateTaskStatus, get_db, ret, bind.
  cbn [fst snd]. rewrite H. cbn [Gorm.first_or_err].
  set (task1 := TestTask.set_Status task 1).
  destruct (Save_TestTask_effect task1 w)
    as ((t1 & Ht1 & _) & Hr1 & Hc1 & Hcr1 & Hp1 & _ & Hg1 & _).
  destruct (Gorm.Save_TestTask task1 w) as [e1 w1]. cbn [snd] in *.
  unfold time_Now at 1, LogInfo at 1, write_log at 1.
  cbn [db wallclock clock_reads slept logs goroutines].
  set (w3 := mkWorld (db w1) _ _ _ _ _).
  rewrite Hr1.
  set (rels := filter _ (app_task_taskcaserelevance (db w))).
  destruct (ExecuteTask_cases_effect taskID rels [] w3)
    as (_ & _ & Ht4 & _ & _ & Hp4 & _ & Hg4).
  fold ExecuteTask_cases.
  destruct (ExecuteTask_cases taskID rels [] w3) as [results w4] eqn:E4.
  cbn [fst snd] in *.
  unfold time_Now at 1.
  set (w5 := mkWorld (db w4) _ _ _ _ _).
  set (summary := TaskService.calculateSummary results).
  set (status := if 0 <? TaskExecutionSummary.FailedCases summary then _ else _).
  set (task2 := TestTask.set_Status task1 (TaskService.statusInt status)).
  destruct (Save_TestTask_effect task2 w5)
    as ((t' & Ht' & _ & Hs') & _ & _ & Hcr6 & Hp6 & _ & Hg6 & _).
  destruct (Gorm.Save_TestTask task2 w5) as [e6 w6]. cbn [snd] in *.
  set (result := TaskExecutionResult.mk taskID status _ _ _ results summary "").
  destruct (saveTaskReport_effect taskID result w6)
    as ((row & Hrow & Hrt & Hrr & _ & Hre & Hrf & _) & Ht7 & _ & _ & Hcr7 & _ & Hg7).
  destruct (TaskService.saveTaskReport taskID result w6) as [u7 w7]. cbn [snd] in *.
  unfold LogInfo, write_log.
  exists w3. eexists. eexists. split; [reflexivity|]. rewrite E4.
  cbn [db logs goroutines TaskExecutionResult.Results TaskExecutionResult.Summary
       TaskExecutionResult.Status fst snd].
  subst w3 w5. cbn [db goroutines] in *.
  repeat split; trivial; try congruence.
  - exists (wallclock w4 (S (clock_reads w4))). rewrite Ht7.
    cbn [TestTask.ID task1 task2 TestTask.set_Status] in Ht', Hs', Ht1.
    rewrite Hid in Ht', Hs', Ht1. rewrite Ht', Hs'; [reflexivity|].
    rewrite Ht4, Ht1. discriminate.
  - exists row. repeat split; trivial. congruence.
Qed.

Lemma executeSingleCase_passed caseID w testCase caseData :
  find (fun c => TestCase.ID c =? caseID) (app_case_testcase (db w)) = Some testCase ->
  json_Unmarshal (TestCase.CaseDoc testCase) = inl caseData ->
  let r := fst (executeSingleCase caseID w) in
  CaseExecutionResult.Status r = "passed"
  /\ CaseExecutionResult.CaseName r = TestCase.CaseName testCase
  /\ CaseExecutionResult.ErrorMsg r = "".
Proof.
  intros Hf Hj.
  unfold executeSingleCase, TaskService.executeSingleCase, TaskService.runTestCase,
    Gorm.First_TestCase, bind, time_Now, time_Sleep, get_db, ret.
  cbn. rewrite Hf. cbn. rewrite Hj. cbn. auto.
Qed.

(* ===================================================================== *)
(** ** Properties: batches                                                 *)
(* ===================================================================== *)

(** C7.  A batch for a task identifier with no task row returns no result
    and a not-found error, and leaves the world as it was: no status or
    report is written and no case runs (the database, the log, the clock
    readings and the time slept are untouched). *)
Theorem ExecuteTask_missing_task_aborts taskID w :
  find (fun t => TestTask.ID t =? taskID) (app_task_testtask (db w)) = None ->
  ExecuteTask taskID w
  = ((None, Some ("任务不存在: " ++ Gorm.ErrRecordNotFound)%string), w).
Proof.
  intros H.
  unfold ExecuteTask, TaskService.ExecuteTask, Gorm.First_TestTask, bind, get_db, ret.
  cbn [fst snd]. rewrite H. reflexivity.
Qed.

(** C10.  Every case result of a batch, for a binding that resolves or
    not, ends as "passed" or "failed" and never as "skipped"; the
    summary therefore counts no skipped case, and passed plus failed is the
    total.  A single executed case already ends that way. *)
Theorem ExecuteTask_results_passed_or_failed taskID task w :
  find (fun t => TestTask.ID t =? taskID) (app_task_testtask (db w)) = Some task ->
  (forall caseID w0, Spec.final (fst (executeSingleCase caseID w0)))
  /\ exists result w',
      ExecuteTask taskID w = ((Some result, None), w')
      /\ List.length (TaskExecutionResult.Results result)
         = List.length (filter (fun r => TaskCaseRelevance.TaskID r =? taskID)
                               (app_task_taskcaserelevance (db w)))
      /\ Forall (fun r => Spec.final r /\ CaseExecutionResult.Status r <> "skipped")
                (TaskExecutionResult.Results result)
      /\ TaskExecutionSummary.SkippedCases (TaskExecutionResult.Summary result) = 0
      /\ TaskExecutionSummary.PassedCases (TaskExecutionResult.Summary result)
         + TaskExecutionSummary.FailedCases (TaskExecutionResult.Summary result)
         = TaskExecutionSummary.TotalCases (TaskExecutionResult.Summary result).
Proof.
  intros H. split; [intros; apply executeSingleCase_effect|].
  destruct (ExecuteTask_found _ _ _ H)
    as (w3 & result & w' & Hrun & _ & _ & [Hres _] & Hsum & _).
  destruct (ExecuteTask_cases_effect taskID
              (filter (fun r => TaskCaseRelevance.TaskID r =? taskID)
                      (app_task_taskcaserelevance (db w))) [] w3)
    as ((new & Hnew & Hlen & Hall) & _).
  rewrite <- Hres in Hnew. cbn [app] in Hnew. subst new.
  exists result, w'. split; [exact Hrun|].
  destruct (calculateSummary_counts (TaskExecutionResult.Results result))
    as (Ht & Hp & Hf & Hs & _).
  destruct (count_final _ Hall) as [Hz Hsum2].
  rewrite Hsum, Ht, Hp, Hf, Hs.
  repeat split; trivial.
  eapply Forall_impl; [|exact Hall].
  intros r [E|E]; (split; [unfold Spec.final; auto | rewrite E; discriminate]).
Qed.

(** C8.  After a completed batch the task row holds status 2 whether the
    batch ended "success" or "failed"; 2 is neither the idle code 0 nor
    the running code 1, and but for the update stamp the row is the same in
    both cases.  The outcome is on the result and in the report's text. *)
Theorem ExecuteTask_persists_one_done_code taskID task w :
  find (fun t => TestTask.ID t =? taskID) (app_task_testtask (db w)) = Some task ->
  TaskService.statusInt "success" = TaskService.statusInt "failed"
  /\ TaskService.statusInt "success" <> 0
  /\ TaskService.statusInt "success" <> TaskService.statusInt "running"
  /\ exists result w' now row,
      ExecuteTask taskID w = ((Some result, None), w')
      /\ (TaskExecutionResult.Status result = "success"
          /\ TaskExecutionSummary.FailedCases (TaskExecutionResult.Summary result) <= 0
          \/ TaskExecutionResult.Status result = "failed"
          /\ 0 < TaskExecutionSummary.FailedCases (TaskExecutionResult.Summary result))
      /\ find (fun t => TestTask.ID t =? taskID) (app_task_testtask (db w'))
         = Some (TestTask.set_UpdateTime (TestTask.set_Status task 2) now)
      /\ app_task_taskreport (db w') = app_task_taskreport (db w) ++ [row]
      /\ TaskReport.Report row
         = ("Task executed with status: " ++ TaskExecutionResult.Status result)%string.
Proof.
  intros H. repeat split; try discriminate.
  destruct (ExecuteTask_found _ _ _ H)
    as (w3 & result & w' & Hrun & _ & _ & _ & _ & Hst & (now & Hrow)
        & (row & Hrep & _ & Htxt & _) & _).
  exists result, w', now, row. split; [exact Hrun|].
  assert (Hcode : TaskService.statusInt (TaskExecutionResult.Status result) = 2).
  { rewrite Hst. now destruct (0 <? _). }
  rewrite Hcode in Hrow. repeat split; trivial.
  rewrite Hst. destruct (Z.ltb_spec 0
    (TaskExecutionSummary.FailedCases (TaskExecutionResult.Summary result)));
    [right | left]; auto.
Qed.

(** C9.  The report row a batch writes is appended to the report table
    with both its Error and its Failure column set to the summary's count
    of failed cases, so a table whose rows all have Error = Failure still
    has that property after the batch. *)
Theorem ExecuteTask_report_error_equals_failure taskID task w :
  find (fun t => TestTask.ID t =? taskID) (app_task_testtask (db w)) = Some task ->
  exists result w' row,
    ExecuteTask taskID w = ((Some result, None), w')
    /\ app_task_taskreport (db w') = app_task_taskreport (db w) ++ [row]
    /\ TaskReport.Error row
       = TaskExecutionSummary.FailedCases (TaskExecutionResult.Summary result)
    /\ TaskReport.Failure row
       = TaskExecutionSummary.FailedCases (TaskExecutionResult.Summary result)
    /\ (Forall (fun r => TaskReport.Error r = TaskReport.Failure r)
               (app_task_taskreport (db w)) ->
        Forall (fun r => TaskReport.Error r = TaskReport.Failure r)
               (app_task_taskreport (db w'))).
Proof.
  intros H.
  destruct (ExecuteTask_found _ _ _ H)
    as (w3 & result & w' & Hrun & _ & _ & _ & _ & _ & _
        & (row & Hrep & _ & _ & He & Hf) & _).
  exists result, w', row. repeat split; trivial.
  rewrite Hrep. intros Hall. apply Forall_app. split; trivial.
  constructor; [congruence | constructor].
Qed.

Lemma calculateSummary_passed_failed a b :
  CaseExecutionResult.Status a = "passed" ->
  CaseExecutionResult.Status b = "failed" ->
  TaskService.calculateSummary [a; b] = TaskExecutionSummary.mk 2 1 1 0 50%float.
Proof.
  destruct a, b. cbn [CaseExecutionResult.Status]. intros -> ->.
  vm_compute. reflexivity.
Qed.

(** C6.  The summary's pass rate is passed/total*100 when the total is
    positive and 0 when it is 0, the total being the number of results and
    passed the number of results with status "passed"; a batch for a task
    with no case binding has total 0 and pass rate 0. *)
Theorem calculateSummary_pass_rate :
  (forall results,
      let s := TaskService.calculateSummary results in
      TaskExecutionSummary.TotalCases s = Z.of_nat (List.length results)
      /\ TaskExecutionSummary.PassedCases s = Spec.count "passed" results
      /\ TaskExecutionSummary.PassRate s
         = Spec.passRate (TaskExecutionSummary.PassedCases s)
                         (TaskExecutionSummary.TotalCases s))
  /\ (forall taskID task w,
      find (fun t => TestTask.ID t =? taskID) (app_task_testtask (db w)) = Some task ->
      filter (fun r => TaskCaseRelevance.TaskID r =? taskID)
             (app_task_taskcaserelevance (db w)) = [] ->
      exists result w',
        ExecuteTask taskID w = ((Some result, None), w')
        /\ TaskExecutionSummary.TotalCases (TaskExecutionResult.Summary result) = 0
        /\ TaskExecutionSummary.PassRate (TaskExecutionResult.Summary result)
           = 0%float).
Proof.
  split.
  - intros results s.
    destruct (calculateSummary_counts results) as (Ht & Hp & _ & _ & Hr).
    subst s. rewrite Hr, Ht, Hp. auto.
  - intros taskID task w H Hnone.
    destruct (ExecuteTask_found _ _ _ H)
      as (w3 & result & w' & Hrun & _ & _ & [Hres _] & Hsum & _).
    rewrite Hnone in Hres. cbn in Hres.
    exists result, w'. rewrite Hsum, Hres. auto.
Qed.

(** C2, amended.  For a task whose bindings are [hashA; hashB], where
    hashA names a case whose document decodes and hashB names none, the
    batch returns two results: the first passed, the second a failed
    result named by hashB with the message "用例不存在: record not found".
    The summary is total 2, passed 1, failed 1, skipped 0, pass rate 50.
    The per-case row stored for the resolved case records its status and
    duration; what saveCaseResult stores depends on the result's case
    identifier, name, status and duration only, not on its error message. *)
Theorem ExecuteTask_resolved_and_unresolved_binding
    taskID task w rA rB cA cA' caseData :
  find (fun t => TestTask.ID t =? taskID) (app_task_testtask (db w)) = Some task ->
  filter (fun r => TaskCaseRelevance.TaskID r =? taskID)
         (app_task_taskcaserelevance (db w)) = [rA; rB] ->
  find (fun c => String.eqb (TestCase.CaseHash c) (TaskCaseRelevance.CaseHash rA))
       (app_case_testcase (db w)) = Some cA ->
  find (fun c => TestCase.ID c =? TestCase.ID cA) (app_case_testcase (db w))
  = Some cA' ->
  json_Unmarshal (TestCase.CaseDoc cA') = inl caseData ->
  find (fun c => String.eqb (TestCase.CaseHash c) (TaskCaseRelevance.CaseHash rB))
       (app_case_testcase (db w)) = None ->
  exists result w' resA resB rowA,
    ExecuteTask taskID w = ((Some result, None), w')
    /\ TaskExecutionResult.Results result = [resA; resB]
    /\ CaseExecutionResult.Status resA = "passed"
    /\ CaseExecutionResult.CaseID resA = TestCase.ID cA
    /\ CaseExecutionResult.Status resB = "failed"
    /\ CaseExecutionResult.CaseID resB = 0
    /\ CaseExecutionResult.CaseName resB = TaskCaseRelevance.CaseHash rB
    /\ CaseExecutionResult.ErrorMsg resB = "用例不存在: record not found"
    /\ TaskExecutionResult.Summary result = TaskExecutionSummary.mk 2 1 1 0 50%float
    /\ In rowA (app_case_caseresult (db w'))
    /\ CaseResult.CaseID rowA = TestCase.ID cA
    /\ CaseResult.Name rowA = TestCase.CaseName cA'
    /\ CaseResult.Report rowA
       = ("Status: passed, Duration: "
            ++ Go.Duration_String (CaseExecutionResult.Duration resA))%string
    /\ (forall r r' w0,
          CaseExecutionResult.CaseID r = CaseExecutionResult.CaseID r' ->
          CaseExecutionResult.CaseName r = CaseExecutionResult.CaseName r' ->
          CaseExecutionResult.Status r = CaseExecutionResult.Status r' ->
          CaseExecutionResult.Duration r = CaseExecutionResult.Duration r' ->
          TaskService.saveCaseResult taskID r w0
          = TaskService.saveCaseResult taskID r' w0).
Proof.
  intros H Hrels HA HA' Hj HB.
  destruct (ExecuteTask_found _ _ _ H)
    as (w3 & result & w' & Hrun & Hc3 & _ & [Hres Hrows] & Hsum & _).
  rewrite Hrels in Hres, Hrows. rewrite <- Hc3 in HA, HA', HB.
  rewrite (ExecuteTask_cases_found _ _ _ _ _ _ HA) in Hres, Hrows. cbv zeta in *.
  destruct (executeSingleCase_effect (TestCase.ID cA) w3) as (_ & Hid & Hdb & _).
  destruct (executeSingleCase_passed _ _ _ _ HA' Hj) as (Hpass & Hname & _).
  set (rcA := executeSingleCase (TestCase.ID cA) w3) in *.
  destruct (saveCaseResult_effect taskID (fst rcA) (snd rcA))
    as ((rowA & HrowA & HrowId & HrowName & HrowRep) & _ & _ & HcA & _).
  set (wA := snd (TaskService.saveCaseResult taskID (fst rcA) (snd rcA))) in *.
  assert (HB' : find (fun c => String.eqb (TestCase.CaseHash c)
                                 (TaskCaseRelevance.CaseHash rB))
                  (app_case_testcase (db wA)) = None)
    by (rewrite HcA, Hdb; exact HB).
  rewrite (ExecuteTask_cases_missing _ _ _ _ _ HB') in Hres, Hrows.
  unfold ExecuteTask_cases in Hres, Hrows.
  cbn [TaskService.ExecuteTask_cases ret fst snd db app] in Hres, Hrows.
  exists result, w'. eexists. eexists. exists rowA.
  split; [exact Hrun|]. split; [exact Hres|].
  rewrite Hsum, Hres, Hrows, HrowA, HrowId, HrowName, HrowRep, Hpass, Hid, Hname.
  repeat split; trivial.
  - now apply calculateSummary_passed_failed.
  - apply in_or_app. right. now left.
  - intros r r' w0 E1 E2 E3 E4. unfold TaskService.saveCaseResult.
    now rewrite E1, E2, E3, E4.
Qed.

(* ===================================================================== *)
(** ** Properties: StopTask                                                *)
(* ===================================================================== *)

Lemma Save_TestTask_ok t w : fst (Gorm.Save_TestTask t w) = None.
Proof.
  unfold Gorm.Save_TestTask, bind, time_Now, get_db, put_db, ret. cbn.
  now destruct (Gorm.replace_task _ _).
Qed.

(** The outcome of running a case depends on the case table only. *)
Lemma executeSingleCase_outcome caseID w1 w2 :
  app_case_testcase (db w1) = app_case_testcase (db w2) ->
  Spec.outcome (fst (executeSingleCase caseID w1))
  = Spec.outcome (fst (executeSingleCase caseID w2)).
Proof.
  intros E.
  unfold executeSingleCase, TaskService.executeSingleCase, TaskService.runTestCase,
    Gorm.First_TestCase, Spec.outcome, bind, time_Now, time_Sleep, get_db, ret.
  cbn. rewrite E.
  destruct (find _ _) as [testCase|]; cbn; trivial.
  destruct (json_Unmarshal _); reflexivity.
Qed.

(** So do the outcomes of the loop over the bindings, from any point of
    the loop on. *)
Lemma ExecuteTask_cases_outcome taskID relevances : forall results1 results2 w1 w2,
  app_case_testcase (db w1) = app_case_testcase (db w2) ->
  map Spec.outcome results1 = map Spec.outcome results2 ->
  map Spec.outcome (fst (ExecuteTask_cases taskID relevances results1 w1))
  = map Spec.outcome (fst (ExecuteTask_cases taskID relevances results2 w2)).
Proof.
  induction relevances as [|relevance rest IH]; intros results1 results2 w1 w2 Ec Er.
  - exact Er.
  - destruct (find (fun c => String.eqb (TestCase.CaseHash c)
                                (TaskCaseRelevance.CaseHash relevance))
                (app_case_testcase (db w2))) as [testCase|] eqn:Ef.
    + rewrite (ExecuteTask_cases_found _ _ _ _ w2 _ Ef).
      rewrite <- Ec in Ef. rewrite (ExecuteTask_cases_found _ _ _ _ w1 _ Ef).
      cbv zeta. apply IH.
      * destruct (saveCaseResult_effect taskID
                    (fst (executeSingleCase (TestCase.ID testCase) w1))
                    (snd (executeSingleCase (TestCase.ID testCase) w1)))
          as (_ & _ & _ & -> & _).
        destruct (saveCaseResult_effect taskID
                    (fst (executeSingleCase (TestCase.ID testCase) w2))
                    (snd (executeSingleCase (TestCase.ID testCase) w2)))
          as (_ & _ & _ & -> & _).
        destruct (executeSingleCase_effect (TestCase.ID testCase) w1)
          as (_ & _ & -> & _).
        destruct (executeSingleCase_effect (TestCase.ID testCase) w2)
          as (_ & _ & -> & _).
        exact Ec.
      * rewrite !map_app, Er. cbn [map]. do 2 f_equal.
        now apply executeSingleCase_outcome.
    + rewrite (ExecuteTask_cases_missing _ _ _ _ w2 Ef).
      rewrite <- Ec in Ef. rewrite (ExecuteTask_cases_missing _ _ _ _ w1 Ef).
      apply IH; [exact Ec|]. rewrite !map_app, Er. reflexivity.
Qed.

(** C4.  For a task that exists, StopTask returns the state error exactly
    when the stored status is not 1 (running), and then the world is left
    as it was.  When the status is 1 it returns no error and the stored row
    is the old one with status 2 and a new update stamp; the other tables,
    the goroutines started so far and the time slept are untouched, and a
    batch that is under way goes on as it would have: continued after the
    stop, its loop over the bindings yields the same case outcomes. *)
Theorem StopTask_requires_running taskID task w :
  find (fun t => TestTask.ID t =? taskID) (app_task_testtask (db w)) = Some task ->
  (fst (TaskService.StopTask taskID w) = Some "任务未在运行中"
   <-> TestTask.Status task <> 1)
  /\ (TestTask.Status task <> 1 ->
      TaskService.StopTask taskID w = (Some "任务未在运行中", w))
  /\ (TestTask.Status task = 1 ->
      exists w' now,
        TaskService.StopTask taskID w = (None, w')
        /\ find (fun t => TestTask.ID t =? taskID) (app_task_testtask (db w'))
           = Some (TestTask.set_UpdateTime (TestTask.set_Status task 2) now)
        /\ app_task_taskcaserelevance (db w') = app_task_taskcaserelevance (db w)
        /\ app_case_testcase (db w') = app_case_testcase (db w)
        /\ app_case_caseresult (db w') = app_case_caseresult (db w)
        /\ app_task_taskreport (db w') = app_task_taskreport (db w)
        /\ goroutines w' = goroutines w /\ slept w' = slept w
        /\ (forall batch relevances results,
              map Spec.outcome
                  (fst (ExecuteTask_cases batch relevances results w'))
              = map Spec.outcome
                    (fst (ExecuteTask_cases batch relevances results w)))).
Proof.
  intros H. pose proof (find_task_id _ _ _ H) as Hid.
  assert (Hstop : TestTask.Status task <> 1 ->
                  TaskService.StopTask taskID w = (Some "任务未在运行中", w)).
  { intros Hs. unfold TaskService.StopTask, Gorm.First_TestTask, get_db, ret, bind.
    cbn [fst snd]. rewrite H. cbn [Gorm.first_or_err].
    apply Z.eqb_neq in Hs. now rewrite Hs. }
  assert (Hrun : TestTask.Status task = 1 ->
    exists w' now,
      TaskService.StopTask taskID w = (None, w')
      /\ find (fun t => TestTask.ID t =? taskID) (app_task_testtask (db w'))
         = Some (TestTask.set_UpdateTime (TestTask.set_Status task 2) now)
      /\ app_task_taskcaserelevance (db w') = app_task_taskcaserelevance (db w)
      /\ app_case_testcase (db w') = app_case_testcase (db w)
      /\ app_case_caseresult (db w') = app_case_caseresult (db w)
      /\ app_task_taskreport (db w') = app_task_taskreport (db w)
      /\ goroutines w' = goroutines w /\ slept w' = slept w
      /\ (forall batch relevances results,
            map Spec.outcome
                (fst (ExecuteTask_cases batch relevances results w'))
            = map Spec.outcome
                  (fst (ExecuteTask_cases batch relevances results w)))).
  { intros Hs. unfold TaskService.StopTask, Gorm.First_TestTask, get_db, ret, bind.
    cbn [fst snd]. rewrite H. cbn [Gorm.first_or_err]. rewrite Hs.
    change (negb (1 =? 1)) with false. cbv beta iota.
    unfold time_Now at 1.
    set (w1 := mkWorld (db w) _ _ _ _ _).
    set (task2 := TestTask.set_UpdateTime (TestTask.set_Status task 2) _).
    pose proof (Save_TestTask_ok task2 w1) as Hok.
    destruct (Save_TestTask_effect task2 w1)
      as ((t' & Ht' & _ & Hs') & Hr & Hc & Hcr & Hp & _ & Hg & Hsl).
    destruct (Gorm.Save_TestTask task2 w1) as [e w2]. cbn [fst snd] in *. subst e.
    unfold LogInfo, write_log. eexists. exists (wallclock w1 (clock_reads w1)).
    split; [reflexivity|]. cbn [db goroutines slept].
    cbn [TestTask.ID task2 TestTask.set_Status TestTask.set_UpdateTime] in Ht', Hs'.
    rewrite Hid in Ht', Hs'. rewrite Ht', Hs'; [|subst w1; cbn [db]; congruence].
    repeat split; trivial.
    intros batch relevances results. now apply ExecuteTask_cases_outcome. }
  repeat split; trivial.
  - intros Herr Hs. destruct (Hrun Hs) as (w' & now & E & _).
    rewrite E in Herr. discriminate.
  - intros Hs. now rewrite (Hstop Hs).
Qed.

End BatchFacts.

(* ===================================================================== *)
(** ** Properties: GetTaskStatistics                                       *)
(* ===================================================================== *)

Lemma wrap64_small z : - 2 ^ 63 <= z < 2 ^ 63 -> Go.wrap64 z = z.
Proof. intros H. unfold Go.wrap64. rewrite Z.mod_small; lia. Qed.

Lemma wrap64_range z : - 2 ^ 63 <= Go.wrap64 z < 2 ^ 63.
Proof.
  unfold Go.wrap64.
  pose proof (Z.mod_pos_bound (z + 2 ^ 63) (2 ^ 64) ltac:(lia)). lia.
Qed.

Lemma wrap64_add_l a b : Go.wrap64 (Go.wrap64 a + b) = Go.wrap64 (a + b).
Proof.
  unfold Go.wrap64. f_equal.
  replace ((a + 2 ^ 63) mod 2 ^ 64 - 2 ^ 63 + b + 2 ^ 63)
    with ((a + 2 ^ 63) mod 2 ^ 64 + b) by lia.
  rewrite Zplus_mod_idemp_l. f_equal. lia.
Qed.

(** The loop's running total is the wrapped sum of the durations that
    parse. *)
Lemma fold_add_duration reports : forall total,
  - 2 ^ 63 <= total < 2 ^ 63 ->
  fold_left SchedulerService.add_duration reports total
  = Go.wrap64 (total + fold_right Z.add 0 (Spec.parsed_durations reports)).
Proof.
  induction reports as [|r reports IH]; intros total Ht.
  - cbn. now rewrite Z.add_0_r, wrap64_small.
  - cbn [fold_left]. unfold SchedulerService.add_duration at 2.
    unfold Spec.parsed_durations. cbn [flat_map].
    fold (Spec.parsed_durations reports).
    destruct (Go.ParseDuration _) as [d|].
    + rewrite IH by apply wrap64_range. cbn [app fold_right].
      rewrite wrap64_add_l. f_equal. lia.
    + cbn [app]. now apply IH.
Qed.

(** What the loop of GetTaskStatistics computes from the rows it is
    given: the sum over the rows that parse, divided by the number of all
    the rows. *)
Lemma avgDuration_mean_over_rows reports :
  SchedulerService.avgDuration reports = Spec.mean_over_rows reports.
Proof.
  unfold SchedulerService.avgDuration, Spec.mean_over_rows, Spec.total_parsed.
  rewrite fold_add_duration by lia. reflexivity.
Qed.

(** A statement on the report table that names [created_at] is refused:
    the table's creation column is [create_time]. *)
Lemma Where_TaskReport_created_at conds d :
  existsb (fun c => String.eqb (Gorm.column_of c) "created_at") conds = true ->
  exists err, Gorm.Where_TaskReport conds d = inr err.
Proof.
  intros H. unfold Gorm.Where_TaskReport.
  destruct (find _ conds) as [c|] eqn:E; [eexists; reflexivity|].
  apply existsb_exists in H as (c & Hin & Hc).
  apply (find_none _ _ E) in Hin. apply String.eqb_eq in Hc.
  rewrite Hc in Hin. discriminate.
Qed.

(** C3, evaluated on the code.  GetTaskStatistics never reads a report:
    each of its four statements filters on [created_at], a column the
    report table does not have, so each is refused, the errors are not
    looked at, and the answer is 0 runs and an average of 0 seconds for
    every store, task and window.  On a store with two reports of the task,
    with run times "2" and "abc", the mean over the rows that parse is 2
    seconds and the code answers 0; and the loop, were it given the two
    rows, would answer 1, since it divides by the number of all the rows. *)
Theorem GetTaskStatistics_reads_no_report :
  (forall AddDate taskID days w,
      SchedulerService.GetTaskStatistics AddDate taskID days w
      = ((SchedulerService.Statistics.mk 0 0 0 0 0 days, None), snd (time_Now w)))
  /\ (forall AddDate,
      let w := Sample.world Sample.db_two_reports in
      let reports := app_task_taskreport (db w) in
      let stats := fst (fst (SchedulerService.GetTaskStatistics AddDate 1 7 w)) in
      map TaskReport.TaskID reports = [1; 1]
      /\ map TaskReport.RunTime reports = ["2"; "abc"]%string
      /\ Go.ParseDuration ("2" ++ "s") = Some (2 * Go.Second)
      /\ Go.ParseDuration ("abc" ++ "s") = None
      /\ Spec.mean_of_parsed reports = 2%float
      /\ SchedulerService.Statistics.total_runs stats = 0
      /\ SchedulerService.Statistics.avg_duration stats = 0%float
      /\ SchedulerService.Statistics.avg_duration stats <> Spec.mean_of_parsed reports
      /\ SchedulerService.avgDuration reports = 1%float).
Proof.
  assert (Hall : forall AddDate taskID days w,
      SchedulerService.GetTaskStatistics AddDate taskID days w
      = ((SchedulerService.Statistics.mk 0 0 0 0 0 days, None), snd (time_Now w))).
  { intros AddDate taskID days w.
    unfold SchedulerService.GetTaskStatistics, bind, time_Now, get_db, ret.
    cbn [fst snd]. reflexivity. }
  split; [exact Hall|].
  intros AddDate. cbv zeta. rewrite Hall. cbn [fst snd
    SchedulerService.Statistics.total_runs SchedulerService.Statistics.avg_duration].
  repeat (split; [vm_compute; reflexivity|]).
  split; [|vm_compute; reflexivity].
  intros E. apply (f_equal Prim2SF) in E. vm_compute in E. discriminate.
Qed.

(* ===================================================================== *)
(** ** Concrete runs                                                       *)
(* ===================================================================== *)

Lemma ExecuteTask_missing_task_aborts_witness :
  find (fun t => TestTask.ID t =? 9)
       (app_task_testtask (db (Sample.world Sample.db_running))) = None
  /\ TaskService.ExecuteTask unit Sample.json_accept 9 (Sample.world Sample.db_running)
     = ((None, Some "任务不存在: record not found"), Sample.world Sample.db_running).
Proof.
  split; [reflexivity|].
  apply (ExecuteTask_missing_task_aborts unit Sample.json_accept 9
           (Sample.world Sample.db_running)).
  reflexivity.
Defined.

Lemma ExecuteTask_results_passed_or_failed_witness :
  let w := Sample.world Sample.db_two_bindings in
  find (fun t => TestTask.ID t =? 1) (app_task_testtask (db w))
  = Some (Sample.task 1 0)
  /\ exists result w',
      TaskService.ExecuteTask unit Sample.json_accept 1 w = ((Some result, None), w')
      /\ TaskExecutionSummary.SkippedCases (TaskExecutionResult.Summary result) = 0
      /\ TaskExecutionSummary.PassedCases (TaskExecutionResult.Summary result)
         + TaskExecutionSummary.FailedCases (TaskExecutionResult.Summary result)
         = TaskExecutionSummary.TotalCases (TaskExecutionResult.Summary result).
Proof.
  split; [reflexivity|].
  destruct (ExecuteTask_results_passed_or_failed unit Sample.json_accept 1
              (Sample.task 1 0) (Sample.world Sample.db_two_bindings) eq_refl)
    as (_ & result & w' & Hrun & _ & _ & Hs & Hsum).
  exists result, w'. auto.
Defined.

Lemma ExecuteTask_persists_one_done_code_witness :
  let w := Sample.world Sample.db_two_bindings in
  find (fun t => TestTask.ID t =? 1) (app_task_testtask (db w))
  = Some (Sample.task 1 0)
  /\ exists result w' now,
      TaskService.ExecuteTask unit Sample.json_accept 1 w = ((Some result, None), w')
      /\ find (fun t => TestTask.ID t =? 1) (app_task_testtask (db w'))
         = Some (TestTask.set_UpdateTime (TestTask.set_Status (Sample.task 1 0) 2) now).
Proof.
  split; [reflexivity|].
  destruct (ExecuteTask_persists_one_done_code unit Sample.json_accept 1
              (Sample.task 1 0) (Sample.world Sample.db_two_bindings) eq_refl)
    as (_ & _ & _ & result & w' & now & row & Hrun & _ & Hrow & _).
  exists result, w', now. auto.
Defined.

Lemma ExecuteTask_report_error_equals_failure_witness :
  let w := Sample.world Sample.db_two_bindings in
  find (fun t => TestTask.ID t =? 1) (app_task_testtask (db w))
  = Some (Sample.task 1 0)
  /\ exists result w' row,
      TaskService.ExecuteTask unit Sample.json_accept 1 w = ((Some result, None), w')
      /\ app_task_taskreport (db w') = app_task_taskreport (db w) ++ [row]
      /\ TaskReport.Error row = TaskReport.Failure row.
Proof.
  split; [reflexivity|].
  destruct (ExecuteTask_report_error_equals_failure unit Sample.json_accept 1
              (Sample.task 1 0) (Sample.world Sample.db_two_bindings) eq_refl)
    as (result & w' & row & Hrun & Hrep & He & Hf & _).
  exists result, w', row. repeat split; trivial. congruence.
Defined.

Lemma calculateSummary_pass_rate_witness :
  let w := Sample.world Sample.db_running in
  find (fun t => TestTask.ID t =? 1) (app_task_testtask (db w))
  = Some (Sample.task 1 1)
  /\ filter (fun r => TaskCaseRelevance.TaskID r =? 1)
            (app_task_taskcaserelevance (db w)) = []
  /\ exists result w',
      TaskService.ExecuteTask unit Sample.json_accept 1 w = ((Some result, None), w')
      /\ TaskExecutionSummary.TotalCases (TaskExecutionResult.Summary result) = 0
      /\ TaskExecutionSummary.PassRate (TaskExecutionResult.Summary result) = 0%float.
Proof.
  split; [reflexivity|]. split; [reflexivity|].
  apply (proj2 (calculateSummary_pass_rate unit Sample.json_accept) 1
               (Sample.task 1 1) (Sample.world Sample.db_running));
    reflexivity.
Defined.

Lemma ExecuteTask_resolved_and_unresolved_binding_witness :
  let w := Sample.world Sample.db_two_bindings in
  find (fun t => TestTask.ID t =? 1) (app_task_testtask (db w))
  = Some (Sample.task 1 0)
  /\ map TaskCaseRelevance.CaseHash
         (filter (fun r => TaskCaseRelevance.TaskID r =? 1)
                 (app_task_taskcaserelevance (db w))) = ["hashA"; "hashB"]
  /\ find (fun c => String.eqb (TestCase.CaseHash c) "hashA")
          (app_case_testcase (db w)) = Some Sample.caseA
  /\ find (fun c => String.eqb (TestCase.CaseHash c) "hashB")
          (app_case_testcase (db w)) = None
  /\ exists result w',
      TaskService.ExecuteTask unit Sample.json_accept 1 w = ((Some result, None), w')
      /\ TaskExecutionResult.Summary result = TaskExecutionSummary.mk 2 1 1 0 50%float.
Proof.
  repeat (split; [reflexivity|]).
  destruct (ExecuteTask_resolved_and_unresolved_binding unit Sample.json_accept 1
              (Sample.task 1 0) (Sample.world Sample.db_two_bindings)
              (TaskCaseRelevance.mk 1 1 "hashA" 0) (TaskCaseRelevance.mk 2 1 "hashB" 0)
              Sample.caseA Sample.caseA tt eq_refl eq_refl eq_refl eq_refl eq_refl
              eq_refl)
    as (result & w' & resA & resB & rowA & Hrun & _ & _ & _ & _ & _ & _ & _ & Hsum & _).
  exists result, w'. auto.
Defined.

(** C2 as stated fails on the batch over [hashA; hashB]: the second result
    is the failed, case-not-found one, and the case-result table holds no
    row for hashB, with or without the message. *)
Lemma ExecuteTask_unresolved_binding_not_persisted :
  let run := TaskService.ExecuteTask unit Sample.json_accept 1
               (Sample.world Sample.db_two_bindings) in
  (exists result,
      fst (fst run) = Some result
      /\ map CaseExecutionResult.CaseName (TaskExecutionResult.Results result)
         = ["test_login"; "hashB"]
      /\ map CaseExecutionResult.ErrorMsg (TaskExecutionResult.Results result)
         = [""; "用例不存在: record not found"])
  /\ map CaseResult.Name (app_case_caseresult (db (snd run))) = ["test_login"]
  /\ ~ Spec.case_failure_persisted (db (snd run)) "hashB" "用例不存在".
Proof.
  cbv zeta. split; [|split].
  - eexists. split; [vm_compute; reflexivity|]. split; vm_compute; reflexivity.
  - vm_compute. reflexivity.
  - intros (row & Hin & Hname & _). vm_compute in Hin.
    destruct Hin as [<-|[]]. vm_compute in Hname. discriminate.
Qed.

Lemma StopTask_requires_running_witness :
  let w := Sample.world Sample.db_running in
  find (fun t => TestTask.ID t =? 1) (app_task_testtask (db w))
  = Some (Sample.task 1 1)
  /\ fst (TaskService.StopTask 1 w) <> Some "任务未在运行中"
  /\ exists w' now,
      TaskService.StopTask 1 w = (None, w')
      /\ find (fun t => TestTask.ID t =? 1) (app_task_testtask (db w'))
         = Some (TestTask.set_UpdateTime (TestTask.set_Status (Sample.task 1 1) 2) now).
Proof.
  split; [reflexivity|].
  destruct (StopTask_requires_running unit Sample.json_accept 1 (Sample.task 1 1)
              (Sample.world Sample.db_running) eq_refl) as (Hiff & _ & Hrun).
  split.
  - intros E. now apply Hiff in E.
  - destruct (Hrun eq_refl) as (w' & now & Hstop & Hrow & _).
    exists w', now. auto.
Defined.

(** The run time a batch writes ends in "s" already, so the statistics
    query, which appends another "s", does not parse it. *)
Example batch_run_time_is_not_parsed :
  let w' := snd (TaskService.ExecuteTask unit Sample.json_accept 1
                   (Sample.world Sample.db_two_bindings)) in
  map TaskReport.RunTime (app_task_taskreport (db w')) = ["0.01s"]
  /\ Go.ParseDuration ("0.01s" ++ "s") = None.
Proof. vm_compute. split; reflexivity. Qed.

(* ===================================================================== *)
(** ** Further properties: a batch, step by step                           *)
(* ===================================================================== *)

Lemma replace_task_other t rows rows' id :
  Gorm.replace_task t rows = Some rows' -> id <> TestTask.ID t ->
  find (fun r => TestTask.ID r =? id) rows' = find (fun r => TestTask.ID r =? id) rows.
Proof.
  revert rows'. induction rows as [|r rows IH]; intros rows'; simpl; [discriminate|].
  destruct (TestTask.ID r =? TestTask.ID t) eqn:E.
  - intros [= <-] Hid. simpl. apply Z.eqb_eq in E.
    destruct (Z.eqb_spec (TestTask.ID t) id); [congruence|].
    destruct (Z.eqb_spec (TestTask.ID r) id); [congruence|]. reflexivity.
  - destruct (Gorm.replace_task t rows); [|discriminate].
    intros [= <-] Hid. simpl. destruct (TestTask.ID r =? id); trivial. now apply IH.
Qed.

Lemma find_app_other {A} (p : A -> bool) l x :
  p x = false -> find p (l ++ [x]) = find p l.
Proof.
  intros Hx. induction l as [|a l IH]; simpl; [now rewrite Hx|].
  now destruct (p a).
Qed.

(** Saving a task leaves the rows of the other tasks as they are. *)
Lemma Save_TestTask_other t w id :
  id <> TestTask.ID t ->
  find (fun r => TestTask.ID r =? id)
       (app_task_testtask (db (snd (Gorm.Save_TestTask t w))))
  = find (fun r => TestTask.ID r =? id) (app_task_testtask (db w)).
Proof.
  intros Hid.
  unfold Gorm.Save_TestTask, bind, time_Now, get_db, put_db, ret, with_db.
  cbn [db fst snd].
  destruct (Gorm.replace_task _ _) as [rows|] eqn:E; cbn.
  - now apply (replace_task_other _ _ _ _ E).
  - apply find_app_other. cbn. now apply Z.eqb_neq.
Qed.

Lemma Save_TestTask_clock t w :
  wallclock (snd (Gorm.Save_TestTask t w)) = wallclock w.
Proof.
  unfold Gorm.Save_TestTask, bind, time_Now, get_db, put_db, ret, with_db.
  cbn [db fst snd]. now destruct (Gorm.replace_task _ _).
Qed.

Section MissingTask.
Variable CaseData : Type.
Variable json_Unmarshal : string -> CaseData + error.

Lemma ExecuteTask_no_task_row taskID w :
  find (fun t => TestTask.ID t =? taskID) (app_task_testtask (db w)) = None ->
  TaskService.ExecuteTask CaseData json_Unmarshal taskID w
  = ((None, Some "任务不存在: record not found"), w).
Proof.
  intros H.
  unfold TaskService.ExecuteTask, Gorm.First_TestTask, bind, get_db, ret.
  cbn [fst snd]. rewrite H. reflexivity.
Qed.
End MissingTask.

Section BatchSteps.
Variable CaseData : Type.
Variable json_Unmarshal : string -> CaseData + error.

Let executeSingleCase := TaskService.executeSingleCase CaseData json_Unmarshal.
Let ExecuteTask_cases := TaskService.ExecuteTask_cases CaseData json_Unmarshal.
Let ExecuteTask := TaskService.ExecuteTask CaseData json_Unmarshal.
Let scheduled_batch := SchedulerService.scheduled_batch CaseData json_Unmarshal.

(** A batch for a task that exists, as the sequence of its steps. *)
Lemma ExecuteTask_steps taskID task w :
  find (fun t => TestTask.ID t =? taskID) (app_task_testtask (db w)) = Some task ->
  let task1 := TestTask.set_Status task 1 in
  let w1 := snd (Gorm.Save_TestTask task1 w) in
  let w3 := mkWorld (db w1) (wallclock w1) (S (clock_reads w1)) (slept w1)
              (logs w1 ++ [mkLog INFO "TASK_EXECUTION"
                             ("开始执行任务: " ++ Go.Sprintf_d taskID)%string])
              (goroutines w1) in
  let rc := ExecuteTask_cases taskID
              (filter (fun r => TaskCaseRelevance.TaskID r =? taskID)
                      (app_task_taskcaserelevance (db w1))) [] w3 in
  let w4 := snd rc in
  let w5 := mkWorld (db w4) (wallclock w4) (S (clock_reads w4)) (slept w4)
              (logs w4) (goroutines w4) in
  let summary := TaskService.calculateSummary (fst rc) in
  let status := if 0 <? TaskExecutionSummary.FailedCases summary
                then "failed" else "success" in
  let result := TaskExecutionResult.mk taskID status
                  (wallclock w1 (clock_reads w1)) (wallclock w4 (clock_reads w4))
                  (Go.Time_Sub (wallclock w4 (clock_reads w4))
                               (wallclock w1 (clock_reads w1)))
                  (fst rc) summary "" in
  let w6 := snd (Gorm.Save_TestTask
                   (TestTask.set_Status task1 (TaskService.statusInt status)) w5) in
  let w7 := snd (TaskService.saveTaskReport taskID result w6) in
  ExecuteTask taskID w
  = ((Some result, None),
     mkWorld (db w7) (wallclock w7) (clock_reads w7) (slept w7)
       (logs w7 ++ [mkLog INFO "TASK_EXECUTION"
                      ("任务执行完成: " ++ Go.Sprintf_d taskID)%string])
       (goroutines w7)).
Proof.
  intros H. cbv zeta.
  unfold ExecuteTask, TaskService.ExecuteTask, Gorm.First_TestTask,
    Gorm.Find_TaskCaseRelevance, TaskService.updateTaskStatus, get_db, ret, bind.
  cbn [fst snd]. rewrite H. cbn [Gorm.first_or_err].
  destruct (Gorm.Save_TestTask (TestTask.set_Status task 1) w) as [e1 w1].
  cbn [snd]. unfold time_Now at 1, LogInfo at 1, write_log at 1.
  cbn [db wallclock clock_reads slept logs goroutines].
  fold ExecuteTask_cases.
  destruct (ExecuteTask_cases taskID _ [] _) as [results w4].
  cbn [fst snd]. unfold time_Now at 1.
  cbn [db wallclock clock_reads slept logs goroutines].
  destruct (Gorm.Save_TestTask _ _) as [e6 w6]. cbn [snd].
  destruct (TaskService.saveTaskReport taskID _ w6) as [u7 w7]. cbn [snd].
  reflexivity.
Qed.

(** Running one case writes nothing; how it ends is read off the case
    table, and the executor's sleep is taken exactly when it passes. *)
Lemma executeSingleCase_cases caseID w :
  let rc := executeSingleCase caseID w in
  db (snd rc) = db w /\ logs (snd rc) = logs w /\ goroutines (snd rc) = goroutines w
  /\ wallclock (snd rc) = wallclock w
  /\ Spec.outcome (fst rc)
     = Obs.case_outcome CaseData json_Unmarshal (app_case_testcase (db w)) caseID
  /\ slept (snd rc)
     = slept w + (if Obs.passed (Spec.outcome (fst rc)) then 100 * Go.Millisecond else 0).
Proof.
  unfold executeSingleCase, TaskService.executeSingleCase, TaskService.runTestCase,
    Gorm.First_TestCase, Spec.outcome, Obs.case_outcome, Obs.passed, bind, time_Now,
    time_Sleep, get_db, ret.
  cbn.
  destruct (find _ _) as [c|]; cbn; [|repeat split; trivial; lia].
  destruct (json_Unmarshal _); cbn; repeat split; trivial; lia.
Qed.

Lemma saveCaseResult_rest taskID result w :
  let w' := snd (TaskService.saveCaseResult taskID result w) in
  slept w' = slept w /\ wallclock w' = wallclock w.
Proof.
  unfold TaskService.saveCaseResult, Gorm.Create_CaseResult, bind, time_Now,
    get_db, put_db, ret, with_db.
  cbn. auto.
Qed.

(** The loop over the bindings, binding by binding: one result per
    binding, ending as the case table says; the rows stored are those of
    the bindings that name a case; the executor's sleep is taken once per
    passed case. *)
Lemma ExecuteTask_cases_trace taskID relevances : forall results w,
  let rc := ExecuteTask_cases taskID relevances results w in
  let cases := app_case_testcase (db w) in
  exists new rows,
    fst rc = results ++ new
    /\ map Spec.outcome new
       = map (Obs.binding_outcome CaseData json_Unmarshal cases) relevances
    /\ app_case_caseresult (db (snd rc)) = app_case_caseresult (db w) ++ rows
    /\ map CaseResult.CaseID rows = Obs.resolved_ids cases relevances
    /\ slept (snd rc)
       = slept w
         + 100 * Go.Millisecond
           * Z.of_nat (List.length (filter Obs.passed (map Spec.outcome new)))
    /\ wallclock (snd rc) = wallclock w.
Proof.
  unfold ExecuteTask_cases.
  induction relevances as [|rel rest IH]; intros results w; cbv zeta.
  - exists [], []. cbn. rewrite !app_nil_r. repeat split; trivial. lia.
  - unfold Obs.resolved_ids, Obs.binding_outcome. cbn [map flat_map].
    fold (Obs.resolved_ids (app_case_testcase (db w)) rest).
    destruct (Obs.resolve (app_case_testcase (db w)) (TaskCaseRelevance.CaseHash rel))
      as [c|] eqn:Ef; unfold Obs.resolve in Ef.
    + rewrite (ExecuteTask_cases_found _ _ _ _ _ _ _ _ Ef). cbv zeta.
      fold executeSingleCase.
      destruct (executeSingleCase_cases (TestCase.ID c) w)
        as (Hdb & _ & _ & Hclk & Hout & Hsl).
      destruct (executeSingleCase_effect CaseData json_Unmarshal (TestCase.ID c) w)
        as (_ & Hid & _).
      fold executeSingleCase in Hid.
      set (rcA := executeSingleCase (TestCase.ID c) w) in *.
      destruct (saveCaseResult_effect taskID (fst rcA) (snd rcA))
        as ((row & Hrow & Hrid & _) & _ & _ & Hc & _).
      destruct (saveCaseResult_rest taskID (fst rcA) (snd rcA)) as [Hsl2 Hclk2].
      set (wA := snd (TaskService.saveCaseResult taskID (fst rcA) (snd rcA))) in *.
      destruct (IH (results ++ [fst rcA]) wA)
        as (new & rows & Hnew & Houts & Hrows & Hids & Hslept & Hclock).
      rewrite Hc, Hdb in Houts, Hids.
      exists (fst rcA :: new), (row :: rows).
      rewrite Hnew, Hrows, Hrow, Hslept, Hclock, Hsl2, Hclk2, Hsl, Hclk, Hdb.
      rewrite <- !app_assoc. cbn [map app filter].
      rewrite Houts, Hids, Hrid, Hid, Hout. repeat split; trivial.
      destruct (Obs.passed (Obs.case_outcome CaseData json_Unmarshal
                              (app_case_testcase (db w)) (TestCase.ID c)));
        cbn [List.length]; rewrite ?Nat2Z.inj_succ; unfold Go.Millisecond; lia.
    + rewrite (ExecuteTask_cases_missing _ _ _ _ _ _ _ Ef).
      set (w2 := mkWorld _ _ _ _ _ _).
      destruct (IH (results ++ [CaseExecutionResult.mk 0
                                  (TaskCaseRelevance.CaseHash rel) "failed"
                                  (wallclock w (clock_reads w))
                                  (wallclock w (S (clock_reads w))) 0
                                  ("用例不存在: " ++ Gorm.ErrRecordNotFound)%string
                                  [] []]) w2)
        as (new & rows & Hnew & Houts & Hrows & Hids & Hslept & Hclock).
      eexists (_ :: new), rows.
      rewrite Hnew, Hrows, Hslept, Hclock. subst w2. cbn [db slept wallclock] in *.
      rewrite <- !app_assoc. cbn [map app filter].
      rewrite Houts, Hids. repeat split; trivial.
Qed.

Lemma saveTaskReport_rest taskID result w :
  let w' := snd (TaskService.saveTaskReport taskID result w) in
  slept w' = slept w /\ wallclock w' = wallclock w.
Proof.
  unfold TaskService.saveTaskReport, Gorm.Create_TaskReport, bind, time_Now,
    get_db, put_db, ret, with_db.
  cbn. auto.
Qed.

(** Everything a batch for an existing task does, in one statement. *)
Lemma ExecuteTask_trace taskID task w :
  find (fun t => TestTask.ID t =? taskID) (app_task_testtask (db w)) = Some task ->
  let run := ExecuteTask taskID w in
  let w' := snd run in
  let cases := app_case_testcase (db w) in
  exists result rows,
    fst run = (Some result, None)
    /\ map Spec.outcome (TaskExecutionResult.Results result)
       = map (Obs.binding_outcome CaseData json_Unmarshal cases)
             (Obs.bindings (db w) taskID)
    /\ TaskExecutionResult.Summary result
       = TaskService.calculateSummary (TaskExecutionResult.Results result)
    /\ TaskExecutionResult.Status result
       = (if 0 <? TaskExecutionSummary.FailedCases (TaskExecutionResult.Summary result)
          then "failed" else "success")
    /\ app_case_caseresult (db w') = app_case_caseresult (db w) ++ rows
    /\ map CaseResult.CaseID rows = Obs.resolved_ids cases (Obs.bindings (db w) taskID)
    /\ app_task_taskcaserelevance (db w') = app_task_taskcaserelevance (db w)
    /\ app_case_testcase (db w') = cases
    /\ goroutines w' = goroutines w
    /\ wallclock w' = wallclock w
    /\ logs w'
       = logs w
         ++ [mkLog INFO "TASK_EXECUTION" ("开始执行任务: " ++ Go.Sprintf_d taskID)%string;
             mkLog INFO "TASK_EXECUTION" ("任务执行完成: " ++ Go.Sprintf_d taskID)%string]
    /\ slept w'
       = slept w
         + 100 * Go.Millisecond
           * Z.of_nat (List.length
               (filter Obs.passed
                  (map Spec.outcome (TaskExecutionResult.Results result))))
    /\ (forall id, id <> taskID ->
        find (fun t => TestTask.ID t =? id) (app_task_testtask (db w'))
        = find (fun t => TestTask.ID t =? id) (app_task_testtask (db w))).
Proof.
  intros H. pose proof (find_task_id _ _ _ H) as Hid. cbv zeta.
  rewrite (ExecuteTask_steps taskID task w H). cbv zeta. cbn [fst snd].
  set (task1 := TestTask.set_Status task 1).
  destruct (Save_TestTask_effect task1 w)
    as (_ & Hr1 & Hc1 & Hcr1 & _ & Hl1 & Hg1 & Hs1).
  pose proof (Save_TestTask_clock task1 w) as Hk1.
  pose proof (fun id => Save_TestTask_other task1 w id) as Ho1.
  set (w1 := snd (Gorm.Save_TestTask task1 w)) in *.
  set (w3 := mkWorld (db w1) _ _ _ _ _).
  rewrite Hr1. fold (Obs.bindings (db w) taskID).
  destruct (ExecuteTask_cases_trace taskID (Obs.bindings (db w) taskID) [] w3)
    as (new & rows & Hnew & Houts & Hrows & Hids & Hsl4 & Hk4).
  destruct (ExecuteTask_cases_effect CaseData json_Unmarshal taskID
              (Obs.bindings (db w) taskID) [] w3)
    as (_ & _ & Ht4 & Hr4 & Hc4 & _ & Hl4 & Hg4).
  fold ExecuteTask_cases in Ht4, Hr4, Hc4, Hl4, Hg4.
  set (rc := ExecuteTask_cases taskID (Obs.bindings (db w) taskID) [] w3) in *.
  cbn [app] in Hnew. subst new w3. cbn [db logs goroutines slept wallclock] in *.
  set (w5 := mkWorld (db (snd rc)) _ _ _ _ _).
  set (summary := TaskService.calculateSummary (fst rc)).
  set (status := if 0 <? TaskExecutionSummary.FailedCases summary then _ else _).
  set (task2 := TestTask.set_Status task1 (TaskService.statusInt status)).
  destruct (Save_TestTask_effect task2 w5)
    as (_ & Hr6 & Hc6 & Hcr6 & _ & Hl6 & Hg6 & Hs6).
  pose proof (Save_TestTask_clock task2 w5) as Hk6.
  pose proof (fun id => Save_TestTask_other task2 w5 id) as Ho6.
  set (w6 := snd (Gorm.Save_TestTask task2 w5)) in *.
  set (result := TaskExecutionResult.mk taskID status _ _ _ (fst rc) summary "").
  destruct (saveTaskReport_effect taskID result w6)
    as (_ & Ht7 & Hr7 & Hc7 & Hcr7 & Hl7 & Hg7).
  destruct (saveTaskReport_rest taskID result w6) as [Hs7 Hk7].
  set (w7 := snd (TaskService.saveTaskReport taskID result w6)) in *.
  subst w5. cbn [db logs goroutines slept wallclock] in *.
  exists result, rows. subst result.
  cbn [db logs goroutines slept wallclock fst snd
    TaskExecutionResult.Results TaskExecutionResult.Summary TaskExecutionResult.Status].
  split; [reflexivity|]. split; [rewrite Houts, Hc1; reflexivity|].
  split; [reflexivity|]. split; [reflexivity|].
  split; [rewrite Hcr7, Hcr6, Hrows, Hcr1; reflexivity|].
  split; [rewrite Hids, Hc1; reflexivity|].
  split; [congruence|]. split; [congruence|]. split; [congruence|].
  split; [congruence|].
  split; [rewrite Hl7, Hl6, Hl4, Hl1, <- app_assoc; reflexivity|].
  split; [rewrite Hs7, Hs6, Hsl4, Hs1; reflexivity|].
  intros id Hne. rewrite Ht7, Ho6, Ht4, Ho1; trivial; cbn; congruence.
Qed.

Lemma count_passed_outcomes results :
  Spec.count "passed" results
  = Z.of_nat (List.length (filter Obs.passed (map Spec.outcome results))).
Proof.
  unfold Spec.count. f_equal.
  induction results as [|r results IH]; cbn; trivial.
  unfold Obs.passed at 1, Spec.outcome at 1. cbn [fst snd].
  destruct (String.eqb _ _); cbn; now rewrite IH.
Qed.

Lemma binding_outcome_status cases rel :
  let o := Obs.binding_outcome CaseData json_Unmarshal cases rel in
  snd (fst o) = "passed" \/ snd (fst o) = "failed".
Proof.
  unfold Obs.binding_outcome, Obs.case_outcome.
  destruct (Obs.resolve _ _); cbn; auto.
  destruct (find _ _); cbn; auto.
  destruct (json_Unmarshal _); cbn; auto.
Qed.

Lemma count_failed_outcomes results :
  Forall (fun r => let o := Spec.outcome r in
                   snd (fst o) = "passed" \/ snd (fst o) = "failed") results ->
  (0 <? Spec.count "failed" results)
  = negb (forallb Obs.passed (map Spec.outcome results)).
Proof.
  unfold Spec.count.
  induction 1 as [|r results Hr _ IH]; trivial.
  cbn [map forallb filter]. unfold Obs.passed at 1.
  unfold Spec.outcome in Hr |- *. cbn [fst snd] in Hr |- *.
  destruct Hr as [E|E]; rewrite E; cbn [String.eqb Ascii.eqb Bool.eqb andb negb].
  - exact IH.
  - cbn [List.length]. destruct (Z.ltb_spec 0 (Z.of_nat (S (List.length
      (filter (fun r0 => String.eqb (CaseExecutionResult.Status r0) "failed")
              results))))); trivial; lia.
Qed.

(** X1.  The results of a batch are one per binding of the task, in binding
    order, and each ends as the case table says: a binding whose hash names
    no case as a failed result with case id 0, named by the hash, with the
    message "用例不存在: record not found"; a binding that names a case as
    that case run, passed when its document decodes and failed with the
    decoder's error when it does not. *)
Theorem ExecuteTask_results_follow_bindings taskID task w :
  find (fun t => TestTask.ID t =? taskID) (app_task_testtask (db w)) = Some task ->
  exists result,
    fst (ExecuteTask taskID w) = (Some result, None)
    /\ map Spec.outcome (TaskExecutionResult.Results result)
       = map (Obs.binding_outcome CaseData json_Unmarshal (app_case_testcase (db w)))
             (Obs.bindings (db w) taskID).
Proof.
  intros H. destruct (ExecuteTask_trace taskID task w H)
    as (result & rows & Hrun & Houts & _).
  exists result. auto.
Qed.

(** X2.  The case-result rows a batch stores are exactly one per binding
    that names a case, in binding order, each under that case's identifier;
    a binding that names no case gets no row. *)
Theorem ExecuteTask_stores_rows_of_resolved_bindings taskID task w :
  find (fun t => TestTask.ID t =? taskID) (app_task_testtask (db w)) = Some task ->
  exists rows,
    app_case_caseresult (db (snd (ExecuteTask taskID w)))
    = app_case_caseresult (db w) ++ rows
    /\ map CaseResult.CaseID rows
       = Obs.resolved_ids (app_case_testcase (db w)) (Obs.bindings (db w) taskID).
Proof.
  intros H. destruct (ExecuteTask_trace taskID task w H)
    as (result & rows & _ & _ & _ & _ & Hrows & Hids & _).
  exists rows. auto.
Qed.

(** X3.  A batch writes nothing but its own task row, case results and its
    report: the binding and case tables and the row of every other task
    are as before, no goroutine is started, and the log gains exactly the
    start line and the completion line, both at level INFO. *)
Theorem ExecuteTask_leaves_the_rest_alone taskID task w :
  find (fun t => TestTask.ID t =? taskID) (app_task_testtask (db w)) = Some task ->
  let w' := snd (ExecuteTask taskID w) in
  app_task_taskcaserelevance (db w') = app_task_taskcaserelevance (db w)
  /\ app_case_testcase (db w') = app_case_testcase (db w)
  /\ goroutines w' = goroutines w
  /\ (forall id, id <> taskID ->
      find (fun t => TestTask.ID t =? id) (app_task_testtask (db w'))
      = find (fun t => TestTask.ID t =? id) (app_task_testtask (db w)))
  /\ logs w'
     = logs w
       ++ [mkLog INFO "TASK_EXECUTION" ("开始执行任务: " ++ Go.Sprintf_d taskID)%string;
           mkLog INFO "TASK_EXECUTION" ("任务执行完成: " ++ Go.Sprintf_d taskID)%string].
Proof.
  intros H. destruct (ExecuteTask_trace taskID task w H)
    as (result & rows & _ & _ & _ & _ & _ & _ & Hr & Hc & Hg & _ & Hl & _ & Ho).
  cbv zeta. auto.
Qed.

(** X4.  The executor's sleep of 100 ms is taken once for every passed
    case of the batch and for no other: the time slept grows by 100 ms
    times the summary's passed count. *)
Theorem ExecuteTask_sleeps_once_per_passed_case taskID task w :
  find (fun t => TestTask.ID t =? taskID) (app_task_testtask (db w)) = Some task ->
  exists result,
    fst (ExecuteTask taskID w) = (Some result, None)
    /\ slept (snd (ExecuteTask taskID w))
       = slept w
         + 100 * Go.Millisecond
           * TaskExecutionSummary.PassedCases (TaskExecutionResult.Summary result).
Proof.
  intros H. destruct (ExecuteTask_trace taskID task w H)
    as (result & rows & Hrun & _ & Hsum & _ & _ & _ & _ & _ & _ & _ & _ & Hs & _).
  exists result. split; trivial.
  destruct (calculateSummary_counts (TaskExecutionResult.Results result))
    as (_ & Hp & _).
  rewrite Hs, Hsum, Hp, count_passed_outcomes. reflexivity.
Qed.

(** X5.  A batch ends "success" exactly when every binding of the task
    names a case whose document decodes, and "failed" otherwise; one
    binding that names no case is enough to fail the batch. *)
Theorem ExecuteTask_succeeds_iff_all_bindings_pass taskID task w :
  find (fun t => TestTask.ID t =? taskID) (app_task_testtask (db w)) = Some task ->
  exists result,
    fst (ExecuteTask taskID w) = (Some result, None)
    /\ TaskExecutionResult.Status result
       = (if forallb Obs.passed
               (map (Obs.binding_outcome CaseData json_Unmarshal
                       (app_case_testcase (db w)))
                    (Obs.bindings (db w) taskID))
          then "success" else "failed")
    /\ (forall rel,
          In rel (Obs.bindings (db w) taskID) ->
          Obs.resolve (app_case_testcase (db w)) (TaskCaseRelevance.CaseHash rel) = None ->
          TaskExecutionResult.Status result = "failed").
Proof.
  intros H. destruct (ExecuteTask_trace taskID task w H)
    as (result & rows & Hrun & Houts & Hsum & Hst & _).
  exists result. split; trivial.
  destruct (calculateSummary_counts (TaskExecutionResult.Results result))
    as (_ & _ & Hf & _).
  assert (Hfinal : Forall (fun r => let o := Spec.outcome r in
                      snd (fst o) = "passed" \/ snd (fst o) = "failed")
                     (TaskExecutionResult.Results result)).
  { apply Forall_forall. intros r Hr. cbv zeta.
    apply (in_map Spec.outcome) in Hr. rewrite Houts in Hr.
    apply in_map_iff in Hr as (rel & <- & _). apply binding_outcome_status. }
  assert (Hstatus : TaskExecutionResult.Status result
                    = if forallb Obs.passed
                           (map (Obs.binding_outcome CaseData json_Unmarshal
                                   (app_case_testcase (db w)))
                                (Obs.bindings (db w) taskID))
                      then "success" else "failed").
  { rewrite Hst, Hsum, Hf, (count_failed_outcomes _ Hfinal), Houts.
    now destruct (forallb _ _). }
  split; [exact Hstatus|].
  intros rel Hin Hnone. rewrite Hstatus.
  replace (forallb _ _) with false; trivial.
  symmetry. apply not_true_is_false. intros Hall.
  rewrite forallb_forall in Hall.
  specialize (Hall _ (in_map _ _ _ Hin)).
  unfold Obs.binding_outcome in Hall. rewrite Hnone in Hall. discriminate.
Qed.

(* ===================================================================== *)
(** ** Further properties: the due-handler, its goroutine, and StopTask    *)
(* ===================================================================== *)

(** X6.  The due-handler never writes to the database and never sleeps.
    For a task identifier with no row it logs the failure at level ERROR
    and starts nothing; for one with a row it starts exactly one goroutine
    for that task, whatever the row's status. *)
Theorem executeScheduledTask_effect taskID w :
  let w' := snd (SchedulerService.executeScheduledTask taskID w) in
  let started := mkLog INFO "SCHEDULER"
                   ("开始执行定时任务: " ++ Go.Sprintf_d taskID)%string in
  db w' = db w /\ slept w' = slept w
  /\ match find (fun t => TestTask.ID t =? taskID) (app_task_testtask (db w)) with
     | None =>
         goroutines w' = goroutines w
         /\ logs w'
            = logs w
              ++ [started;
                  mkLog ERROR "SCHEDULER" "获取任务状态失败: 任务不存在: record not found"]
     | Some _ =>
         goroutines w' = goroutines w ++ [taskID]
         /\ logs w' = logs w ++ [started; mkLog INFO "" "Getting task status"]
     end.
Proof.
  unfold SchedulerService.executeScheduledTask, TaskService.GetTaskStatus,
    Gorm.First_TestTask, bind, get_db, ret, LogInfo, LogError, utils_LogInfo, write_log.
  cbn [fst snd db logs goroutines slept].
  destruct (find _ _) as [task|]; cbn [Gorm.first_or_err fst snd].
  - rewrite Sprintf_d_not_running. unfold go_spawn.
    cbn [db logs goroutines slept]. rewrite <- app_assoc. auto.
  - cbn [db logs goroutines slept]. rewrite <- app_assoc. auto.
Qed.

(** X7.  The goroutine the due-handler starts ends with exactly one more
    SCHEDULER line after the batch: for a task with no row nothing but the
    log changes and the line is the failure at level ERROR; for a task with
    a row the log gains the batch's two lines and the completion line, all
    at level INFO. *)
Theorem scheduled_batch_log taskID w :
  let w' := snd (scheduled_batch taskID w) in
  match find (fun t => TestTask.ID t =? taskID) (app_task_testtask (db w)) with
  | None =>
      db w' = db w /\ slept w' = slept w /\ goroutines w' = goroutines w
      /\ clock_reads w' = clock_reads w
      /\ logs w'
         = logs w ++ [mkLog ERROR "SCHEDULER"
                        "定时任务执行失败: 任务不存在: record not found"]
  | Some _ =>
      db w' = db (snd (ExecuteTask taskID w))
      /\ logs w'
         = logs w
           ++ [mkLog INFO "TASK_EXECUTION" ("开始执行任务: " ++ Go.Sprintf_d taskID)%string;
               mkLog INFO "TASK_EXECUTION" ("任务执行完成: " ++ Go.Sprintf_d taskID)%string;
               mkLog INFO "SCHEDULER" ("定时任务执行完成: " ++ Go.Sprintf_d taskID)%string]
  end.
Proof.
  cbv zeta. unfold scheduled_batch, SchedulerService.scheduled_batch, bind.
  fold ExecuteTask.
  destruct (find _ _) as [task|] eqn:H.
  - destruct (ExecuteTask_trace taskID task w H)
      as (result & rows & Hrun & _ & _ & _ & _ & _ & _ & _ & _ & _ & Hl & _).
    destruct (ExecuteTask taskID w) as [[r e] w1]. cbn [fst snd] in *.
    injection Hrun as -> ->. unfold LogInfo, write_log. cbn [snd db logs].
    rewrite Hl, <- app_assoc. auto.
  - unfold ExecuteTask.
    rewrite (ExecuteTask_no_task_row CaseData json_Unmarshal taskID w H).
    unfold LogError, write_log. cbn. auto 6.
Qed.

Lemma StopTask_refused taskID task w :
  find (fun t => TestTask.ID t =? taskID) (app_task_testtask (db w)) = Some task ->
  TestTask.Status task <> 1 ->
  TaskService.StopTask taskID w = (Some "任务未在运行中", w).
Proof.
  intros H Hs.
  unfold TaskService.StopTask, Gorm.First_TestTask, get_db, ret, bind.
  cbn [fst snd]. rewrite H. cbn [Gorm.first_or_err].
  apply Z.eqb_neq in Hs. now rewrite Hs.
Qed.

Lemma StopTask_stops taskID task w :
  find (fun t => TestTask.ID t =? taskID) (app_task_testtask (db w)) = Some task ->
  TestTask.Status task = 1 ->
  exists w' now,
    TaskService.StopTask taskID w = (None, w')
    /\ find (fun t => TestTask.ID t =? taskID) (app_task_testtask (db w'))
       = Some (TestTask.set_UpdateTime (TestTask.set_Status task 2) now).
Proof.
  intros H Hs. pose proof (find_task_id _ _ _ H) as Hid.
  unfold TaskService.StopTask, Gorm.First_TestTask, get_db, ret, bind.
  cbn [fst snd]. rewrite H. cbn [Gorm.first_or_err]. rewrite Hs.
  change (negb (1 =? 1)) with false. cbv beta iota.
  unfold time_Now at 1.
  set (w1 := mkWorld (db w) _ _ _ _ _).
  set (task2 := TestTask.set_UpdateTime (TestTask.set_Status task 2) _).
  pose proof (Save_TestTask_ok task2 w1) as Hok.
  destruct (Save_TestTask_effect task2 w1) as ((t' & Ht' & _ & Hs') & _).
  destruct (Gorm.Save_TestTask task2 w1) as [e w2]. cbn [fst snd] in *. subst e.
  unfold LogInfo, write_log. eexists. exists (wallclock w1 (clock_reads w1)).
  split; [reflexivity|]. cbn [db].
  cbn [TestTask.ID task2 TestTask.set_Status TestTask.set_UpdateTime] in Ht', Hs'.
  rewrite Hid in Ht', Hs'. rewrite Ht', Hs'; [reflexivity|].
  subst w1. cbn [db]. congruence.
Qed.

Lemma GetTaskStatus_found taskID task w :
  find (fun t => TestTask.ID t =? taskID) (app_task_testtask (db w)) = Some task ->
  fst (TaskService.GetTaskStatus taskID w) = (Go.Sprintf_d (TestTask.Status task), None).
Proof.
  intros H.
  unfold TaskService.GetTaskStatus, Gorm.First_TestTask, get_db, ret, bind,
    utils_LogInfo, write_log.
  cbn [fst snd]. rewrite H. reflexivity.
Qed.

(** X8.  For a task identifier with no row, GetTaskStatus and StopTask both
    return the not-found error, which is not StopTask's state error, and
    leave the world as it was. *)
Theorem GetTaskStatus_StopTask_missing_task taskID w :
  find (fun t => TestTask.ID t =? taskID) (app_task_testtask (db w)) = None ->
  TaskService.GetTaskStatus taskID w = (("", Some "任务不存在: record not found"), w)
  /\ TaskService.StopTask taskID w = (Some "任务不存在: record not found", w).
Proof.
  intros H.
  unfold TaskService.GetTaskStatus, TaskService.StopTask, Gorm.First_TestTask,
    get_db, ret, bind.
  cbn [fst snd]. rewrite H. split; reflexivity.
Qed.

(** X9.  After a completed batch, and after a stop that went through, the
    task's status reads "2" in both cases, and a further StopTask is
    refused with the state error and changes nothing. *)
Theorem StopTask_refused_after_batch_or_stop taskID task w :
  find (fun t => TestTask.ID t =? taskID) (app_task_testtask (db w)) = Some task ->
  (let w' := snd (ExecuteTask taskID w) in
   fst (TaskService.GetTaskStatus taskID w') = ("2", None)
   /\ TaskService.StopTask taskID w' = (Some "任务未在运行中", w'))
  /\ (TestTask.Status task = 1 ->
      let w' := snd (TaskService.StopTask taskID w) in
      fst (TaskService.GetTaskStatus taskID w') = ("2", None)
      /\ TaskService.StopTask taskID w' = (Some "任务未在运行中", w')).
Proof.
  intros H. split.
  - destruct (ExecuteTask_found CaseData json_Unmarshal taskID task w H)
      as (w3 & result & w' & Hrun & _ & _ & _ & _ & Hst & (now & Hrow) & _).
    fold ExecuteTask in Hrun. rewrite Hrun. cbn [snd].
    assert (Hcode : TaskService.statusInt (TaskExecutionResult.Status result) = 2).
    { rewrite Hst. now destruct (0 <? _). }
    rewrite Hcode in Hrow. split.
    + now rewrite (GetTaskStatus_found _ _ _ Hrow).
    + apply (StopTask_refused _ _ _ Hrow). discriminate.
  - intros Hs. destruct (StopTask_stops _ _ _ H Hs) as (w' & now & E & Hrow).
    cbv zeta. rewrite E. cbn [snd]. split.
    + now rewrite (GetTaskStatus_found _ _ _ Hrow).
    + apply (StopTask_refused _ _ _ Hrow). discriminate.
Qed.

End BatchSteps.

(* ===================================================================== *)
(** ** Further properties: the run time a batch writes is never read back  *)
(* ===================================================================== *)

Lemma string_app_assoc (a b c : string) : ((a ++ b) ++ c)%string = (a ++ (b ++ c))%string.
Proof. induction a as [|x a IH]; cbn; trivial. now rewrite IH. Qed.

Lemma string_of_uint_digits d : Obs.all_digits (NilEmpty.string_of_uint d) = true.
Proof. induction d; cbn; trivial. Qed.

Lemma Sprintf_d_digits n :
  0 <= n -> Obs.all_digits (Go.Sprintf_d n) = true /\ Go.Sprintf_d n <> "".
Proof.
  intros Hn. unfold Go.Sprintf_d. destruct n as [|p|p]; [cbn; split; [trivial|discriminate]| |lia].
  cbn [Z.to_int NilEmpty.string_of_int]. split; [apply string_of_uint_digits|].
  pose proof (DecimalPos.Unsigned.to_uint_nonnil p) as Hnil.
  destruct (Pos.to_uint p); [congruence| |  | | | | | | | |]; discriminate.
Qed.

Lemma digit_not_sign c :
  Go.is_digit c = true -> Ascii.eqb c "-" = false /\ Ascii.eqb c "+" = false
                          /\ Ascii.eqb c "." = false.
Proof.
  destruct c as [[] [] [] [] [] [] [] []]; cbn; intros H; try discriminate; auto.
Qed.

Lemma leadingInt_digits D c t :
  Obs.all_digits D = true -> Go.is_digit c = false ->
  forall x, Go.leadingInt x (D ++ String c t) = None
            \/ exists v, Go.leadingInt x (D ++ String c t) = Some (v, String c t).
Proof.
  intros HD Hc. induction D as [|d D IH]; intros x.
  - right. exists x. cbn. now rewrite Hc.
  - cbn in HD. apply andb_prop in HD as [Hd HD].
    cbn [append Go.leadingInt]. rewrite Hd.
    destruct (_ <? x); [now left|].
    destruct (_ <? _); [now left|]. now apply IH.
Qed.

Lemma leadingFraction_digits P c t :
  Obs.all_digits P = true -> Go.is_digit c = false ->
  forall x scale overflow,
    snd (Go.leadingFraction x scale overflow (P ++ String c t)) = String c t.
Proof.
  intros HP Hc. induction P as [|d P IH]; intros x scale overflow.
  - cbn. now rewrite Hc.
  - cbn in HP. apply andb_prop in HP as [Hd HP].
    cbn [append Go.leadingFraction]. rewrite Hd.
    destruct overflow; [now apply IH|].
    destruct (_ <? x); [now apply IH|].
    destruct (_ <? _); now apply IH.
Qed.

(** A number with a fraction followed by the unit "ss" is no duration:
    "ss" is not a unit. *)
Lemma ParseDuration_loop_ss D P fuel d :
  Obs.all_digits D = true -> D <> "" -> Obs.all_digits P = true ->
  Go.ParseDuration_loop (S fuel) d (D ++ "." ++ P ++ "ss") = None.
Proof.
  intros HD Hne HP. destruct D as [|c D]; [congruence|].
  pose proof HD as HD'. cbn in HD'. apply andb_prop in HD' as [Hc _].
  cbn [append Go.ParseDuration_loop Go.starts_number]. rewrite Hc, orb_true_r.
  cbn [negb].
  destruct (leadingInt_digits (String c D) "." (P ++ "ss") HD eq_refl 0)
    as [E|[v E]]; cbn [append] in E; rewrite E; trivial.
  cbn [Ascii.eqb Bool.eqb andb].
  pose proof (leadingFraction_digits P "s" "s" HP eq_refl 0 1%float false) as HF.
  cbn [append] in HF.
  destruct (Go.leadingFraction 0 1 false (P ++ "ss")) as [[f scale] r].
  cbn [snd] in HF. subst r.
  destruct (_ && _); reflexivity.
Qed.

Lemma ParseDuration_ss sign D P :
  sign = "" \/ sign = "-" ->
  Obs.all_digits D = true -> D <> "" -> Obs.all_digits P = true ->
  Go.ParseDuration (sign ++ D ++ "." ++ P ++ "ss") = None.
Proof.
  intros Hsign HD Hne HP.
  assert (Hbody : forall s, s = (D ++ "." ++ P ++ "ss")%string ->
            (if String.eqb s "0" then Some 0
             else if String.eqb s "" then None
             else match Go.ParseDuration_loop (String.length s) 0 s with
                  | None => None
                  | Some d => if false then Some (- d)
                              else if 2 ^ 63 - 1 <? d then None else Some d
                  end) = None
            /\ (if String.eqb s "0" then Some 0
                else if String.eqb s "" then None
                else match Go.ParseDuration_loop (String.length s) 0 s with
                     | None => None
                     | Some d => if true then Some (- d)
                                 else if 2 ^ 63 - 1 <? d then None else Some d
                     end) = None).
  { intros s ->. destruct D as [|c D]; [congruence|].
    assert (E0 : String.eqb (String c D ++ "." ++ P ++ "ss") "0" = false).
    { apply String.eqb_neq. cbn. destruct D; discriminate. }
    rewrite E0. cbn [append String.eqb String.length].
    change (String c (D ++ String "." (P ++ "ss")))
      with (String c D ++ "." ++ P ++ "ss")%string.
    rewrite (ParseDuration_loop_ss (String c D) P _ 0 HD Hne HP). auto. }
  destruct (Hbody _ eq_refl) as [Hpos Hneg].
  unfold Go.ParseDuration. destruct Hsign as [-> | ->].
  - destruct D as [|c D]; [congruence|]. cbn [append].
    cbn in HD. apply andb_prop in HD as [Hc _].
    destruct (digit_not_sign c Hc) as (-> & -> & _). exact Hpos.
  - cbn [append Ascii.eqb Bool.eqb andb]. exact Hneg.
Qed.


Lemma pad2_digits m : 0 <= m -> Obs.all_digits (Go.pad2 m) = true.
Proof.
  intros Hm. unfold Go.pad2. destruct (Sprintf_d_digits m Hm) as [H _].
  destruct (m <? 10); cbn; trivial.
Qed.

Lemma written_run_time_not_parsed x :
  Go.ParseDuration (Obs.written_run_time x ++ "s") = None.
Proof.
  unfold Obs.written_run_time, Go.Sprintf_2f.
  destruct (Prim2SF x) as [s|s| |s m e]; try (destruct s; reflexivity); try reflexivity.
  cbv zeta.
  set (num := Z.pos m * 100 * (if 0 <=? e then 2 ^ e else 1)).
  set (den := if 0 <=? e then 1 else 2 ^ (- e)).
  assert (Hnum : 0 <= num).
  { subst num. destruct (Z.leb_spec 0 e); [|lia].
    apply Z.mul_nonneg_nonneg; [lia|]. apply Z.pow_nonneg. lia. }
  assert (Hden : 0 < den).
  { subst den. destruct (Z.leb_spec 0 e); [lia|]. apply Z.pow_pos_nonneg; lia. }
  match goal with |- context [Go.Sprintf_d (?k / 100)] => set (n := k) end.
  assert (Hn : 0 <= n).
  { pose proof (Z.div_pos num den Hnum Hden). subst n. destruct (_ || _); lia. }
  destruct (Sprintf_d_digits (n / 100)) as [HD Hne]; [apply Z.div_pos; lia|].
  pose proof (pad2_digits (n mod 100) (proj1 (Z.mod_pos_bound n 100 ltac:(lia)))) as HP.
  rewrite !string_app_assoc. change ("s" ++ "s")%string with "ss".
  apply ParseDuration_ss; trivial. destruct s; auto.
Qed.

(** X10.  The run time saveTaskReport writes for a batch ("%.2fs") is never
    read back by the statistics loop, which appends another "s" before
    parsing: the row a batch writes adds nothing to the total duration, and
    over reports that were all written by batches the total stays where it
    started. *)
Theorem written_run_time_is_skipped :
  (forall taskID result w,
      exists row,
        app_task_taskreport (db (snd (TaskService.saveTaskReport taskID result w)))
        = app_task_taskreport (db w) ++ [row]
        /\ TaskReport.RunTime row
           = Obs.written_run_time
               (Go.Duration_Seconds (TaskExecutionResult.Duration result))
        /\ forall total, SchedulerService.add_duration total row = total)
  /\ (forall reports,
      Forall (fun r => exists x, TaskReport.RunTime r = Obs.written_run_time x) reports ->
      forall total, fold_left SchedulerService.add_duration reports total = total).
Proof.
  split.
  - intros taskID result w.
    unfold TaskService.saveTaskReport, Gorm.Create_TaskReport, bind, time_Now,
      get_db, put_db, ret, with_db.
    cbn [fst snd db app_task_taskreport]. eexists. split; [reflexivity|].
    cbn [TaskReport.RunTime]. split; [reflexivity|].
    intros total. unfold SchedulerService.add_duration. cbn [TaskReport.RunTime].
    fold (Obs.written_run_time
            (Go.Duration_Seconds (TaskExecutionResult.Duration result))).
    now rewrite written_run_time_not_parsed.
  - induction 1 as [|r reports [x Hx] _ IH]; intros total; cbn; trivial.
    unfold SchedulerService.add_duration at 2.
    rewrite Hx, written_run_time_not_parsed. apply IH.
Qed.

(* ===================================================================== *)
(** ** Further properties: the job registry                                *)
(* ===================================================================== *)

Section RegistryFacts.
Variable Parse : string -> option error.

Let addScheduledTask := SchedulerJobs.addScheduledTask Parse.
Let loadScheduledTasks_loop := SchedulerJobs.loadScheduledTasks_loop Parse.
Let loadScheduledTasks := SchedulerJobs.loadScheduledTasks Parse.
Let AddTask := SchedulerJobs.AddTask Parse.
Let RemoveTask := SchedulerJobs.RemoveTask Parse.
Let UpdateTask := SchedulerJobs.UpdateTask Parse.
Let Start := SchedulerJobs.Start Parse.
Let InitGlobalScheduler := SchedulerJobs.InitGlobalScheduler Parse.

Lemma addScheduledTask_result task c w :
  if Obs.accepted Parse task then
    addScheduledTask task c w
    = ((None, Obs.registered task c),
       snd (LogInfo "SCHEDULER" ("已添加定时任务: " ++ TestTask.Name task) w))
  else
    exists err, addScheduledTask task c w = ((Some err, c), w).
Proof.
  unfold addScheduledTask, SchedulerJobs.addScheduledTask, Obs.accepted, Cron.AddFunc,
    Obs.registered.
  destruct (String.eqb _ ""); cbn [negb andb]; [eexists; reflexivity|].
  destruct (Utils.IsValidCronExpression _); cbn [negb andb]; [|eexists; reflexivity].
  destruct (Parse _); cbn [snd]; [eexists; reflexivity|].
  reflexivity.
Qed.
(** X11.  addScheduledTask either registers the task or changes nothing.
    It registers, under the next entry number and with one INFO line, when
    the task's expression is not empty, has 5 or 6 fields and is taken by
    the cron parser; otherwise it returns an error and leaves the registry
    and the world as they were.  The empty expression is refused here
    although IsValidCronExpression accepts it. *)
Theorem addScheduledTask_registers_or_nothing task c w :
  (if Obs.accepted Parse task then
     fst (addScheduledTask task c w) = (None, Obs.registered task c)
     /\ db (snd (addScheduledTask task c w)) = db w
     /\ logs (snd (addScheduledTask task c w))
        = logs w ++ [mkLog INFO "SCHEDULER"
                       ("已添加定时任务: " ++ TestTask.Name task)%string]
   else
     exists err, addScheduledTask task c w = ((Some err, c), w))
  /\ (TestTask.CronExpression task = "" ->
      Utils.IsValidCronExpression (TestTask.CronExpression task) = true
      /\ Obs.accepted Parse task = false).
Proof.
  split.
  - pose proof (addScheduledTask_result task c w) as H.
    destruct (Obs.accepted Parse task); [|exact H].
    rewrite H. cbn. auto.
  - intros E. unfold Obs.accepted. rewrite E. split; reflexivity.
Qed.

Lemma loadScheduledTasks_loop_accepted task rest c w :
  Obs.accepted Parse task = true ->
  loadScheduledTasks_loop (task :: rest) c w
  = loadScheduledTasks_loop rest (Obs.registered task c)
      (snd (LogInfo "SCHEDULER" ("已添加定时任务: " ++ TestTask.Name task) w)).
Proof.
  intros Ha. pose proof (addScheduledTask_result task c w) as H.
  rewrite Ha in H. unfold loadScheduledTasks_loop, addScheduledTask in *.
  cbn [SchedulerJobs.loadScheduledTasks_loop]. unfold bind at 1.
  rewrite H. reflexivity.
Qed.

Lemma loadScheduledTasks_loop_rejected task rest c w :
  Obs.accepted Parse task = false ->
  exists err,
    loadScheduledTasks_loop (task :: rest) c w
    = loadScheduledTasks_loop rest c
        (snd (LogError "SCHEDULER" ("添加定时任务失败: " ++ err) w)).
Proof.
  intros Ha. pose proof (addScheduledTask_result task c w) as H.
  rewrite Ha in H. destruct H as [err H]. exists err.
  unfold loadScheduledTasks_loop, addScheduledTask in *.
  cbn [SchedulerJobs.loadScheduledTasks_loop]. unfold bind at 1.
  rewrite H. reflexivity.
Qed.

(** The loop of loadScheduledTasks: the accepted tasks are registered in
    order, one log line is written per task, an ERROR line for each task
    that is not accepted. *)
Lemma loadScheduledTasks_loop_effect tasks : forall c w,
  exists new lines,
    Cron.entries (fst (loadScheduledTasks_loop tasks c w)) = Cron.entries c ++ new
    /\ map Obs.job new = map Obs.job_of (filter (Obs.accepted Parse) tasks)
    /\ Cron.running (fst (loadScheduledTasks_loop tasks c w)) = Cron.running c
    /\ db (snd (loadScheduledTasks_loop tasks c w)) = db w
    /\ goroutines (snd (loadScheduledTasks_loop tasks c w)) = goroutines w
    /\ wallclock (snd (loadScheduledTasks_loop tasks c w)) = wallclock w
    /\ clock_reads (snd (loadScheduledTasks_loop tasks c w)) = clock_reads w
    /\ slept (snd (loadScheduledTasks_loop tasks c w)) = slept w
    /\ logs (snd (loadScheduledTasks_loop tasks c w)) = logs w ++ lines
    /\ List.length lines = List.length tasks
    /\ List.length (filter Obs.is_error lines)
       = List.length (filter (fun t => negb (Obs.accepted Parse t)) tasks).
Proof.
  induction tasks as [|task rest IH]; intros c w.
  - exists [], []. cbn. rewrite !app_nil_r. repeat split; trivial.
  - cbn [filter]. destruct (Obs.accepted Parse task) eqn:Ha; cbn [negb].
    + rewrite (loadScheduledTasks_loop_accepted task rest c w Ha).
      destruct (IH (Obs.registered task c)
                   (snd (LogInfo "SCHEDULER"
                           ("已添加定时任务: " ++ TestTask.Name task)%string w)))
        as (new & lines & He & Hj & Hr & Hdb & Hg & Hwc & Hcr & Hs & Hl & Hlen & Herr).
      exists (Cron.mkEntry (Cron.nextID c + 1) (TestTask.CronExpression task)
                (TestTask.ID task) :: new),
             (mkLog INFO "SCHEDULER" ("已添加定时任务: " ++ TestTask.Name task)%string
                :: lines).
      rewrite He, Hr, Hdb, Hg, Hwc, Hcr, Hs, Hl.
      cbn [Obs.registered Cron.entries Cron.running LogInfo write_log snd db
           goroutines logs wallclock clock_reads slept].
      rewrite <- !app_assoc. cbn [app map List.length filter Obs.is_error level].
      rewrite Hj, Hlen, Herr. repeat split; trivial.
    + destruct (loadScheduledTasks_loop_rejected task rest c w Ha) as [err H].
      rewrite H.
      destruct (IH c (snd (LogError "SCHEDULER" ("添加定时任务失败: " ++ err)%string w)))
        as (new & lines & He & Hj & Hr & Hdb & Hg & Hwc & Hcr & Hs & Hl & Hlen & Herr).
      exists new,
             (mkLog ERROR "SCHEDULER" ("添加定时任务失败: " ++ err)%string :: lines).
      rewrite He, Hr, Hdb, Hg, Hwc, Hcr, Hs, Hl.
      cbn [LogError write_log snd db goroutines logs wallclock clock_reads slept].
      rewrite <- !app_assoc. cbn [app map List.length filter Obs.is_error level].
      rewrite Hj, Hlen, Herr. repeat split; trivial.
Qed.

Lemma loadScheduledTasks_loop_registry tasks : forall c w,
  fst (loadScheduledTasks_loop tasks c w) = Obs.load Parse tasks c.
Proof.
  induction tasks as [|task rest IH]; intros c w; [reflexivity|].
  unfold Obs.load. cbn [fold_left]. destruct (Obs.accepted Parse task) eqn:Ha.
  - rewrite (loadScheduledTasks_loop_accepted task rest c w Ha). apply IH.
  - destruct (loadScheduledTasks_loop_rejected task rest c w Ha) as [err H].
    rewrite H. apply IH.
Qed.

Lemma load_entries tasks : forall c,
  Cron.nextID (Obs.load Parse tasks c)
  = Cron.nextID c + Z.of_nat (List.length (filter (Obs.accepted Parse) tasks))
  /\ Cron.running (Obs.load Parse tasks c) = Cron.running c.
Proof.
  unfold Obs.load.
  induction tasks as [|task rest IH]; intros c; cbn [fold_left filter].
  - cbn. rewrite Z.add_0_r. auto.
  - destruct (Obs.accepted Parse task); [|apply IH].
    destruct (IH (Obs.registered task c)) as (Hn & Hr).
    rewrite Hn, Hr. cbn [Obs.registered Cron.nextID Cron.running List.length].
    split; [lia|reflexivity].
Qed.

Lemma load_jobs tasks : forall c,
  map Obs.job (Cron.entries (Obs.load Parse tasks c))
  = map Obs.job (Cron.entries c) ++ map Obs.job_of (filter (Obs.accepted Parse) tasks).
Proof.
  unfold Obs.load.
  induction tasks as [|task rest IH]; intros c; cbn [fold_left filter].
  - cbn. now rewrite app_nil_r.
  - destruct (Obs.accepted Parse task); [|apply IH].
    rewrite IH. cbn [Obs.registered Cron.entries]. rewrite map_app, <- app_assoc.
    reflexivity.
Qed.

Lemma jobs_for_load taskID tasks : forall c,
  List.length (Obs.jobs_for taskID (Obs.load Parse tasks c))
  = (List.length (Obs.jobs_for taskID c)
     + List.length (filter (fun t => (TestTask.ID t =? taskID)%Z)
                           (filter (Obs.accepted Parse) tasks)))%nat.
Proof.
  unfold Obs.load.
  induction tasks as [|task rest IH]; intros c; cbn [fold_left filter].
  - cbn. lia.
  - destruct (Obs.accepted Parse task); [|apply IH].
    rewrite IH. unfold Obs.jobs_for. cbn [Obs.registered Cron.entries].
    rewrite filter_app, length_app. cbn [filter Cron.Job].
    destruct (TestTask.ID task =? taskID); cbn [List.length]; lia.
Qed.

Lemma loadScheduledTasks_steps c w :
  loadScheduledTasks c w
  = ((None, fst (loadScheduledTasks_loop (Obs.candidates (db w)) c w)),
     snd (LogInfo "SCHEDULER"
            ("已加载 " ++ Go.Sprintf_d (Z.of_nat (List.length (Obs.candidates (db w))))
               ++ " 个定时任务")
            (snd (loadScheduledTasks_loop (Obs.candidates (db w)) c w)))).
Proof.
  unfold loadScheduledTasks, SchedulerJobs.loadScheduledTasks,
    SchedulerJobs.Find_scheduled_tasks, get_db, ret, bind.
  cbn [fst snd]. fold (Obs.candidates (db w)). fold loadScheduledTasks_loop.
  destruct (loadScheduledTasks_loop (Obs.candidates (db w)) c w) as [c' w'].
  reflexivity.
Qed.

(** X12.  loadScheduledTasks never fails on a store that answers.  It offers
    the scheduled, not deleted tasks to the registry in table order: the
    accepted ones are appended, numbered on from the registry's counter,
    and the registry keeps running or not as it was.  The store is not
    written.  One line is logged per task offered, an ERROR line for each
    one not accepted, and the closing line counts the tasks offered, not
    the tasks registered. *)
Theorem loadScheduledTasks_registers_accepted_candidates c w :
  let offered := Obs.candidates (db w) in
  let r := loadScheduledTasks c w in
  exists lines,
    fst r = (None, Obs.load Parse offered c)
    /\ map Obs.job (Cron.entries (snd (fst r)))
       = map Obs.job (Cron.entries c)
         ++ map Obs.job_of (filter (Obs.accepted Parse) offered)
    /\ Cron.nextID (snd (fst r))
       = Cron.nextID c + Z.of_nat (List.length (filter (Obs.accepted Parse) offered))
    /\ Cron.running (snd (fst r)) = Cron.running c
    /\ db (snd r) = db w /\ goroutines (snd r) = goroutines w
    /\ logs (snd r)
       = logs w ++ lines
         ++ [mkLog INFO "SCHEDULER"
               ("已加载 " ++ Go.Sprintf_d (Z.of_nat (List.length offered))
                  ++ " 个定时任务")%string]
    /\ List.length lines = List.length offered
    /\ List.length (filter Obs.is_error lines)
       = List.length (filter (fun t => negb (Obs.accepted Parse t)) offered).
Proof.
  cbv zeta. rewrite loadScheduledTasks_steps. cbn [fst snd].
  destruct (loadScheduledTasks_loop_effect (Obs.candidates (db w)) c w)
    as (new & lines & He & Hj & Hr & Hdb & Hg & Hwc & Hcr & Hs & Hl & Hlen & Herr).
  exists lines. rewrite loadScheduledTasks_loop_registry.
  destruct (load_entries (Obs.candidates (db w)) c) as (Hn & Hrun).
  cbn [LogInfo write_log snd db goroutines logs].
  rewrite Hdb, Hg, Hl, <- app_assoc.
  repeat split; trivial. apply load_jobs.
Qed.

Lemma RemoveTask_steps taskID c w :
  RemoveTask taskID c w
  = ((None, Cron.Start (Obs.load Parse (Obs.candidates (db w)) Cron.New)),
     snd (LogInfo "SCHEDULER" ("已移除定时任务: " ++ Go.Sprintf_d taskID)
            (snd (loadScheduledTasks Cron.New w)))).
Proof.
  unfold RemoveTask, SchedulerJobs.RemoveTask. cbv zeta. unfold bind at 1.
  fold loadScheduledTasks. rewrite loadScheduledTasks_steps. cbn [fst snd].
  rewrite loadScheduledTasks_loop_registry. reflexivity.
Qed.

Lemma Start_steps c w :
  Start c w
  = ((None, Cron.Start (Obs.load Parse (Obs.candidates (db w)) c)),
     snd (LogInfo "SCHEDULER" "调度服务已启动" (snd (loadScheduledTasks c w)))).
Proof.
  unfold Start, SchedulerJobs.Start. unfold bind at 1.
  fold loadScheduledTasks. rewrite loadScheduledTasks_steps. cbn [fst snd].
  rewrite loadScheduledTasks_loop_registry. reflexivity.
Qed.

Lemma loadScheduledTasks_db c w : db (snd (loadScheduledTasks c w)) = db w.
Proof.
  rewrite loadScheduledTasks_steps. cbn [fst snd LogInfo write_log db].
  destruct (loadScheduledTasks_loop_effect (Obs.candidates (db w)) c w)
    as (new & lines & He & Hj & Hr & Hdb & _). exact Hdb.
Qed.

(** X13.  RemoveTask does not look at the task it is given: it throws the
    registry away and builds, from an empty one, the registry of the
    accepted scheduled tasks of the store, started.  That is the registry
    InitGlobalScheduler builds on the same store.  So the number of entries
    left for the task is the number of accepted, scheduled, not deleted
    rows with its identifier, whatever was registered before.  UpdateTask
    is the same operation.  The store is not written. *)
Theorem RemoveTask_rebuilds_the_registry taskID c w :
  let r := RemoveTask taskID c w in
  fst r = (None, Cron.Start (Obs.load Parse (Obs.candidates (db w)) Cron.New))
  /\ snd (fst r) = snd (fst (InitGlobalScheduler w))
  /\ Cron.running (snd (fst r)) = true
  /\ map Obs.job (Cron.entries (snd (fst r)))
     = map Obs.job_of (filter (Obs.accepted Parse) (Obs.candidates (db w)))
  /\ List.length (Obs.jobs_for taskID (snd (fst r)))
     = List.length (filter (fun t => TestTask.ID t =? taskID)
                           (filter (Obs.accepted Parse) (Obs.candidates (db w))))
  /\ db (snd r) = db w
  /\ UpdateTask taskID c w = r.
Proof.
  cbv zeta. unfold UpdateTask, SchedulerJobs.UpdateTask. fold RemoveTask.
  unfold InitGlobalScheduler, SchedulerJobs.InitGlobalScheduler. fold Start.
  rewrite RemoveTask_steps, Start_steps. cbn [fst snd].
  repeat split.
  - cbn [Cron.Start Cron.entries]. now rewrite load_jobs.
  - change (Obs.jobs_for taskID (Cron.Start ?x)) with (Obs.jobs_for taskID x).
    now rewrite jobs_for_load.
  - cbn [LogInfo write_log snd db]. apply loadScheduledTasks_db.
Qed.

Lemma AddTask_steps taskID c w :
  AddTask taskID c w
  = match find (fun t => TestTask.ID t =? taskID) (app_task_testtask (db w)) with
    | None => ((Some "任务不存在: record not found", c), w)
    | Some task =>
        if TestTask.IsScheduled task then addScheduledTask task c w
        else ((Some "任务未启用定时调度", c), w)
    end.
Proof.
  unfold AddTask, SchedulerJobs.AddTask, Gorm.First_TestTask, get_db, ret, bind.
  cbn [fst snd].
  destruct (find _ _) as [task|]; cbn; [|reflexivity].
  destruct (TestTask.IsScheduled task); reflexivity.
Qed.

(** X14.  AddTask registers the task exactly when its row exists, is marked
    scheduled and has an accepted trigger; whether the row is marked
    deleted plays no part.  When it registers, one entry is appended and
    one INFO line logged; otherwise an error is returned and neither the
    registry nor the world changes.  The store is never written. *)
Theorem AddTask_registers_or_refuses taskID c w :
  let r := AddTask taskID c w in
  match find (fun t => TestTask.ID t =? taskID) (app_task_testtask (db w)) with
  | None => r = ((Some "任务不存在: record not found"%string, c), w)
  | Some task =>
      if TestTask.IsScheduled task && Obs.accepted Parse task then
        fst r = (None, Obs.registered task c)
        /\ db (snd r) = db w
        /\ logs (snd r)
           = logs w ++ [mkLog INFO "SCHEDULER"
                          ("已添加定时任务: " ++ TestTask.Name task)%string]
      else exists err, r = ((Some err, c), w)
  end.
Proof.
  cbv zeta. rewrite AddTask_steps.
  destruct (find _ _) as [task|]; [|reflexivity].
  destruct (TestTask.IsScheduled task); cbn [andb]; [|eexists; reflexivity].
  pose proof (addScheduledTask_result task c w) as H.
  destruct (Obs.accepted Parse task); [|exact H].
  rewrite H. cbn. auto.
Qed.

(** X15.  AddTask does not look for an entry the task already has: for a
    task whose row is scheduled and accepted, every call adds one more
    entry that runs it. *)
Theorem AddTask_adds_another_entry taskID c w task
  (Hfind : find (fun t => TestTask.ID t =? taskID) (app_task_testtask (db w))
           = Some task)
  (Hsched : TestTask.IsScheduled task = true)
  (Hacc : Obs.accepted Parse task = true) :
  fst (fst (AddTask taskID c w)) = None
  /\ List.length (Obs.jobs_for taskID (snd (fst (AddTask taskID c w))))
     = S (List.length (Obs.jobs_for taskID c)).
Proof.
  rewrite AddTask_steps, Hfind, Hsched.
  pose proof (addScheduledTask_result task c w) as H. rewrite Hacc in H.
  rewrite H. cbn [fst snd]. split; [reflexivity|].
  unfold Obs.jobs_for, Obs.registered. cbn [Cron.entries].
  rewrite filter_app, length_app. cbn [filter Cron.Job].
  rewrite (find_task_id _ _ _ Hfind), Z.eqb_refl. cbn. lia.
Qed.

(** X16.  GetScheduledTasks lists every row marked scheduled, deleted or
    not, and writes nothing; the tasks loadScheduledTasks offers to the
    registry are those of them that are not marked deleted. *)
Theorem GetScheduledTasks_includes_deleted w :
  let r := SchedulerJobs.GetScheduledTasks w in
  snd (fst r) = None /\ snd r = w
  /\ fst (fst r) = filter TestTask.IsScheduled (app_task_testtask (db w))
  /\ Obs.candidates (db w)
     = filter (fun t => negb (TestTask.IsDelete t)) (fst (fst r)).
Proof.
  cbv zeta. unfold SchedulerJobs.GetScheduledTasks, get_db, ret, bind, Obs.candidates.
  cbn [fst snd]. repeat split.
  induction (app_task_testtask (db w)) as [|t l IH]; [reflexivity|].
  cbn [filter]. destruct (TestTask.IsScheduled t); cbn [andb filter]; [|exact IH].
  destruct (TestTask.IsDelete t); cbn [negb]; [exact IH|now rewrite IH].
Qed.

End RegistryFacts.


(* ===================================================================== *)
(** ** Further properties: the string validators                           *)
(* ===================================================================== *)

Ltac byte_cases :=
  repeat match goal with
         | H : context [?a <=? ?b] |- _ => destruct (Z.leb_spec a b)
         | H : context [?a =? ?b] |- _ => destruct (Z.eqb_spec a b)
         | |- context [?a <=? ?b] => destruct (Z.leb_spec a b)
         | |- context [?a =? ?b] => destruct (Z.eqb_spec a b)
         end;
  cbn in *; try discriminate; try reflexivity; try lia.

(** The backward walk of TrimRightFunc ends within its bound: each step
    takes at least one byte. *)
Lemma back_start_pos rs : (1 <= GoStrings.back_start rs)%nat.
Proof.
  unfold GoStrings.back_start.
  repeat match goal with
         | |- context [if ?b then _ else _] => destruct b
         | |- context [match ?l with [] => _ | _ :: _ => _ end] => destruct l
         end; lia.
Qed.

Lemma DecodeLastRune_width b rs :
  (1 <= snd (GoStrings.DecodeLastRune (b :: rs)))%nat.
Proof.
  unfold GoStrings.DecodeLastRune. destruct (b <? 128); [cbn; lia|].
  pose proof (back_start_pos (b :: rs)) as Hw.
  destruct (GoStrings.decode _) as [r size].
  destruct (Nat.eqb_spec size (GoStrings.back_start (b :: rs))); cbn [snd]; lia.
Qed.

Lemma TrimRightFunc_loop_fuel f : forall fuel fuel' rs after,
  (List.length rs <= fuel)%nat -> (List.length rs <= fuel')%nat ->
  GoStrings.TrimRightFunc_loop f fuel rs after
  = GoStrings.TrimRightFunc_loop f fuel' rs after.
Proof.
  induction fuel as [|fuel IH]; intros [|fuel'] [|c rs] after H H';
    cbn [List.length] in H, H'; try lia; try reflexivity.
  cbn [GoStrings.TrimRightFunc_loop map].
  pose proof (DecodeLastRune_width (Go.byte_val c) (map Go.byte_val rs)) as Hw.
  destruct (GoStrings.DecodeLastRune _) as [r size]. cbn [snd] in Hw.
  destruct (f r); [|reflexivity].
  assert (List.length (skipn size (c :: rs)) <= List.length rs)%nat
    by (rewrite length_skipn; cbn [List.length]; lia).
  apply IH; lia.
Qed.

(** TrimSpace returns a string that begins and ends with an ASCII byte
    other than white space as it is. *)
Lemma TrimSpace_stop_solid c rs :
  Validator.solid c = true -> GoStrings.TrimSpace_stop (c :: rs) = (c :: rs, false).
Proof.
  unfold Validator.solid. cbn [GoStrings.TrimSpace_stop]. intros H.
  apply andb_true_iff in H as [H1 H2].
  apply negb_true_iff in H1, H2. now rewrite H1, H2.
Qed.

Lemma TrimSpace_solid_ends c s :
  Validator.solid c = true ->
  Validator.solid (last (list_ascii_of_string (String c s)) c) = true ->
  GoStrings.TrimSpace (String c s) = String c s.
Proof.
  intros Hc Hl. unfold GoStrings.TrimSpace. cbn [GoStrings.TrimSpace_start].
  pose proof Hc as Hc'. unfold Validator.solid in Hc'.
  apply andb_true_iff in Hc' as [H1 H2]. apply negb_true_iff in H1, H2.
  rewrite H1, H2.
  set (l := list_ascii_of_string (String c s)) in *.
  assert (Hne : l <> []) by (subst l; cbn; discriminate).
  rewrite (app_removelast_last c Hne) at 1. rewrite rev_app_distr. cbn [rev app].
  rewrite TrimSpace_stop_solid by exact Hl.
  change (last l c :: rev (removelast l)) with (rev [last l c] ++ rev (removelast l)).
  rewrite <- rev_app_distr, rev_involutive, <- (app_removelast_last c Hne).
  subst l. apply string_of_list_ascii_of_string.
Qed.

Lemma all_bytes_last p s : forall c d,
  Validator.all_bytes p (String c s) = true ->
  p (last (list_ascii_of_string (String c s)) d) = true.
Proof.
  induction s as [|x s IH]; intros c d H; cbn [Validator.all_bytes] in H.
  - cbn. now apply andb_true_iff in H as [H _].
  - apply andb_true_iff in H as [_ H]. apply (IH x d) in H.
    exact H.
Qed.

Lemma name_byte_solid c : Validator.is_name_byte c = true -> Validator.solid c = true.
Proof.
  unfold Validator.is_name_byte, Validator.is_letter, Go.is_digit, Validator.solid,
    GoStrings.asciiSpace.
  generalize (Go.byte_val c) as b. intros b H. byte_cases.
Qed.

Lemma name_byte_plain c :
  Validator.is_name_byte c = true ->
  Validator.is_lt c = false /\ Validator.is_quote_byte c = false.
Proof.
  unfold Validator.is_name_byte, Validator.is_letter, Go.is_digit, Validator.is_lt,
    Validator.is_quote_byte.
  generalize (Go.byte_val c) as b. intros b H. split; byte_cases.
Qed.

Lemma all_bytes_impl (p q : ascii -> bool) s :
  (forall c, p c = true -> q c = true) ->
  Validator.all_bytes p s = true -> Validator.all_bytes q s = true.
Proof.
  intros Hpq. induction s as [|c s IH]; cbn; [trivial|].
  intros H. apply andb_true_iff in H as [H1 H2]. now rewrite (Hpq _ H1), IH.
Qed.

Lemma strip_tags_plain s :
  Validator.all_bytes (fun c => negb (Validator.is_lt c)) s = true ->
  Validator.strip_tags s = s.
Proof.
  unfold Validator.strip_tags.
  induction s as [|c s IH]; cbn [Validator.all_bytes Validator.strip_tags_from];
    [trivial|].
  intros H. apply andb_true_iff in H as [H1 H2]. apply negb_true_iff in H1.
  rewrite H1. cbn [andb]. now rewrite IH.
Qed.

Lemma strip_quotes_plain s :
  Validator.all_bytes (fun c => negb (Validator.is_quote_byte c)) s = true ->
  Validator.strip_quotes s = s.
Proof.
  induction s as [|c s IH]; cbn [Validator.all_bytes Validator.strip_quotes];
    [trivial|].
  intros H. apply andb_true_iff in H as [H1 H2]. apply negb_true_iff in H1.
  now rewrite H1, IH.
Qed.

Lemma SanitizeString_plain c s :
  Validator.all_bytes Validator.is_name_byte (String c s) = true ->
  Validator.SanitizeString (String c s) = String c s.
Proof.
  intros H. unfold Validator.SanitizeString.
  rewrite TrimSpace_solid_ends.
  - rewrite strip_tags_plain, strip_quotes_plain; trivial.
    + revert H. apply all_bytes_impl. intros x Hx.
      now destruct (name_byte_plain x Hx) as [_ ->].
    + revert H. apply all_bytes_impl. intros x Hx.
      now destruct (name_byte_plain x Hx) as [-> _].
  - apply name_byte_solid. cbn in H. now apply andb_true_iff in H as [H _].
  - apply name_byte_solid. now apply all_bytes_last.
Qed.

Lemma IsValidUsername_bytes s :
  Validator.IsValidUsername s = true ->
  (3 <= String.length s <= 150)%nat
  /\ Validator.all_bytes Validator.is_name_byte s = true.
Proof.
  unfold Validator.IsValidUsername.
  destruct (Z.ltb_spec (Z.of_nat (String.length s)) 3); cbn [orb]; [discriminate|].
  destruct (Z.ltb_spec 150 (Z.of_nat (String.length s))); [discriminate|].
  intros Hm. apply andb_true_iff in Hm as [_ Hm]. split; [lia|exact Hm].
Qed.

(** X17.  A valid user name passes through SanitizeString unchanged. *)
Theorem SanitizeString_keeps_a_valid_username username
  (Hvalid : Validator.IsValidUsername username = true) :
  Validator.SanitizeString username = username.
Proof.
  apply IsValidUsername_bytes in Hvalid as [Hlen Hall].
  destruct username as [|c s]; [cbn in Hlen; lia|].
  now apply SanitizeString_plain.
Qed.

Lemma any_byte_app p a b :
  Validator.any_byte p (a ++ b)%string
  = Validator.any_byte p a || Validator.any_byte p b.
Proof.
  induction a as [|c a IH]; cbn; [reflexivity|]. now rewrite IH, orb_assoc.
Qed.

Lemma string_length_app a b :
  String.length (a ++ b)%string = (String.length a + String.length b)%nat.
Proof. induction a as [|c a IH]; cbn; [reflexivity|]. now rewrite IH. Qed.

Lemma any_all_bytes p q s :
  (forall c, p c = true -> q c = false) ->
  Validator.all_bytes p s = true -> Validator.any_byte q s = false.
Proof.
  intros Hpq. induction s as [|c s IH]; cbn; [trivial|].
  intros H. apply andb_true_iff in H as [H1 H2]. now rewrite (Hpq _ H1), IH.
Qed.

(** X18.  IsValidPassword asks for six bytes, a letter and a digit, and for
    nothing else: a valid password stays valid whatever is put before or
    after it, so there is no upper bound on the length and no byte is
    excluded; and a valid password is neither all digits nor all letters. *)
Theorem IsValidPassword_only_asks_for_letter_and_digit password
  (Hvalid : Validator.IsValidPassword password = true) :
  (forall before after,
     Validator.IsValidPassword (before ++ password ++ after)%string = true)
  /\ Validator.all_bytes Go.is_digit password = false
  /\ Validator.all_bytes Validator.is_letter password = false.
Proof.
  unfold Validator.IsValidPassword in *.
  destruct (Z.ltb_spec (Z.of_nat (String.length password)) 6); [discriminate|].
  cbv zeta in Hvalid. apply andb_true_iff in Hvalid as [Hl Hd].
  split; [|split].
  - intros before after. rewrite !string_length_app.
    destruct (Z.ltb_spec (Z.of_nat (String.length before
                + (String.length password + String.length after))) 6); [lia|].
    cbv zeta. rewrite !any_byte_app, Hl, Hd, !orb_true_r. reflexivity.
  - destruct (Validator.all_bytes Go.is_digit password) eqn:E; [|reflexivity].
    rewrite (any_all_bytes Go.is_digit Validator.is_letter) in Hl;
      [discriminate| |exact E].
    intros c. unfold Go.is_digit, Validator.is_letter.
    generalize (Go.byte_val c) as b. intros b H0. byte_cases.
  - destruct (Validator.all_bytes Validator.is_letter password) eqn:E; [|reflexivity].
    rewrite (any_all_bytes Validator.is_letter Go.is_digit) in Hd;
      [discriminate| |exact E].
    intros c. unfold Go.is_digit, Validator.is_letter.
    generalize (Go.byte_val c) as b. intros b H0. byte_cases.
Qed.

Lemma strip_quotes_no_quote s :
  Validator.any_byte Validator.is_quote_byte (Validator.strip_quotes s) = false.
Proof.
  induction s as [|c s IH]; cbn [Validator.strip_quotes]; [reflexivity|].
  destruct (Validator.is_quote_byte c) eqn:E; [exact IH|].
  cbn [Validator.any_byte]. now rewrite E, IH.
Qed.

Lemma quote_byte_not_angle c :
  Validator.is_quote_byte c = true ->
  Validator.is_gt c = false /\ Validator.is_lt c = false.
Proof.
  unfold Validator.is_quote_byte, Validator.is_gt, Validator.is_lt.
  generalize (Go.byte_val c) as b. intros b H. split; byte_cases.
Qed.

Lemma any_gt_strip_quotes s :
  Validator.any_byte Validator.is_gt (Validator.strip_quotes s)
  = Validator.any_byte Validator.is_gt s.
Proof.
  induction s as [|c s IH]; cbn [Validator.strip_quotes Validator.any_byte];
    [reflexivity|].
  destruct (Validator.is_quote_byte c) eqn:E.
  - destruct (quote_byte_not_angle c E) as [-> _]. exact IH.
  - cbn [Validator.any_byte]. now rewrite IH.
Qed.

Lemma has_tag_strip_quotes s :
  Validator.has_tag s = false -> Validator.has_tag (Validator.strip_quotes s) = false.
Proof.
  induction s as [|c s IH]; cbn [Validator.strip_quotes Validator.has_tag];
    [trivial|].
  intros H. apply orb_false_iff in H as [H1 H2].
  destruct (Validator.is_quote_byte c); [now apply IH|].
  cbn [Validator.has_tag]. now rewrite any_gt_strip_quotes, H1, IH.
Qed.

Lemma strip_tags_from_gt s : forall inside,
  Validator.any_byte Validator.is_gt (Validator.strip_tags_from inside s) = true ->
  Validator.any_byte Validator.is_gt s = true.
Proof.
  induction s as [|c s IH]; intros inside;
    cbn [Validator.strip_tags_from Validator.any_byte]; [trivial|].
  destruct inside.
  - destruct (Validator.is_gt c); [reflexivity|]. apply IH.
  - destruct (Validator.is_lt c && Validator.any_byte Validator.is_gt s) eqn:E.
    + apply andb_true_iff in E as [_ E]. rewrite E. now rewrite orb_true_r.
    + cbn [Validator.any_byte]. destruct (Validator.is_gt c); [reflexivity|].
      apply IH.
Qed.

Lemma strip_tags_from_no_tag s : forall inside,
  Validator.has_tag (Validator.strip_tags_from inside s) = false.
Proof.
  induction s as [|c s IH]; intros inside; cbn [Validator.strip_tags_from];
    [reflexivity|].
  destruct inside.
  - destruct (Validator.is_gt c); apply IH.
  - destruct (Validator.is_lt c && Validator.any_byte Validator.is_gt s) eqn:E;
      [apply IH|].
    cbn [Validator.has_tag]. rewrite IH, orb_false_r.
    destruct (Validator.is_lt c); [|reflexivity]. cbn [andb] in E |- *.
    destruct (Validator.any_byte Validator.is_gt (Validator.strip_tags_from false s))
      eqn:G; [|reflexivity].
    apply strip_tags_from_gt in G. congruence.
Qed.

Lemma has_tag_shape a : forall b c,
  Validator.has_tag (a ++ String "<" (b ++ String ">" c))%string = true.
Proof.
  induction a as [|x a IH]; intros b c; cbn [append Validator.has_tag].
  - rewrite any_byte_app. cbn [Validator.any_byte].
    change (Validator.is_lt "<") with true. change (Validator.is_gt ">") with true.
    cbn [andb orb]. now rewrite orb_true_r.
  - rewrite IH. apply orb_true_r.
Qed.

(** X19.  What SanitizeString returns holds no single quote, semicolon,
    double quote or backslash, and no ['<'] with a ['>'] anywhere after
    it, whatever the input. *)
Theorem SanitizeString_output_has_no_quote_and_no_tag input :
  Validator.any_byte Validator.is_quote_byte (Validator.SanitizeString input) = false
  /\ Validator.has_tag (Validator.SanitizeString input) = false
  /\ forall a b c,
       Validator.SanitizeString input <> (a ++ String "<" (b ++ String ">" c))%string.
Proof.
  assert (Ht : Validator.has_tag (Validator.SanitizeString input) = false).
  { unfold Validator.SanitizeString, Validator.strip_tags. cbv zeta.
    apply has_tag_strip_quotes, strip_tags_from_no_tag. }
  split; [apply strip_quotes_no_quote|]. split; [exact Ht|].
  intros a b c E. rewrite E, has_tag_shape in Ht. discriminate.
Qed.

(** X20.  SanitizeString is not idempotent: white space that follows a
    removed quote is left at the front of the result, and a second pass
    trims it. *)
Theorem SanitizeString_second_pass_trims_again username
  (Hvalid : Validator.IsValidUsername username = true) :
  Validator.SanitizeString ("' " ++ username)%string = (" " ++ username)%string
  /\ Validator.SanitizeString (" " ++ username)%string = username.
Proof.
  apply IsValidUsername_bytes in Hvalid as [Hlen Hall].
  destruct username as [|c s]; [cbn in Hlen; lia|].
  cbn [append]. split.
  - unfold Validator.SanitizeString. cbv zeta.
    rewrite TrimSpace_solid_ends.
    + rewrite strip_tags_plain.
      * change (Validator.strip_quotes (String "'" (String " " (String c s))))
          with (String " " (Validator.strip_quotes (String c s))).
        rewrite strip_quotes_plain; [reflexivity|].
        revert Hall. apply all_bytes_impl. intros x Hx.
        now destruct (name_byte_plain x Hx) as [_ ->].
      * change (Validator.all_bytes (fun x => negb (Validator.is_lt x))
                  (String "'" (String " " (String c s))))
          with (Validator.all_bytes (fun x => negb (Validator.is_lt x)) (String c s)).
        revert Hall. apply all_bytes_impl. intros x Hx.
        now destruct (name_byte_plain x Hx) as [-> _].
    + reflexivity.
    + change (last (list_ascii_of_string (String "'" (String " " (String c s)))) "'"%char)
        with (last (list_ascii_of_string (String c s)) "'"%char).
      apply name_byte_solid. now apply all_bytes_last.
  - unfold Validator.SanitizeString. cbv zeta.
    change (GoStrings.TrimSpace (String " " (String c s)))
      with (GoStrings.TrimSpace (String c s)).
    now apply SanitizeString_plain.
Qed.

(* ===================================================================== *)
(** ** Concrete runs of the further properties                             *)
(* ===================================================================== *)

Lemma ExecuteTask_results_follow_bindings_witness :
  let w := Sample.world Sample.db_two_bindings in
  find (fun t => TestTask.ID t =? 1) (app_task_testtask (db w))
  = Some (Sample.task 1 0)
  /\ exists result,
      fst (TaskService.ExecuteTask unit Sample.json_accept 1 w) = (Some result, None)
      /\ map Spec.outcome (TaskExecutionResult.Results result)
         = map (Obs.binding_outcome unit Sample.json_accept (app_case_testcase (db w)))
               (Obs.bindings (db w) 1).
Proof.
  split; [reflexivity|].
  exact (ExecuteTask_results_follow_bindings unit Sample.json_accept 1
           (Sample.task 1 0) (Sample.world Sample.db_two_bindings) eq_refl).
Defined.

Lemma ExecuteTask_stores_rows_of_resolved_bindings_witness :
  let w := Sample.world Sample.db_two_bindings in
  find (fun t => TestTask.ID t =? 1) (app_task_testtask (db w))
  = Some (Sample.task 1 0)
  /\ exists rows,
      app_case_caseresult (db (snd (TaskService.ExecuteTask unit Sample.json_accept 1 w)))
      = app_case_caseresult (db w) ++ rows
      /\ map CaseResult.CaseID rows
         = Obs.resolved_ids (app_case_testcase (db w)) (Obs.bindings (db w) 1).
Proof.
  split; [reflexivity|].
  exact (ExecuteTask_stores_rows_of_resolved_bindings unit Sample.json_accept 1
           (Sample.task 1 0) (Sample.world Sample.db_two_bindings) eq_refl).
Defined.

Lemma ExecuteTask_leaves_the_rest_alone_witness :
  let w := Sample.world Sample.db_two_bindings in
  let w' := snd (TaskService.ExecuteTask unit Sample.json_accept 1 w) in
  find (fun t => TestTask.ID t =? 1) (app_task_testtask (db w))
  = Some (Sample.task 1 0)
  /\ app_task_taskcaserelevance (db w') = app_task_taskcaserelevance (db w)
  /\ app_case_testcase (db w') = app_case_testcase (db w)
  /\ goroutines w' = goroutines w
  /\ logs w'
     = logs w
       ++ [mkLog INFO "TASK_EXECUTION" ("开始执行任务: " ++ Go.Sprintf_d 1)%string;
           mkLog INFO "TASK_EXECUTION" ("任务执行完成: " ++ Go.Sprintf_d 1)%string].
Proof.
  split; [reflexivity|].
  destruct (ExecuteTask_leaves_the_rest_alone unit Sample.json_accept 1
              (Sample.task 1 0) (Sample.world Sample.db_two_bindings) eq_refl)
    as (Hr & Hc & Hg & _ & Hl).
  auto.
Defined.

Lemma ExecuteTask_sleeps_once_per_passed_case_witness :
  let w := Sample.world Sample.db_two_bindings in
  find (fun t => TestTask.ID t =? 1) (app_task_testtask (db w))
  = Some (Sample.task 1 0)
  /\ exists result,
      fst (TaskService.ExecuteTask unit Sample.json_accept 1 w) = (Some result, None)
      /\ slept (snd (TaskService.ExecuteTask unit Sample.json_accept 1 w))
         = slept w
           + 100 * Go.Millisecond
             * TaskExecutionSummary.PassedCases (TaskExecutionResult.Summary result).
Proof.
  split; [reflexivity|].
  exact (ExecuteTask_sleeps_once_per_passed_case unit Sample.json_accept 1
           (Sample.task 1 0) (Sample.world Sample.db_two_bindings) eq_refl).
Defined.

Lemma ExecuteTask_succeeds_iff_all_bindings_pass_witness :
  let w := Sample.world Sample.db_two_bindings in
  find (fun t => TestTask.ID t =? 1) (app_task_testtask (db w))
  = Some (Sample.task 1 0)
  /\ exists result,
      fst (TaskService.ExecuteTask unit Sample.json_accept 1 w) = (Some result, None)
      /\ TaskExecutionResult.Status result = "failed".
Proof.
  split; [reflexivity|].
  destruct (ExecuteTask_succeeds_iff_all_bindings_pass unit Sample.json_accept 1
              (Sample.task 1 0) (Sample.world Sample.db_two_bindings) eq_refl)
    as (result & Hrun & Hst & _).
  exists result. split; [exact Hrun|exact Hst].
Defined.

Lemma GetTaskStatus_StopTask_missing_task_witness :
  let w := Sample.world Sample.db_running in
  find (fun t => TestTask.ID t =? 9) (app_task_testtask (db w)) = None
  /\ TaskService.GetTaskStatus 9 w = (("", Some "任务不存在: record not found"), w)
  /\ TaskService.StopTask 9 w = (Some "任务不存在: record not found", w).
Proof.
  split; [reflexivity|].
  exact (GetTaskStatus_StopTask_missing_task 9 (Sample.world Sample.db_running) eq_refl).
Defined.

Lemma StopTask_refused_after_batch_or_stop_witness :
  let w := Sample.world Sample.db_running in
  let batch := snd (TaskService.ExecuteTask unit Sample.json_accept 1 w) in
  let stopped := snd (TaskService.StopTask 1 w) in
  find (fun t => TestTask.ID t =? 1) (app_task_testtask (db w))
  = Some (Sample.task 1 1)
  /\ (fst (TaskService.GetTaskStatus 1 batch) = ("2", None)
      /\ TaskService.StopTask 1 batch = (Some "任务未在运行中", batch))
  /\ (fst (TaskService.GetTaskStatus 1 stopped) = ("2", None)
      /\ TaskService.StopTask 1 stopped = (Some "任务未在运行中", stopped)).
Proof.
  split; [reflexivity|].
  destruct (StopTask_refused_after_batch_or_stop unit Sample.json_accept 1
              (Sample.task 1 1) (Sample.world Sample.db_running) eq_refl)
    as [Hb Hs].
  split; [exact Hb|exact (Hs eq_refl)].
Defined.

Lemma AddTask_adds_another_entry_witness :
  let w := Sample.world Sample.db_running in
  let c := snd (fst (SchedulerJobs.InitGlobalScheduler SampleCron.parse_accept w)) in
  (find (fun t => TestTask.ID t =? 1) (app_task_testtask (db w))
   = Some (Sample.task 1 1)
   /\ TestTask.IsScheduled (Sample.task 1 1) = true
   /\ Obs.accepted SampleCron.parse_accept (Sample.task 1 1) = true)
  /\ fst (fst (SchedulerJobs.AddTask SampleCron.parse_accept 1 c w)) = None
  /\ List.length
       (Obs.jobs_for 1 (snd (fst (SchedulerJobs.AddTask SampleCron.parse_accept 1 c w))))
     = S (List.length (Obs.jobs_for 1 c)).
Proof.
  split; [repeat split; vm_compute; reflexivity|].
  apply (AddTask_adds_another_entry SampleCron.parse_accept 1 _
           (Sample.world Sample.db_running) (Sample.task 1 1));
    vm_compute; reflexivity.
Defined.

Lemma SanitizeString_keeps_a_valid_username_witness :
  Validator.IsValidUsername "alice_01" = true
  /\ Validator.SanitizeString "alice_01" = "alice_01".
Proof.
  split; [reflexivity|].
  apply (SanitizeString_keeps_a_valid_username "alice_01"). reflexivity.
Defined.

Lemma IsValidPassword_only_asks_for_letter_and_digit_witness :
  Validator.IsValidPassword "secret1" = true
  /\ (forall before after,
        Validator.IsValidPassword (before ++ "secret1" ++ after)%string = true)
  /\ Validator.all_bytes Go.is_digit "secret1" = false
  /\ Validator.all_bytes Validator.is_letter "secret1" = false.
Proof.
  split; [reflexivity|].
  apply (IsValidPassword_only_asks_for_letter_and_digit "secret1"). reflexivity.
Defined.

Lemma SanitizeString_second_pass_trims_again_witness :
  Validator.IsValidUsername "bob" = true
  /\ Validator.SanitizeString "' bob" = " bob"
  /\ Validator.SanitizeString " bob" = "bob".
Proof.
  split; [reflexivity|].
  apply (SanitizeString_second_pass_trims_again "bob"). reflexivity.
Defined.
